(** * treetop: a shallow embedding of [main.c]

    treetop is a curses dashboard that tails a set of text files.  This
    development embeds the parts of [main.c] that decide what ends up in a
    file's tail buffer, how the change flag travels between the watcher
    loop and the menu, how the registry is built from the configuration
    file and what the command line does.

    Conventions.
    - The singly linked list [data_t *] is a Rocq [list data_t]; the
      identity of a node (pointer equality in C) is its position.
    - [char] is the signed 8-bit type of the usual ABIs; [int] results of
      [fgetc] are in [0..255] or [EOF].  Pointers and [size_t] are 64 bits
      wide (LP64), so [sizeof(char * )] is 8.
    - A heap block records the capacity that was requested for it and the
      cells the program has written, starting at its base address; cells
      past the capacity are bytes stored beyond the end of the block.
    - A tracked file is a regular file: a finite sequence of bytes that
      does not change while one extraction runs.
    - [ER] ends the process; functions that may call it return the state
      they reached together with a [status].
    - Of the curses windows, the content window is modelled as far as
      [main.c] prints into it itself: its size and the lines whose column
      3 holds [UPDATED_CHAR].  Where the menu library posts the menu, in
      that window or in [stdscr], is a parameter of the menu.
    - The two threads are modelled one at a time: each function is the
      sequential code of one thread, the mutexes are left out. *)

From Stdlib Require Import Strings.String Strings.Ascii Strings.Byte.
From Stdlib Require Import ZArith List Bool Lia.
Local Open Scope string_scope.
Local Open Scope list_scope.
Import ListNotations.
Local Open Scope Z_scope.

(** ** The C library as far as [main.c] uses it *)

Module Libc.

Definition EOF : Z := -1.
Definition NUL : Z := 0.
Definition NEWLINE : Z := 10.

(** Conversion of an [int] to [char] (signed, 8 bits, wrapping). *)
Definition char_of_int (z : Z) : Z := (z + 128) mod 256 - 128.

(** [fgetc] hands a byte out as an [unsigned char] converted to [int]. *)
Definition int_of_byte (b : byte) : Z := Z.of_N (Byte.to_N b).

Definition char_of_byte (b : byte) : Z := char_of_int (int_of_byte b).

(** Conversion of an [int] to [size_t]. *)
Definition size_t_of_int (z : Z) : Z := z mod 2 ^ 64.

Definition PTRDIFF_MAX : Z := 2 ^ 63 - 1.

(** A stream opened for reading: the bytes of the file and the read
    position. *)
Record FILE := mkFILE { contents : list byte; pos : nat }.

Definition file_size (fp : FILE) : Z := Z.of_nat (length (contents fp)).

(** [fseek(fp, off, SEEK_END)]: fails (returns -1, position unchanged)
    when the resulting offset is negative; seeking past the end is
    allowed. *)
Definition fseek_end (fp : FILE) (off : Z) : Z * FILE :=
  let target := file_size fp + off in
  if target <? 0 then (-1, fp)
  else (0, mkFILE (contents fp) (Z.to_nat target)).

(** [fseek(fp, 0, SEEK_SET)]. *)
Definition rewind (fp : FILE) : FILE := mkFILE (contents fp) 0.

(** The bytes [fgetc] will still deliver, in order. *)
Definition unread (fp : FILE) : list byte := skipn (pos fp) (contents fp).

(** Advance the read position by [n] delivered bytes. *)
Definition advance (fp : FILE) (n : nat) : FILE :=
  mkFILE (contents fp) (pos fp + n).

(** A heap block handed out by [malloc]/[realloc]. *)
Record block := mkBlock { cap : Z; cells : list Z }.

(** The calls made to the allocator.  The allocator itself is outside
    the program: it is an oracle telling which calls return non-NULL. *)
Inductive alloc_call :=
| Malloc (size : Z)
| Realloc (old_cap : Z) (size : Z).

(** glibc: [malloc(0)] returns a block, [realloc(p, 0)] frees [p] and
    returns NULL, requests above [PTRDIFF_MAX] fail. *)
Definition glibc_alloc (c : alloc_call) : bool :=
  match c with
  | Malloc n => n <=? PTRDIFF_MAX
  | Realloc _ n => (0 <? n) && (n <=? PTRDIFF_MAX)
  end.

(** BSD libc: a zero-sized request returns a minimum-sized block. *)
Definition bsd_alloc (c : alloc_call) : bool :=
  match c with
  | Malloc n => n <=? PTRDIFF_MAX
  | Realloc _ n => n <=? PTRDIFF_MAX
  end.

(** [memset(p, 0, n)] on the cells of a block. *)
Definition memset0 (m : list Z) (n : Z) : list Z :=
  repeat NUL (Z.to_nat n) ++ skipn (Z.to_nat n) m.

(** [p[j] = c].  Cells are written in increasing order by the program;
    a cell that was never written reads as 0. *)
Fixpoint store (m : list Z) (j : nat) (c : Z) : list Z :=
  match j, m with
  | O, [] => [c]
  | O, _ :: t => c :: t
  | S k, [] => NUL :: store [] k c
  | S k, x :: t => x :: store t k c
  end.

(** [p[j]]. *)
Definition load (m : list Z) (j : nat) : Z := nth j m NUL.

(** The C string that starts at the first cell. *)
Fixpoint c_string (m : list Z) : list Z :=
  match m with
  | [] => []
  | c :: t => if c =? NUL then [] else c :: c_string t
  end.

End Libc.
Import Libc.

(** ** Process status and diagnostics *)

Inductive status :=
| Running
| Exited (code : Z) (diag : string).

Definition nl : string := String (ascii_of_nat 10) EmptyString.

(** [_PR(tag, fd, ...)]: the line printed for a tag and a message. *)
Definition _PR (tag msg : string) : string :=
  ("[logtop]" ++ tag ++ msg ++ nl)%string.

(** [ER(...)]: print on stderr, then [exit(-1)]. *)
Definition ER (msg : string) : status := Exited (-1) (_PR "[error] " msg).

(** [WR(...)]: the warning line printed on stderr. *)
Definition WR (msg : string) : string := _PR "[warning] " msg.

(** ** Data model *)

Inductive state_e := UNCHANGED | UPDATED.

Definition state_e_eqb (a b : state_e) : bool :=
  match a, b with
  | UNCHANGED, UNCHANGED | UPDATED, UPDATED => true
  | _, _ => false
  end.

(** [data_t].  [line] is a pointer into [buff], kept as an offset from
    the base of the block; [None] is NULL.  [description] is the [str]
    field of the entry's menu item: either the text set when the menu was
    created or an alias of [line]. *)
Record data_t := mkData {
  fd : Z;
  fp : FILE;
  full_path : string;
  base_name : string;
  line : option nat;
  buff : option block;
  state : state_e;
  description : option nat;
  last_mod : Z
}.

Definition set_state (d : data_t) (s : state_e) : data_t :=
  mkData (fd d) (fp d) (full_path d) (base_name d) (line d) (buff d) s
         (description d) (last_mod d).

Definition set_last_mod (d : data_t) (t : Z) : data_t :=
  mkData (fd d) (fp d) (full_path d) (base_name d) (line d) (buff d)
         (state d) (description d) t.

Definition set_description (d : data_t) (p : option nat) : data_t :=
  mkData (fd d) (fp d) (full_path d) (base_name d) (line d) (buff d)
         (state d) p (last_mod d).

Definition set_tail (d : data_t) (f : FILE) (b : block) (l : nat) : data_t :=
  mkData (fd d) f (full_path d) (base_name d) (Some l) (Some b)
         (state d) (description d) (last_mod d).

Definition set_buff (d : data_t) (f : FILE) (b : block) : data_t :=
  mkData (fd d) f (full_path d) (base_name d) (line d) (Some b)
         (state d) (description d) (last_mod d).

(** ** Tail extraction: [read_files] *)

Module Tail.

(** [sizeof(d->buff)]: the size of a [char *]. *)
Definition sizeof_buff : Z := 8.

(** State of the [fgetc] loop after it ends. *)
Record scan := mkScan {
  mem : list Z;     (* the cells of [d->buff] *)
  j_end : nat;      (* [j] *)
  last : nat;       (* [last - d->buff] *)
  taken : nat       (* bytes consumed from the stream *)
}.

(** The loop [while ((c = fgetc(d->fp)) != EOF) { ... }] with [c] a
    [char], run over the bytes the stream still holds. *)
Fixpoint fgetc_loop (rest : list byte) (m : list Z) (j lst n : nat) : scan :=
  match rest with
  | [] => mkScan m j lst n
  | b :: rest' =>
      let c := char_of_int (int_of_byte b) in
      if c =? EOF then mkScan m j lst (S n)
      else
        let m1 := store m j c in
        let lst1 :=
          if (0 <? Z.of_nat j) && (load m1 (j - 1) =? NEWLINE)
          then j else lst in
        fgetc_loop rest' m1 (S j) lst1 (S n)
  end.

(** Lines 194-195: [if (fseek(fp, -bytes, SEEK_END) == -1)
    fseek(fp, 0, SEEK_SET)]. *)
Definition seek_tail (bytes : Z) (f : FILE) : FILE :=
  let (r, f') := fseek_end f (- bytes) in
  if r =? -1 then rewind f else f'.

(** Lines 192-208: clear the block, position the stream, copy the
    stream into the block, terminate it and set [d->line]. *)
Definition fill (bytes : Z) (d : data_t) (b : block) : data_t :=
  let m0 := memset0 (cells b) (size_t_of_int bytes) in
  let f0 := seek_tail bytes (fp d) in
  let s := fgetc_loop (unread f0) m0 0 0 0 in
  let m1 := store (mem s) (j_end s) NUL in
  set_tail d (advance f0 (taken s)) (mkBlock (cap b) m1) (last s).

(** The [fgetc] loop pass by pass: the cells of the block and the
    number of bytes consumed after each pass that stores a char. *)
Fixpoint fgetc_passes (rest : list byte) (m : list Z) (j n : nat)
  : list (list Z * nat) :=
  match rest with
  | [] => []
  | b :: rest' =>
      let c := char_of_int (int_of_byte b) in
      if c =? EOF then []
      else
        let m1 := store m j c in
        (m1, S n) :: fgetc_passes rest' m1 (S j) (S n)
  end.

(** Lines 192-208 step by step: the values of [*d] after the [memset],
    after the [fseek]s, after each pass of the loop, after the
    terminator is stored and after [d->line] is set. *)
Definition writing (bytes : Z) (d : data_t) (b : block) : list data_t :=
  let m0 := memset0 (cells b) (size_t_of_int bytes) in
  let f0 := seek_tail bytes (fp d) in
  let s := fgetc_loop (unread f0) m0 0 0 0 in
  let m1 := store (mem s) (j_end s) NUL in
  [set_buff d (fp d) (mkBlock (cap b) m0);
   set_buff d f0 (mkBlock (cap b) m0)]
  ++ map (fun p => set_buff d (advance f0 (snd p)) (mkBlock (cap b) (fst p)))
         (fgetc_passes (unread f0) m0 0 0)
  ++ [set_buff d (advance f0 (taken s)) (mkBlock (cap b) m1);
      fill bytes d b].

Section WithAllocator.

(** Which allocator calls return a block. *)
Variable grant : alloc_call -> bool.

(** The body of the [if (d->state == UPDATED)] branch for one entry.
    Returns the entry, the allocator calls made and the status. *)
Definition read_file (bytes : Z) (d : data_t)
  : data_t * list alloc_call * status :=
  let size := size_t_of_int bytes in
  match buff d with
  | None =>
      if grant (Malloc size)
      then (fill bytes d (mkBlock size []), [Malloc size], Running)
      else (d, [Malloc size], ER "Can't allocate memory for file buffer")
  | Some b =>
      if negb (size =? sizeof_buff) then
        if grant (Realloc (cap b) size)
        then (fill bytes d
                (mkBlock size (firstn (Z.to_nat size) (cells b))),
              [Realloc (cap b) size], Running)
        else (d, [Realloc (cap b) size],
              ER "Can't reallocate memory for file buffer")
      else (fill bytes d b, [], Running)
  end.

(** [read_files(bytes, opened_files, data)]. *)
Fixpoint read_files (bytes : Z) (opened_files : Z) (data : list data_t)
  : list data_t * list alloc_call * status :=
  match data with
  | [] => ([], [], Running)
  | d :: next =>
      match state d with
      | UPDATED =>
          match read_file bytes d with
          | (d', calls, Running) =>
              match read_files bytes opened_files next with
              | (next', calls', st) => (d' :: next', calls ++ calls', st)
              end
          | (d', calls, st) => (d' :: next, calls, st)
          end
      | UNCHANGED =>
          match read_files bytes opened_files next with
          | (next', calls', st) => (d :: next', calls', st)
          end
      end
  end.

End WithAllocator.

(** What a reader of the buffer sees: the C string at [d->buff]. *)
Definition tail_content (d : data_t) : list Z :=
  match buff d with
  | Some b => c_string (cells b)
  | None => []
  end.

(** The C string at [d->line]. *)
Definition last_line (d : data_t) : list Z :=
  match buff d, line d with
  | Some b, Some k => c_string (skipn k (cells b))
  | _, _ => []
  end.

(** The file as the sequence of [char]s it holds. *)
Definition file_chars (f : FILE) : list Z := map char_of_byte (contents f).

End Tail.

(** The chars the [fgetc] loop stores when run over [rest]: everything up
    to the first byte whose [char] value equals [EOF]. *)
Fixpoint stored (rest : list byte) : list Z :=
  match rest with
  | [] => []
  | b :: rest' =>
      if char_of_byte b =? EOF then [] else char_of_byte b :: stored rest'
  end.

(** The window of the file that one extraction copies into the buffer:
    what the loop stores from where the two [fseek]s left the stream. *)
Definition window (bytes : Z) (d : data_t) : list Z :=
  stored (unread (Tail.seek_tail bytes (fp d))).

(** A tracked file as [data_init] leaves it, with the given content. *)
Definition fresh (fdn : Z) (path : string) (bytes : list byte) : data_t :=
  mkData fdn (mkFILE bytes 0) path path None None UPDATED None 0.

Definition ascii_bytes (s : string) : list byte :=
  map byte_of_ascii (list_ascii_of_string s).

(** ** The menu and the screen *)

Module Curses.

Definition KEY_MAX : Z := 511.
Definition REQ_UP_ITEM : Z := KEY_MAX + 3.
Definition REQ_DOWN_ITEM : Z := KEY_MAX + 4.

(** The window the menu library posts a menu in, [menu_sub(menu)].
    [main.c] gives the menu its window with [set_menu_win] and sets no
    sub-window; depending on the library the menu is then posted in that
    window, or in [stdscr], as libmenuw 6.4 does. *)
Inductive posted_in := In_menu_win | In_stdscr.

(** A menu: how many items it has, which one is current and where the
    library posts it.  Item [i] was created for the [i]-th node of the
    registry ([screen_create_menu]), so [item_index] of a node's item is
    the node's position. *)
Record MENU := mkMenu { nitems : nat; curitem : nat; sub : posted_in }.

(** [menu_driver] for the two requests [process] issues; the menu is
    not cyclic, so a request past either end is denied. *)
Definition menu_driver (m : MENU) (c : Z) : MENU :=
  if c =? REQ_UP_ITEM then
    match curitem m with
    | O => m
    | S k => mkMenu (nitems m) k (sub m)
    end
  else if c =? REQ_DOWN_ITEM then
    if (S (curitem m) <? nitems m)%nat
    then mkMenu (nitems m) (S (curitem m)) (sub m) else m
  else m.

(** [item_userptr(current_item(menu))]: the node the current item was
    created for, NULL for a menu without items. *)
Definition current_userptr (m : MENU) : option nat :=
  if (curitem m <? nitems m)%nat then Some (curitem m) else None.

(** A window as far as [main.c] prints into it itself: line by line,
    whether column 3 holds [UPDATED_CHAR], and the number of columns. *)
Record WINDOW := mkWin { col3 : list bool; ncols : Z }.


(** [newwin(nlines, ncols, ...)] for sizes that are positive: a blank
    window. *)
Definition newwin (nlines ncols : Z) : WINDOW :=
  mkWin (repeat false (Z.to_nat nlines)) ncols.

(** The lines with column 3 of line [y] set; no change when the window
    has no line [y]. *)
Fixpoint put (y : nat) (l : list bool) : list bool :=
  match y, l with
  | _, [] => []
  | O, _ :: t => true :: t
  | S k, b :: t => b :: put k t
  end.

(** [mvwprintw(w, y, 3, UPDATED_CHAR)]: [wmove] returns ERR for a
    position outside the window, and nothing is printed then. *)
Definition mvwprintw (w : WINDOW) (y : nat) : WINDOW :=
  if 3 <? ncols w then mkWin (put y (col3 w)) (ncols w) else w.

(** Whether the position (y, 3) lies in the window. *)
Definition inside (w : WINDOW) (y : nat) : bool :=
  (y <? List.length (col3 w))%nat && (3 <? ncols w).

(** Whether line [y] of the window shows [UPDATED_CHAR] in column 3. *)
Definition indicator (w : WINDOW) (y : nat) : bool := nth y (col3 w) false.

(** [werase]. *)
Definition werase (w : WINDOW) : WINDOW :=
  mkWin (map (fun _ => false) (col3 w)) (ncols w).

(** [wresize(w, nlines, ncols)] for sizes that are positive: the cells
    that fit are kept, new ones are blank. *)
Definition wresize (w : WINDOW) (nlines ncols : Z) : WINDOW :=
  let kept :=
    firstn (Z.to_nat nlines) (if 3 <? ncols then col3 w else []) in
  mkWin (kept ++ repeat false (Z.to_nat nlines - List.length kept)) ncols.

End Curses.
Import Curses.

(** [screen_t] as far as the update logic goes.  [content] is the
    content window, into which [menu_driver_update] prints
    [UPDATED_CHAR]; [details] is the size of the details window as
    (lines, columns); [doupdates] counts the surface flushes;
    [input_timeout] is the argument last given to [timeout]. *)
Record screen_t := mkScreen {
  datas : list data_t;
  menu : MENU;
  content : WINDOW;
  details : Z * Z;
  details_shown : bool;
  doupdates : nat;
  input_timeout : Z
}.

Module Menu.

(** [refresh_menus]: unpost and post the menu (under [mtx_post_menu]).
    [unpost_menu] erases the window the menu is posted in and
    [post_menu] draws the items there, none of which reaches column 3 of
    a line with [UPDATED_CHAR]: the mark of the menu, five chars wide,
    has a blank there.  A menu without items was never posted, and
    [unpost_menu] does nothing to it.  When the library posts the menu
    in [stdscr], the content window is not touched. *)
Definition refresh_menus (scr : screen_t) : screen_t :=
  match sub (menu scr), nitems (menu scr) with
  | In_menu_win, S _ =>
      mkScreen (datas scr) (menu scr) (werase (content scr)) (details scr)
               (details_shown scr) (doupdates scr) (input_timeout scr)
  | _, _ => scr
  end.

(** [doupdate]. *)
Definition doupdate (scr : screen_t) : screen_t :=
  mkScreen (datas scr) (menu scr) (content scr) (details scr)
           (details_shown scr) (S (doupdates scr)) (input_timeout scr).

(** [update_panels_safe]: [doupdate] under [mtx_update_panels]. *)
Definition update_panels_safe (scr : screen_t) : screen_t := doupdate scr.

(** First loop of [menu_driver_update]: the item descriptions follow
    [d->line]. *)
Definition describe (d : data_t) : data_t :=
  match state d with
  | UPDATED => set_description d (line d)
  | UNCHANGED => d
  end.

Definition same_node (sel : option nat) (i : nat) : bool :=
  match sel with
  | Some k => (k =? i)%nat
  | None => false
  end.

(** Second loop of [menu_driver_update], from the node at position [i]
    on, printing into the window [w]: the new nodes and the window.
    The line printed in is [item_index(d->item)], the position of the
    node, wherever the menu shows the item. *)
Fixpoint indicate (sel : option nat) (i : nat) (ds : list data_t)
    (w : WINDOW) : list data_t * WINDOW :=
  match ds with
  | [] => ([], w)
  | d :: next =>
      match state d with
      | UPDATED =>
          if negb (same_node sel i)
          then
            let (next', w') := indicate sel (S i) next (mvwprintw w i) in
            (d :: next', w')
          else
            let (next', w') := indicate sel (S i) next w in
            (set_state d UNCHANGED :: next', w')
      | UNCHANGED =>
          let (next', w') := indicate sel (S i) next w in
          (d :: next', w')
      end
  end.

(** [menu_driver_update(screen, c)]. *)
Definition menu_driver_update (scr : screen_t) (c : Z) : screen_t :=
  let m := if 0 <=? c then menu_driver (menu scr) c else menu scr in
  let ds := map describe (datas scr) in
  let scr1 :=
    refresh_menus (mkScreen ds m (content scr) (details scr)
                            (details_shown scr) (doupdates scr)
                            (input_timeout scr)) in
  let (ds', w') := indicate (current_userptr m) 0 ds (content scr1) in
  let scr' := mkScreen ds' m w' (details scr) (details_shown scr)
                       (doupdates scr) (input_timeout scr) in
  if 0 <? c then update_panels_safe scr' else scr'.

(** Successive calls, one per key. *)
Definition cycles (scr : screen_t) (keys : list Z) : screen_t :=
  fold_left menu_driver_update keys scr.


End Menu.

(** ** The watcher thread: [thread_read_files] *)

Inductive event :=
| Alloc (c : alloc_call)
| Stat (path : string)
| Usleep (usec : Z)
| Details (name : string) (text : list Z).

Module Watcher.

(** [getMaxBytes]: the writable bytes of a window of the given size. *)
Definition getMaxBytes (win : Z * Z) : Z * Z * Z :=
  let maxy := fst win - 2 in
  let maxx := snd win - 2 in
  (maxx * maxy, maxx, maxy).

(** What [kevent] delivered. *)
Inductive kev :=
| Nothing (i : Z)
| Sigwinch (LINES COLS : Z)
| Sigusr1
| Sigusr2
| Read (ident : Z)
| Vnode (ident : Z).

(** The thread's view: the screen with the registry, the global
    [show_details] and [opened_files]. *)
Record thread := mkThread {
  screen : screen_t;
  show_details : option nat;
  opened_files : Z
}.

Definition with_datas (scr : screen_t) (ds : list data_t) : screen_t :=
  mkScreen ds (menu scr) (content scr) (details scr) (details_shown scr)
           (doupdates scr) (input_timeout scr).

Definition with_panel (scr : screen_t) (shown : bool) : screen_t :=
  mkScreen (datas scr) (menu scr) (content scr) (details scr) shown
           (doupdates scr) (input_timeout scr).

Definition wresize_details (scr : screen_t) (win : Z * Z) : screen_t :=
  mkScreen (datas scr) (menu scr) (content scr) win (details_shown scr)
           (doupdates scr) (input_timeout scr).

Definition wresize_content (scr : screen_t) (win : Z * Z) : screen_t :=
  mkScreen (datas scr) (menu scr) (wresize (content scr) (fst win) (snd win))
           (details scr) (details_shown scr) (doupdates scr)
           (input_timeout scr).

(** Lines 405-410: flag the first node whose descriptor is [ident]. *)
Fixpoint flag_fd (ident : Z) (ds : list data_t) : list data_t :=
  match ds with
  | [] => []
  | d :: next =>
      if fd d =? ident then set_state d UPDATED :: next
      else d :: flag_fd ident next
  end.

(** Lines 370-415: act on what [kevent] returned.  [SIGWINCH] is
    taken on a terminal of at least four lines and three columns, where
    the [wresize] calls succeed. *)
Definition on_kevent (ev : kev) (t : thread) : thread * list event :=
  match ev with
  | Sigwinch LINES COLS =>
      let scr :=
        wresize_details
          (wresize_content (Menu.doupdate (screen t)) (LINES - 3, COLS - 2))
          (LINES - 3, COLS - 2) in
      (mkThread (Menu.update_panels_safe (Menu.refresh_menus scr))
                (show_details t) (opened_files t), [])
  | Sigusr1 =>
      (mkThread (screen t) (current_userptr (menu (screen t)))
                (opened_files t), [])
  | Sigusr2 => (mkThread (screen t) None (opened_files t), [])
  | Read ident =>
      (mkThread (with_datas (screen t) (flag_fd ident (datas (screen t))))
                (show_details t) (opened_files t), [])
  | Nothing _ | Vnode _ => (t, [])
  end.

Section Polling.

(** [stat]: the modification time of a path, if it can be had. *)
Variable stat : string -> option Z.

(** Lines 418-429: one sweep over the registry, the loop that
    [data_update] also has (there with the [struct stat stats] that is
    commented out in [thread_read_files]).  Returns the nodes, the
    [stat] queries made and the status. *)
Fixpoint stat_sweep (ds : list data_t)
  : list data_t * list event * status :=
  match ds with
  | [] => ([], [], Running)
  | d :: next =>
      match stat (full_path d) with
      | None =>
          (d :: next, [Stat (full_path d)],
           ER ("Could not obtain file stats for: '"
               ++ base_name d ++ "'"))
      | Some mtime =>
          let d' :=
            if negb (mtime =? last_mod d)
            then set_state (set_last_mod d mtime) UPDATED else d in
          match stat_sweep next with
          | (next', evs, st) => (d' :: next', Stat (full_path d) :: evs, st)
          end
      end
  end.

End Polling.

Section Loop.

Variable grant : alloc_call -> bool.

(** Lines 339-367: extract the tails, then show either the menu or
    the details pane, then flush. *)
Definition display (t : thread) : thread * list event * status :=
  let '(bytes, maxx, maxy) := getMaxBytes (details (screen t)) in
  match Tail.read_files grant bytes (opened_files t) (datas (screen t)) with
  | (ds, calls, Running) =>
      let scr := with_datas (screen t) ds in
      let (scr', evs) :=
        match show_details t with
        | None => (with_panel (Menu.menu_driver_update scr (-1)) false, [])
        | Some i =>
            match nth_error ds i with
            | Some d =>
                (with_panel scr true,
                 [Details (base_name d) (Tail.tail_content d)])
            | None => (with_panel scr true, [])
            end
        end in
      (mkThread (Menu.update_panels_safe scr') (show_details t)
                (opened_files t),
       map Alloc calls ++ evs, Running)
  | (ds, calls, st) =>
      (mkThread (with_datas (screen t) ds) (show_details t)
                (opened_files t), map Alloc calls, st)
  end.

(** One turn of [for (;;)] with kqueue. *)
Definition turn_kqueue (ev : kev) (t : thread)
  : thread * list event * status :=
  match display t with
  | (t1, evs, Running) =>
      let (t2, evs') := on_kevent ev t1 in (t2, evs ++ evs', Running)
  | r => r
  end.

(** One turn of [for (;;)] without kqueue. *)
Definition turn_poll (stat : string -> option Z) (t : thread)
  : thread * list event * status :=
  match display t with
  | (t1, evs, Running) =>
      match stat_sweep stat (datas (screen t1)) with
      | (ds, evs', Running) =>
          (mkThread (with_datas (screen t1) ds) (show_details t1)
                    (opened_files t1),
           evs ++ evs' ++ [Usleep 25000], Running)
      | (ds, evs', st) =>
          (mkThread (with_datas (screen t1) ds) (show_details t1)
                    (opened_files t1), evs ++ evs', st)
      end
  | r => r
  end.


Fixpoint thread_read_files_poll (stats : list (string -> option Z)) (t : thread)
  : thread * list event * status :=
  match stats with
  | [] => (t, [], Running)
  | stat :: stats' =>
      match turn_poll stat t with
      | (t1, out, Running) =>
          match thread_read_files_poll stats' t1 with
          | (t2, out', st) => (t2, out ++ out', st)
          end
      | r => r
      end
  end.

End Loop.

End Watcher.

(** ** The configuration file: [data_init] *)

Module Config.

Definition COMMENT_CHAR : ascii := "#"%char.
Definition LF : ascii := ascii_of_nat 10.

(** [isspace] in the C locale. *)
Definition isspace (c : ascii) : bool :=
  let n := nat_of_ascii c in
  ((n =? 32) || ((9 <=? n) && (n <=? 13)))%nat.

Definition ascii_eqb (a b : ascii) : bool := Ascii.eqb a b.

(** The text up to the first occurrence of [ch]:
    [if (strchr(c, ch)) *strchr(c, ch) = 0]. *)
Fixpoint cut (ch : ascii) (l : list ascii) : list ascii :=
  match l with
  | [] => []
  | c :: t => if ascii_eqb c ch then [] else c :: cut ch t
  end.

(** The C string held by an array of chars. *)
Definition cstr (l : list ascii) : list ascii := cut zero l.

(** [while ( *c && isspace( *c)) ++c]. *)
Fixpoint skip_space (l : list ascii) : list ascii :=
  match l with
  | c :: t => if isspace c then skip_space t else l
  | [] => []
  end.

(** [getline] until it returns -1: the lines of the file, each with
    its line feed when it has one. *)
Fixpoint getlines (l cur : list ascii) : list (list ascii) :=
  match l with
  | [] => match cur with [] => [] | _ => [rev cur] end
  | c :: t =>
      if ascii_eqb c LF then rev (c :: cur) :: getlines t []
      else getlines t (c :: cur)
  end.

(** Lines 566-582: the path a line of the configuration names, if it
    names one. *)
Definition path_of_line (ln : list ascii) : option string :=
  let c := skip_space (cstr ln) in
  match c with
  | first :: _ =>
      if ascii_eqb first COMMENT_CHAR then None
      else
        match cut " "%char (cut LF (cut COMMENT_CHAR c)) with
        | [] => None
        | path => Some (string_of_list_ascii path)
        end
  | [] => None
  end.

(** [basename]: the last component of a path, trailing slashes aside. *)
Fixpoint drop_slashes (l : list ascii) : list ascii :=
  match l with
  | c :: t => if ascii_eqb c "/"%char then drop_slashes t else l
  | [] => []
  end.

Fixpoint last_component (l cur : list ascii) : list ascii :=
  match l with
  | [] => cur
  | c :: t =>
      if ascii_eqb c "/"%char then last_component t []
      else last_component t (cur ++ [c])
  end.

Definition basename (path : string) : string :=
  match list_ascii_of_string path with
  | [] => "."
  | l =>
      match rev (drop_slashes (rev l)) with
      | [] => "/"
      | body => string_of_list_ascii (last_component body [])
      end
  end.

(** The descriptor of the first tracked file: 0-2 are the standard
    streams and 3 is the configuration file, which stays open. *)
Definition first_fd : Z := 4.

(** What [data_init] printed. *)
Inductive output :=
| Debug (text : string)
| Warning (text : string).

Section WithFiles.

(** [fopen(path, "r")]: the bytes of the file, if it can be opened. *)
Variable fopen : string -> option (list byte).

(** [fcntl(fd, F_SETFL, ...) != -1]. *)
Variable fcntl_ok : Z -> bool.

(** The node [calloc]ed for a path that could be opened. *)
Definition node (path : string) (bytes : list byte) (n : Z) : data_t :=
  mkData (first_fd + n) (mkFILE bytes 0) path (basename path)
         None None UPDATED None 0.

(** The [while] loop of [data_init] over the remaining lines. *)
Fixpoint data_init_loop (lines : list (list ascii)) (head : list data_t)
    (nb_of_opened_files : Z)
  : list data_t * Z * list output * status :=
  match lines with
  | [] => (head, nb_of_opened_files, [], Running)
  | ln :: rest =>
      match path_of_line ln with
      | None => data_init_loop rest head nb_of_opened_files
      | Some c =>
          match fopen c with
          | None =>
              match data_init_loop rest head nb_of_opened_files with
              | (h, n, out, st) =>
                  (h, n,
                   Warning (WR ("Could not open file: '" ++ c ++ "'"))
                   :: out, st)
              end
          | Some bytes =>
              let d := node c bytes nb_of_opened_files in
              let dbg := Debug (_PR "[debug] "
                           ("Monitoring file: '" ++ c ++ "'...")) in
              if fcntl_ok (fd d) then
                match data_init_loop rest (d :: head)
                        (nb_of_opened_files + 1) with
                | (h, n, out, st) => (h, n, dbg :: out, st)
                end
              else
                (d :: head, nb_of_opened_files + 1, [dbg],
                 ER ("Can't set blocking to file " ++ base_name d))
          end
      end
  end.

(** [data_init(fname, &nb_of_opened_files)]. *)
Definition data_init (fname : string) (nb_of_opened_files : Z)
  : list data_t * Z * list output * status :=
  match fopen fname with
  | None =>
      ([], nb_of_opened_files, [],
       ER ("Could not open config file '" ++ fname ++ "'"))
  | Some bytes =>
      data_init_loop (getlines (map ascii_of_byte bytes) []) []
                     nb_of_opened_files
  end.

(** The paths a line contributes to the listing: one or none. *)
Definition paths_of (ln : list ascii) : list string :=
  match path_of_line ln with
  | Some c => [c]
  | None => []
  end.

Definition can_open (c : string) : bool :=
  match fopen c with
  | Some _ => true
  | None => false
  end.

(** The paths the configuration lists, in the order of the file. *)
Definition listed (bytes : list byte) : list string :=
  flat_map paths_of (getlines (map ascii_of_byte bytes) []).

(** Those of them that can be opened, in the same order. *)
Definition opened (bytes : list byte) : list string :=
  filter can_open (listed bytes).

End WithFiles.

End Config.

(** ** The command line and start-up: [main] *)

Module Cli.

Definition DEFAULT_TIMEOUT_SECS : Z := 10.

(** Conversion of a [long] to [int]. *)
Definition int_of_long (z : Z) : Z := (z + 2 ^ 31) mod 2 ^ 32 - 2 ^ 31.

Definition digit (c : ascii) : option Z :=
  let n := nat_of_ascii c in
  if ((48 <=? n) && (n <=? 57))%nat then Some (Z.of_nat n - 48) else None.

Fixpoint digits (l : list ascii) (acc : Z) : Z :=
  match l with
  | c :: t => match digit c with
              | Some v => digits t (10 * acc + v)
              | None => acc
              end
  | [] => acc
  end.

(** [atoi]: [strtol] in base 10, which saturates, converted to [int]. *)
Definition atoi (s : string) : Z :=
  let l := Config.skip_space (list_ascii_of_string s) in
  let v :=
    match l with
    | c :: t =>
        if Config.ascii_eqb c "-"%char then - digits t 0
        else if Config.ascii_eqb c "+"%char then digits t 0
        else digits l 0
    | [] => 0
    end in
  int_of_long (Z.max (- 2 ^ 63) (Z.min (2 ^ 63 - 1) v)).

(** [usage(execname, msg)]: print and [exit(0)]. *)
Definition usage (execname : string) (msg : option string) : status :=
  Exited 0
    ((match msg with Some m => _PR " " m | None => "" end)
     ++ "Usage: " ++ execname ++ " <config> [-d secs] [-h]" ++ nl
     ++ "    -h:      Display this help screen" ++ nl
     ++ "    -d secs: Auto-update display every 'secs' seconds" ++ nl)%string.

(** [strncmp(a, flag, strlen(flag)) == 0]. *)
Definition has_flag (flag a : string) : bool := String.prefix flag a.

(** The [for] loop of [main] over [argv[1..]]. *)
Fixpoint args (execname : string) (argv : list string)
    (fname : option string) (timeout_secs : Z)
  : option string * Z * status :=
  match argv with
  | [] => (fname, timeout_secs, Running)
  | a :: rest =>
      if has_flag "-d" a then
        match rest with
        | v :: rest' => args execname rest' fname (atoi v)
        | [] => (fname, timeout_secs,
                 usage execname (Some "Incorrect timeout value specified"))
        end
      else if has_flag "-h" a then
        (fname, timeout_secs, usage execname None)
      else
        match get 0 a with
        | Some "-"%char =>
            (fname, timeout_secs,
             usage execname (Some "Invalid argument specified"))
        | _ => args execname rest (Some a) timeout_secs
        end
  end.

(** [exit(EXIT_FAILURE)]. *)
Definition EXIT_FAILURE : Z := 1.

(** [sizeof(pthread_t)] and [sizeof(thread_param_t)] (an [int] and a
    pointer) on LP64. *)
Definition sizeof_pthread_t : Z := 8.
Definition sizeof_thread_param_t : Z := 16.

(** [screen_create_menu] and [screen_create(datas, timeout_ms)] once
    [initscr] has opened a terminal of [LINES] by [COLS], more than
    three lines and two columns, with a menu library that posts as
    [where_posted] says: the windows are blank, the first item is
    current, the details panel is hidden, [timeout(-1)] was called. *)
Definition screen_create (where_posted : posted_in) (LINES COLS : Z)
    (ds : list data_t) (timeout_ms : Z) : screen_t :=
  mkScreen ds (mkMenu (List.length ds) 0 where_posted)
           (newwin (LINES - 3) (COLS - 2))
           (LINES - 3, COLS - 2) false 0 (-1).

Section WithFiles.

Variable fopen : string -> option (list byte).
Variable fcntl_ok : Z -> bool.
Variables LINES COLS : Z.

(** [initscr]: [None] when it opens the terminal and returns.  When it
    cannot, it writes a line on stderr, here [Some] of that line, and
    calls [exit(EXIT_FAILURE)]. *)
Variable initscr : option string.

(** Where the menu library posts the menu. *)
Variable where_posted : posted_in.

(** [pthread_mutex_init]: what the call for the mutex of that number
    returns. *)
Variable pthread_mutex_init : nat -> Z.

(** Which [malloc] calls return a block. *)
Variable grant : alloc_call -> bool.

(** [threads_init(opened_files, screen)]: the state the watcher thread
    starts in, the allocator calls made and the status.  The result of
    [pthread_create] is not looked at by [main.c]; the thread is taken
    to start. *)
Definition threads_init (opened_files : Z) (scr : screen_t)
  : option Watcher.thread * list alloc_call * status :=
  if pthread_mutex_init 0 <? 0 then
    (None, [], ER "Can't initiate post_menu mutex")
  else if pthread_mutex_init 1 <? 0 then
    (None, [], ER "Can't initiate post_menu mutex")
  else if negb (grant (Malloc sizeof_pthread_t)) then
    (None, [Malloc sizeof_pthread_t],
     ER "Can't allocate memory for reading threads")
  else if negb (grant (Malloc sizeof_thread_param_t)) then
    (None, [Malloc sizeof_pthread_t; Malloc sizeof_thread_param_t],
     ER "Can't allocate memory for thread params")
  else
    (Some (Watcher.mkThread scr None opened_files),
     [Malloc sizeof_pthread_t; Malloc sizeof_thread_param_t], Running).

(** [main] up to and including [threads_init]: the state the watcher
    thread starts in, the parsed timeout and the status.  [argv] starts
    with the name of the program.  [initscr] is the first call of
    [screen_create]. *)
Definition main (argv : list string)
  : option Watcher.thread * Z * status :=
  match argv with
  | [] =>
      (None, DEFAULT_TIMEOUT_SECS,
       usage "" (Some "Please provide a configuration file"))
  | execname :: rest =>
      match args execname rest None DEFAULT_TIMEOUT_SECS with
      | (Some fname, timeout_secs, Running) =>
          if timeout_secs <? 0 then
            (None, timeout_secs,
             usage execname (Some "Incorrect timeout value specified"))
          else
            match Config.data_init fopen fcntl_ok fname 0 with
            | (ds, opened_files, _, Running) =>
                match initscr with
                | Some diag =>
                    (None, timeout_secs, Exited EXIT_FAILURE diag)
                | None =>
                    let scr :=
                      screen_create where_posted LINES COLS ds
                        (int_of_long (timeout_secs * 1000)) in
                    match threads_init opened_files scr with
                    | (Some t, _, Running) =>
                        (Some t, timeout_secs, Running)
                    | (_, _, st) => (None, timeout_secs, st)
                    end
                end
            | (_, _, _, st) => (None, timeout_secs, st)
            end
      | (None, timeout_secs, Running) =>
          (None, timeout_secs,
           usage execname (Some "Please provide a configuration file"))
      | (_, timeout_secs, st) => (None, timeout_secs, st)
      end
  end.

End WithFiles.

End Cli.

(** ** Statements and scenarios *)

(** What the loop maintains about [last]: [lst] marks a position in the
    chars [pre] stored so far. *)
Definition marks (pre : list Z) (lst : nat) : Prop :=
  (lst = 0%nat \/ (lst < List.length pre)%nat /\ nth (lst - 1) pre NUL = NEWLINE)
  /\ (forall i, (S i < List.length pre)%nat -> nth i pre NUL = NEWLINE ->
                (S i <= lst)%nat).

(** The allocator call [read_file] makes for an entry, if any. *)
Definition request (bytes : Z) (d : data_t) : option alloc_call :=
  match buff d with
  | None => Some (Malloc (size_t_of_int bytes))
  | Some b =>
      if size_t_of_int bytes =? Tail.sizeof_buff then None
      else Some (Realloc (cap b) (size_t_of_int bytes))
  end.

Definition granted (grant : alloc_call -> bool) (r : option alloc_call) : bool :=
  match r with
  | Some c => grant c
  | None => true
  end.

(** The marker as the sentence about it reads: right after a newline of
    the window, or at the start of the buffer with no newline in the
    window. *)
Definition after_newline_or_start (w : list Z) (k : nat) : Prop :=
  ((0 < k <= List.length w)%nat /\ nth (k - 1) w NUL = NEWLINE)
  \/ (k = 0%nat /\ ~ In NEWLINE w).

(** C6 as stated: the extraction goes through and leaves an empty tail. *)
Definition empty_tail_no_error (grant : alloc_call -> bool) (d : data_t) : Prop :=
  exists d' calls,
    Tail.read_file grant 0 d = (d', calls, Running)
    /\ Tail.tail_content d' = [].

(** The tail buffer of an entry is up to date: it holds the tail of the
    file as the file is now. *)
Definition tail_current (bytes : Z) (d : data_t) : Prop :=
  exists b, buff d = Some b /\ c_string (cells b) = c_string (window bytes d).

(** C4 as stated: an entry is seen flagged only once its tail has been
    written. *)
Definition flag_after_write (bytes : Z) (ds : list data_t) : Prop :=
  forall d, In d ds -> state d = UPDATED -> tail_current bytes d.

(** The entry after one extraction on a glibc system. *)
Definition read_once (bytes : Z) (d : data_t) : data_t :=
  fst (fst (Tail.read_file glibc_alloc bytes d)).

(** An entry whose tail was extracted and which was then acknowledged
    as the current item of the menu. *)
Definition seen (bytes : Z) (d : data_t) : data_t :=
  set_state (Menu.describe (read_once bytes d)) UNCHANGED.

(** A three-byte file after a first extraction with a budget of 100: the
    entry is still flagged, its block has capacity 100. *)
Definition abc_read : data_t :=
  read_once 100 (fresh 4 "x.log" (ascii_bytes "abc")).

(** The file behind an entry now holds [bytes]. *)
Definition with_contents (d : data_t) (bytes : list byte) : data_t :=
  mkData (fd d) (mkFILE bytes (pos (fp d))) (full_path d) (base_name d)
         (line d) (buff d) (state d) (description d) (last_mod d).

(** A thread on a 24x80 terminal watching one file: its tail "old" was
    extracted and acknowledged, then the file grew by the line "new". *)
Definition grown : Watcher.thread :=
  let d0 := fresh 4 "x.log" (ascii_bytes "old" ++ [x0a]) in
  let d1 := seen 1444 d0 in
  let d2 := with_contents d1 (ascii_bytes "old" ++ [x0a]
                              ++ ascii_bytes "new" ++ [x0a]) in
  Watcher.mkThread (Cli.screen_create In_stdscr 24 80 [d2] 10000) None 1.

Definition stat_query (d : data_t) : event := Stat (full_path d).

Definition stat_diag (d : data_t) : string :=
  "Could not obtain file stats for: '" ++ base_name d ++ "'".

(** A file system with a configuration naming three files, the second of
    which does not exist. *)
Definition three_files (path : string) : option (list byte) :=
  if String.eqb path "treetop.conf" then
    Some (ascii_bytes "# logs" ++ [x0a]
          ++ ascii_bytes "a.log" ++ [x0a]
          ++ ascii_bytes "  gone.log # moved" ++ [x0a]
          ++ ascii_bytes "b.log" ++ [x0a])
  else if String.eqb path "a.log" then Some (ascii_bytes "one" ++ [x0a])
  else if String.eqb path "b.log" then Some (ascii_bytes "two" ++ [x0a])
  else None.

Definition is_usleep (e : event) : bool :=
  match e with
  | Usleep _ => true
  | _ => false
  end.

(** A [stat] under which the two files of [three_files] were modified at
    time 7. *)
Definition stat_three (path : string) : option Z :=
  match three_files path with
  | Some _ => Some 7
  | None => None
  end.

(** The thread [main] starts for [three_files] on a 24x80 terminal. *)
Definition watching : Watcher.thread :=
  Watcher.mkThread
    (Cli.screen_create In_stdscr 24 80
       (fst (fst (fst (Config.data_init three_files (fun _ => true)
                         "treetop.conf" 0))))
       10000)
    None 2.




(** As [stat_three], after "a.log" was removed. *)
Definition stat_gone (path : string) : option Z :=
  if String.eqb path "a.log" then None else stat_three path.

(** ** The title: [find_center_start], [write_title_window] *)

Definition TITLE : string := "}-= TreeTop =-{".

(** [find_center_start(win, length)] for a window [max_x] columns wide;
    both divisions are C divisions. *)
Definition find_center_start (max_x : Z) (length : Z) : Z :=
  let half := Z.quot length 2 in
  Z.quot max_x 2 - half.

(** The column [write_title_window] prints the title at. *)
Definition title_column (max_x : Z) : Z :=
  find_center_start max_x (Z.of_nat (String.length TITLE)).

(** ** The foreground loop: [process] *)

Module Foreground.

Definition ERR : Z := -1.
Definition KEY_DOWN : Z := 258.
Definition KEY_UP : Z := 259.
Definition KEY_ENTER : Z := 343.

(** The signals [process] sends to its own process with kqueue. *)
Inductive signal := SIGUSR1 | SIGUSR2.

(** What the loop works on: the screen, the global [show_details] and
    the signals sent so far. *)
Record fg := mkFg {
  fg_screen : screen_t;
  fg_show_details : option nat;
  fg_sent : list signal
}.

(** [c != 'Q' && c != 'q'] fails. *)
Definition is_quit (c : Z) : bool := (c =? 81) || (c =? 113).

(** [case KEY_UP: case 'k':] and [case KEY_DOWN: case 'j':]. *)
Definition is_up (c : Z) : bool := (c =? KEY_UP) || (c =? 107).
Definition is_down (c : Z) : bool := (c =? KEY_DOWN) || (c =? 106).

(** [case KEY_ENTER: case '\n': case 'l':]. *)
Definition is_enter (c : Z) : bool :=
  (c =? KEY_ENTER) || (c =? 10) || (c =? 108).

(** The [switch] of [process] for one key; [kqueue] tells the build. *)
Definition on_key (kqueue : bool) (c : Z) (s : fg) : fg :=
  if is_up c then
    mkFg (Menu.menu_driver_update (fg_screen s) REQ_UP_ITEM)
         (fg_show_details s) (fg_sent s)
  else if is_down c then
    mkFg (Menu.menu_driver_update (fg_screen s) REQ_DOWN_ITEM)
         (fg_show_details s) (fg_sent s)
  else if is_enter c then
    if kqueue
    then mkFg (fg_screen s) (fg_show_details s) (fg_sent s ++ [SIGUSR1])
    else mkFg (fg_screen s) (current_userptr (menu (fg_screen s)))
              (fg_sent s)
  else if c =? ERR then s
  else
    if kqueue
    then mkFg (fg_screen s) (fg_show_details s) (fg_sent s ++ [SIGUSR2])
    else mkFg (fg_screen s) None (fg_sent s).

(** The [while] loop of [process] over the keys [getch] delivers; the
    flag tells whether the loop was left. *)
Fixpoint key_loop (kqueue : bool) (keys : list Z) (s : fg) : fg * bool :=
  match keys with
  | [] => (s, false)
  | c :: rest =>
      if is_quit c then (s, true)
      else key_loop kqueue rest (on_key kqueue c s)
  end.

(** [process(screen)]. *)
Definition process (kqueue : bool) (keys : list Z) (scr : screen_t)
  : fg * bool :=
  key_loop kqueue keys (mkFg scr None []).

(** The keys the loop acts on: those before the first quit key. *)
Fixpoint before_quit (keys : list Z) : list Z :=
  match keys with
  | [] => []
  | c :: rest => if is_quit c then [] else c :: before_quit rest
  end.

Definition is_move (c : Z) : bool := is_up c || is_down c.

(** The signal a key makes [process] send with kqueue. *)
Definition signal_of (c : Z) : list signal :=
  if is_move c then []
  else if is_enter c then [SIGUSR1]
  else if c =? ERR then []
  else [SIGUSR2].

End Foreground.

(** ** More statements and scenarios *)

(** The size an allocator call asks for. *)
Definition call_size (c : alloc_call) : Z :=
  match c with
  | Malloc n => n
  | Realloc _ n => n
  end.

(** An allocator that returns NULL for requests above [PTRDIFF_MAX]. *)
Definition refuses_large (grant : alloc_call -> bool) : Prop :=
  forall c, PTRDIFF_MAX < call_size c -> grant c = false.

(** The last [bytes] bytes of a file. *)
Definition last_bytes (bytes : Z) (f : FILE) : list byte :=
  skipn (Z.to_nat (file_size f - bytes)) (contents f).

(** The rows, counted from [i], of the entries that are flagged. *)
Fixpoint flagged_rows (i : nat) (ds : list data_t) : list nat :=
  match ds with
  | [] => []
  | d :: next =>
      match state d with
      | UPDATED => i :: flagged_rows (S i) next
      | UNCHANGED => flagged_rows (S i) next
      end
  end.

(** Two nodes hold the same file data: everything but the flag and the
    description of the menu item. *)
Definition same_file (d d' : data_t) : Prop :=
  fd d' = fd d /\ fp d' = fp d /\ full_path d' = full_path d
  /\ base_name d' = base_name d /\ line d' = line d /\ buff d' = buff d
  /\ last_mod d' = last_mod d.

(** The tail data of a node are as they were: buffer, line marker and
    stream. *)
Definition untouched (d d' : data_t) : Prop :=
  buff d' = buff d /\ line d' = line d /\ fp d' = fp d.

(** What [stat_sweep] makes of a node whose file was modified at
    [mtime]. *)
Definition swept (mtime : Z) (d : data_t) : data_t :=
  if negb (mtime =? last_mod d)
  then set_state (set_last_mod d mtime) UPDATED else d.

(** A node as [data_init] creates it for a path of the file system. *)
Definition initial (fopen : string -> option (list byte)) (d : data_t) : Prop :=
  state d = UPDATED /\ buff d = None /\ line d = None
  /\ description d = None /\ last_mod d = 0
  /\ fopen (full_path d) = Some (contents (fp d)) /\ pos (fp d) = 0%nat
  /\ base_name d = Config.basename (full_path d).

(** The line [data_init] prints for a listed path. *)
Definition report (fopen : string -> option (list byte)) (c : string)
  : Config.output :=
  if Config.can_open fopen c
  then Config.Debug (_PR "[debug] " ("Monitoring file: '" ++ c ++ "'..."))
  else Config.Warning (WR ("Could not open file: '" ++ c ++ "'")).

(** A char that ends the path on a configuration line. *)
Definition ends_path (c : ascii) : Prop :=
  c = Config.COMMENT_CHAR \/ c = Config.LF \/ c = " "%char \/ c = zero.

(** An eight-byte file, none of whose bytes is 0xFF or 0. *)
Definition eight : data_t := fresh 4 "x.log" (ascii_bytes "abcdefgh").

(* ================================================================== *)
(** * Properties *)
(* ================================================================== *)

(** ** Memory and the [fgetc] loop *)

Lemma store_app (pre suf : list Z) (c : Z) :
  store (pre ++ suf) (List.length pre) c = pre ++ c :: tl suf.
Proof.
  induction pre as [|x pre IH]; simpl.
  - destruct suf; reflexivity.
  - now rewrite IH.
Qed.

Lemma skipn_tl {A} (n : nat) (l : list A) : skipn n (tl l) = skipn (S n) l.
Proof. destruct l; simpl; [now destruct n|reflexivity]. Qed.

Lemma fgetc_loop_mem (rest : list byte) :
  forall pre suf lst n,
    Tail.mem (Tail.fgetc_loop rest (pre ++ suf) (List.length pre) lst n)
    = pre ++ stored rest ++ skipn (List.length (stored rest)) suf.
Proof.
  induction rest as [|b rest IH]; intros pre suf lst n; simpl.
  - reflexivity.
  - unfold char_of_byte.
    destruct (char_of_int (int_of_byte b) =? EOF) eqn:E; simpl.
    + reflexivity.
    + rewrite store_app.
      replace (pre ++ char_of_int (int_of_byte b) :: tl suf)
        with ((pre ++ [char_of_int (int_of_byte b)]) ++ tl suf)
        by now rewrite <- app_assoc.
      replace (S (List.length pre))
        with (List.length (pre ++ [char_of_int (int_of_byte b)]))
        by (rewrite length_app; simpl; lia).
      rewrite IH, skipn_tl, <- app_assoc. reflexivity.
Qed.

Lemma fgetc_loop_j (rest : list byte) :
  forall m j lst n,
    Tail.j_end (Tail.fgetc_loop rest m j lst n)
    = (j + List.length (stored rest))%nat.
Proof.
  induction rest as [|b rest IH]; intros m j lst n; simpl.
  - lia.
  - unfold char_of_byte.
    destruct (char_of_int (int_of_byte b) =? EOF); simpl.
    + lia.
    + rewrite IH. lia.
Qed.

Lemma marks_step (pre : list Z) (lst : nat) (c : Z) (suf : list Z) :
  marks pre lst ->
  marks (pre ++ [c])
        (if (0 <? Z.of_nat (List.length pre))
            && (load (pre ++ c :: suf) (List.length pre - 1) =? NEWLINE)
         then List.length pre else lst).
Proof.
  intros [Hl Hmax]. unfold load.
  destruct (Nat.eq_dec (List.length pre) 0) as [Z0|NZ].
  - replace (0 <? Z.of_nat (List.length pre)) with false
      by (symmetry; apply Z.ltb_ge; lia).
    simpl. split.
    + destruct Hl as [->|[H _]]; [now left|lia].
    + intros i Hi. rewrite length_app in Hi. simpl in Hi. lia.
  - replace (0 <? Z.of_nat (List.length pre)) with true
      by (symmetry; apply Z.ltb_lt; lia).
    simpl. rewrite app_nth1 by lia.
    destruct (nth (List.length pre - 1) pre NUL =? NEWLINE) eqn:E.
    + apply Z.eqb_eq in E. split.
      * right. rewrite length_app. simpl. split; [lia|].
        rewrite app_nth1 by lia. exact E.
      * intros i Hi _. rewrite length_app in Hi. simpl in Hi. lia.
    + apply Z.eqb_neq in E. split.
      * destruct Hl as [->|[H1 H2]]; [now left|right].
        rewrite length_app. simpl. split; [lia|].
        rewrite app_nth1 by lia. exact H2.
      * intros i Hi Hn. rewrite length_app in Hi. simpl in Hi.
        destruct (Nat.eq_dec (S i) (List.length pre)) as [Ei|Ni].
        -- exfalso. apply E. rewrite app_nth1 in Hn by lia.
           replace (List.length pre - 1)%nat with i by lia. exact Hn.
        -- apply Hmax; [lia|]. rewrite app_nth1 in Hn by lia. exact Hn.
Qed.

Lemma fgetc_loop_last (rest : list byte) :
  forall pre suf lst n,
    marks pre lst ->
    marks (pre ++ stored rest)
          (Tail.last (Tail.fgetc_loop rest (pre ++ suf) (List.length pre) lst n)).
Proof.
  induction rest as [|b rest IH]; intros pre suf lst n Hm; simpl.
  - now rewrite app_nil_r.
  - unfold char_of_byte.
    destruct (char_of_int (int_of_byte b) =? EOF) eqn:E; simpl.
    + now rewrite app_nil_r.
    + rewrite store_app.
      set (c := char_of_int (int_of_byte b)).
      replace (pre ++ c :: stored rest) with ((pre ++ [c]) ++ stored rest)
        by now rewrite <- app_assoc.
      pose proof (marks_step pre lst c (tl suf) Hm) as Hs.
      replace (pre ++ c :: tl suf) with ((pre ++ [c]) ++ tl suf) in *
        by now rewrite <- app_assoc.
      replace (S (List.length pre)) with (List.length (pre ++ [c]))
        by (rewrite length_app; simpl; lia).
      apply IH. exact Hs.
Qed.

Lemma tl_skipn {A} (n : nat) (l : list A) : tl (skipn n l) = skipn (S n) l.
Proof.
  revert l. induction n as [|n IH]; intros [|x l]; simpl; try reflexivity.
  - rewrite IH. now destruct l.
Qed.

Lemma marks_nil : marks [] 0.
Proof. split; [now left|]. simpl. intros i Hi. lia. Qed.

(** The buffer after [fill]: the window, its terminator, and whatever the
    cleared block held behind them. *)
Lemma fill_buff (bytes : Z) (d : data_t) (b : block) :
  buff (Tail.fill bytes d b)
  = Some (mkBlock (cap b)
            (window bytes d
             ++ NUL :: skipn (S (List.length (window bytes d)))
                             (memset0 (cells b) (size_t_of_int bytes)))).
Proof.
  unfold Tail.fill, window. simpl.
  set (f0 := Tail.seek_tail bytes (fp d)).
  set (m0 := memset0 (cells b) (size_t_of_int bytes)).
  rewrite fgetc_loop_j. simpl.
  pose proof (fgetc_loop_mem (unread f0) [] m0 0%nat 0%nat) as Hm.
  simpl in Hm. rewrite Hm.
  rewrite (store_app (stored (unread f0))), tl_skipn. reflexivity.
Qed.

Lemma fill_line (bytes : Z) (d : data_t) (b : block) :
  exists k, line (Tail.fill bytes d b) = Some k /\ marks (window bytes d) k.
Proof.
  unfold Tail.fill, window. simpl.
  set (f0 := Tail.seek_tail bytes (fp d)).
  set (m0 := memset0 (cells b) (size_t_of_int bytes)).
  eexists. split; [reflexivity|].
  exact (fgetc_loop_last (unread f0) [] m0 0%nat 0%nat marks_nil).
Qed.

Lemma fill_state (bytes : Z) (d : data_t) (b : block) :
  state (Tail.fill bytes d b) = state d.
Proof. reflexivity. Qed.

Lemma c_string_app_nul (w r : list Z) : c_string (w ++ NUL :: r) = c_string w.
Proof.
  induction w as [|c w IH]; simpl; [reflexivity|].
  destruct (c =? NUL); [reflexivity|now rewrite IH].
Qed.


Lemma c_string_id (w : list Z) : ~ In NUL w -> c_string w = w.
Proof.
  induction w as [|c w IH]; simpl; intros H; [reflexivity|].
  destruct (c =? NUL) eqn:E.
  - apply Z.eqb_eq in E. exfalso. apply H. now left.
  - rewrite IH; [reflexivity|]. intros Hin. apply H. now right.
Qed.


Lemma stored_all (rest : list byte) :
  ~ In xff rest -> stored rest = map char_of_byte rest.
Proof.
  induction rest as [|b rest IH]; simpl; intros H; [reflexivity|].
  destruct (char_of_byte b =? EOF) eqn:E.
  - exfalso. apply H. left. apply Z.eqb_eq in E.
    destruct b; vm_compute in E; try discriminate E. reflexivity.
  - rewrite IH; [reflexivity|]. intros Hin. apply H. now right.
Qed.


Lemma unread_seek_tail_small (bytes : Z) (f : FILE) :
  file_size f < bytes -> unread (Tail.seek_tail bytes f) = contents f.
Proof.
  intros Hs. unfold Tail.seek_tail, fseek_end, unread.
  replace (file_size f + - bytes <? 0) with true
    by (symmetry; apply Z.ltb_lt; lia).
  reflexivity.
Qed.


(** ** One entry: [read_file] *)

Lemma read_file_cases (grant : alloc_call -> bool) (bytes : Z) (d : data_t) :
  (exists b calls,
      Tail.read_file grant bytes d = (Tail.fill bytes d b, calls, Running))
  \/ (exists calls msg, Tail.read_file grant bytes d = (d, calls, ER msg)).
Proof.
  unfold Tail.read_file.
  destruct (buff d) as [b|].
  - destruct (negb (size_t_of_int bytes =? Tail.sizeof_buff)).
    + destruct (grant (Realloc (cap b) (size_t_of_int bytes))).
      * left. eauto.
      * right. eauto.
    + left. eauto.
  - destruct (grant (Malloc (size_t_of_int bytes))).
    + left. eauto.
    + right. eauto.
Qed.

Lemma read_file_running (grant : alloc_call -> bool) (bytes : Z)
    (d d' : data_t) (calls : list alloc_call) :
  Tail.read_file grant bytes d = (d', calls, Running) ->
  exists b, d' = Tail.fill bytes d b.
Proof.
  intros H.
  destruct (read_file_cases grant bytes d) as [(b & c & E)|(c & m & E)];
    rewrite E in H.
  - injection H as <- _. now exists b.
  - discriminate H.
Qed.

(** [request] is the call [read_file] makes. *)
Lemma read_file_calls (grant : alloc_call -> bool) (bytes : Z) (d : data_t) :
  snd (fst (Tail.read_file grant bytes d))
  = match request bytes d with
    | Some c => [c]
    | None => []
    end.
Proof.
  unfold request, Tail.read_file.
  destruct (buff d) as [b|].
  - destruct (size_t_of_int bytes =? Tail.sizeof_buff); simpl; [reflexivity|].
    now destruct (grant (Realloc (cap b) (size_t_of_int bytes))).
  - now destruct (grant (Malloc (size_t_of_int bytes))).
Qed.

(** [read_file] goes through whenever the allocator returns a block. *)
Lemma read_file_runs (grant : alloc_call -> bool) (bytes : Z) (d : data_t) :
  granted grant (request bytes d) = true ->
  exists b calls,
    Tail.read_file grant bytes d = (Tail.fill bytes d b, calls, Running).
Proof.
  unfold granted, request, Tail.read_file.
  destruct (buff d) as [b|].
  - destruct (size_t_of_int bytes =? Tail.sizeof_buff); simpl.
    + eauto.
    + intros ->. eauto.
  - intros ->. eauto.
Qed.

Lemma tail_content_fill (bytes : Z) (d : data_t) (b : block) :
  Tail.tail_content (Tail.fill bytes d b) = c_string (window bytes d).
Proof.
  unfold Tail.tail_content. rewrite fill_buff. simpl.
  apply c_string_app_nul.
Qed.


(** X2.  A file smaller than the budget is extracted whole, provided none of
    its bytes is 0xFF (which the loop takes for [EOF]) or 0 (which ends
    the C string). *)
Lemma small_file_whole (grant : alloc_call -> bool) (bytes : Z)
    (d d' : data_t) (calls : list alloc_call) :
  file_size (fp d) < bytes ->
  ~ In xff (contents (fp d)) ->
  ~ In x00 (contents (fp d)) ->
  Tail.read_file grant bytes d = (d', calls, Running) ->
  Tail.tail_content d' = Tail.file_chars (fp d).
Proof.
  intros Hs Hff H0 H. apply read_file_running in H as [b ->].
  rewrite tail_content_fill. unfold window.
  rewrite unread_seek_tail_small by exact Hs.
  rewrite stored_all by exact Hff.
  apply c_string_id. unfold Tail.file_chars.
  intros Hin. apply in_map_iff in Hin as (x & Hx & Hin).
  apply H0. destruct x; vm_compute in Hx; try discriminate Hx. exact Hin.
Qed.

(** When the window fills the budget, the terminator lands one cell past
    the capacity of the block. *)
Example terminator_past_full_window :
  buff (read_once 4 (fresh 4 "x.log" (ascii_bytes "abcdefgh")))
  = Some (mkBlock 4 [101; 102; 103; 104; 0]).
Proof. vm_compute. reflexivity. Qed.

(** C1.  The extracted tail of a file smaller than the budget is meant to
    be the whole file.  [read_files] keeps the result of [fgetc] in a
    [char], so a byte 0xFF compares equal to [EOF] and ends the copy: for
    the three-byte file 61 FF 62 and a budget of 10 the tail is the
    single char 61, not the file. *)
Theorem read_files_stops_at_byte_ff :
  let d := fresh 4 "x.log" [x61; xff; x62] in
  file_size (fp d) < 10
  /\ exists d',
       Tail.read_files glibc_alloc 10 1 [d] = ([d'], [Malloc 10], Running)
       /\ Tail.tail_content d' = [97]
       /\ Tail.file_chars (fp d) = [97; -1; 98]
       /\ Tail.tail_content d' <> Tail.file_chars (fp d).
Proof.
  split; [reflexivity|].
  eexists. split; [vm_compute; reflexivity|].
  repeat split; try (vm_compute; reflexivity).
  vm_compute. discriminate.
Qed.

Lemma firstn_terminated {A} (w : list A) (c : A) (r : list A) :
  firstn (S (List.length w)) (w ++ c :: r) = w ++ [c].
Proof.
  induction w as [|x w IH]; [reflexivity|].
  change (x :: firstn (S (List.length w)) (w ++ c :: r) = x :: w ++ [c]).
  now rewrite IH.
Qed.

(** ** The last-line marker *)

(** C2, as stated, fails: for a file holding the single line "hello"
    with its line feed, the window has a newline, yet [d->line] stays at
    the start of the buffer. *)
Lemma last_line_single_line_at_start :
  let d := fresh 4 "x.log" (ascii_bytes "hello" ++ [x0a]) in
  exists d' calls,
    Tail.read_file glibc_alloc 100 d = (d', calls, Running)
    /\ window 100 d = [104; 101; 108; 108; 111; 10]
    /\ line d' = Some 0%nat
    /\ ~ after_newline_or_start (window 100 d) 0.
Proof.
  do 2 eexists. split; [vm_compute; reflexivity|].
  split; [vm_compute; reflexivity|]. split; [reflexivity|].
  intros [[H _]|[_ H]]; [lia|].
  apply H. vm_compute. tauto.
Qed.

(** C2, amended.  After an extraction [d->line] points into the copied
    window, which the buffer holds followed by a terminator.  It points
    right after the last newline that has a further char of the window
    behind it, and to the start of the buffer when there is no such
    newline: a newline that ends the window does not move it. *)
Theorem last_line_after_inner_newline (grant : alloc_call -> bool)
    (bytes : Z) (d d' : data_t) (calls : list alloc_call) :
  Tail.read_file grant bytes d = (d', calls, Running) ->
  exists (b : block) (k : nat),
    buff d' = Some b
    /\ firstn (S (List.length (window bytes d))) (cells b)
       = window bytes d ++ [NUL]
    /\ line d' = Some k
    /\ (k <= List.length (window bytes d))%nat
    /\ (k = 0%nat
        \/ (k < List.length (window bytes d))%nat
           /\ nth (k - 1) (window bytes d) NUL = NEWLINE)
    /\ (forall i, (S i < List.length (window bytes d))%nat ->
                  nth i (window bytes d) NUL = NEWLINE -> (S i <= k)%nat).
Proof.
  intros H. apply read_file_running in H as [b0 ->].
  destruct (fill_line bytes d b0) as (k & Hk & [Hl Hmax]).
  eexists. exists k. split; [apply fill_buff|].
  split.
  { simpl. apply firstn_terminated. }
  split; [exact Hk|].
  split; [destruct Hl as [->|[Hl _]]; lia|].
  split; [exact Hl|exact Hmax].
Qed.

Lemma last_line_after_inner_newline_witness :
  exists (b : block) (k : nat),
    buff (Tail.fill 100 (fresh 4 "x.log" (ascii_bytes "ab" ++ [x0a] ++ ascii_bytes "cd"))
                    (mkBlock 100 [])) = Some b
    /\ line (Tail.fill 100 (fresh 4 "x.log" (ascii_bytes "ab" ++ [x0a] ++ ascii_bytes "cd"))
                       (mkBlock 100 [])) = Some k
    /\ k = 3%nat.
Proof.
  destruct (last_line_after_inner_newline glibc_alloc 100
              (fresh 4 "x.log" (ascii_bytes "ab" ++ [x0a] ++ ascii_bytes "cd"))
              (Tail.fill 100 (fresh 4 "x.log" (ascii_bytes "ab" ++ [x0a] ++ ascii_bytes "cd"))
                         (mkBlock 100 []))
              [Malloc 100] ltac:(vm_compute; reflexivity))
    as (b & k & Hb & _ & Hk & _).
  exists b, k. split; [exact Hb|]. split; [exact Hk|].
  vm_compute in Hk. now injection Hk as <-.
Defined.

(** ** Reallocation *)

(** With a buffer in place, [read_file] calls [realloc] exactly when the
    budget differs from the size of a pointer; the capacity of the block
    plays no part. *)
Lemma realloc_unless_pointer_size (grant : alloc_call -> bool) (bytes : Z)
    (d : data_t) (b : block) :
  buff d = Some b ->
  snd (fst (Tail.read_file grant bytes d))
  = if size_t_of_int bytes =? Tail.sizeof_buff then []
    else [Realloc (cap b) (size_t_of_int bytes)].
Proof.
  intros Hb. unfold Tail.read_file. rewrite Hb.
  destruct (size_t_of_int bytes =? Tail.sizeof_buff); simpl; [reflexivity|].
  now destruct (grant (Realloc (cap b) (size_t_of_int bytes))).
Qed.

(** C5.  The buffer is meant to be reallocated only when the budget
    differs from its capacity.  [read_files] compares the budget with
    [sizeof(d->buff)], the size of the pointer: an entry whose block
    already has capacity 100 is reallocated for a budget of 100. *)
Theorem realloc_although_capacity_matches :
  state abc_read = UPDATED
  /\ (exists b, buff abc_read = Some b /\ cap b = 100)
  /\ snd (fst (Tail.read_file glibc_alloc 100 abc_read)) = [Realloc 100 100]
  /\ snd (fst (Tail.read_files glibc_alloc 100 1 [abc_read]))
     = [Realloc 100 100].
Proof.
  split; [reflexivity|].
  split; [eexists; split; vm_compute; reflexivity|].
  split; vm_compute; reflexivity.
Qed.

(** The other side of the same comparison: a budget of 8 never leads to
    a reallocation, so a block of capacity 4 is cleared and filled for 8
    bytes and their terminator. *)
Example no_realloc_for_pointer_sized_budget :
  let d := read_once 4 (fresh 4 "x.log" (ascii_bytes "abcdefgh")) in
  (exists b, buff d = Some b /\ cap b = 4)
  /\ snd (fst (Tail.read_file glibc_alloc 8 d)) = []
  /\ buff (read_once 8 d)
     = Some (mkBlock 4 [97; 98; 99; 100; 101; 102; 103; 104; 0]).
Proof.
  split; [eexists; split; vm_compute; reflexivity|].
  split; vm_compute; reflexivity.
Qed.

(** ** A budget of zero *)

(** C6, as stated, fails where [realloc(p, 0)] frees the block and
    returns NULL, as in glibc: the entry already has a buffer, the budget
    0 differs from the size of a pointer, and the NULL result is taken
    for an allocation failure. *)
Lemma zero_budget_realloc_null :
  Tail.read_file glibc_alloc 0 abc_read
  = (abc_read, [Realloc 100 0], ER "Can't reallocate memory for file buffer")
  /\ ~ empty_tail_no_error glibc_alloc abc_read.
Proof.
  split; [vm_compute; reflexivity|].
  intros (d' & calls & H & _). vm_compute in H. discriminate H.
Qed.

Lemma window_zero (d : data_t) : window 0 d = [].
Proof.
  unfold window, Tail.seek_tail, fseek_end, unread, file_size. simpl.
  replace (Z.of_nat (List.length (contents (fp d))) + 0 <? 0) with false
    by (symmetry; apply Z.ltb_ge; lia).
  simpl. rewrite Z.add_0_r, Nat2Z.id, skipn_all. reflexivity.
Qed.

(** C6, amended.  With a budget of 0 the extraction copies nothing,
    leaves an empty tail with [d->line] at the start of the buffer and
    reports no error, provided the allocator returns a block for the
    zero-sized request. *)
Theorem zero_budget_empty_tail (grant : alloc_call -> bool) (d : data_t) :
  granted grant (request 0 d) = true ->
  exists d' calls,
    Tail.read_file grant 0 d = (d', calls, Running)
    /\ Tail.tail_content d' = []
    /\ Tail.last_line d' = []
    /\ line d' = Some 0%nat
    /\ fp d' = mkFILE (contents (fp d)) (List.length (contents (fp d))).
Proof.
  intros Hg. destruct (read_file_runs grant 0 d Hg) as (b & calls & E).
  exists (Tail.fill 0 d b), calls. split; [exact E|].
  assert (Hline : line (Tail.fill 0 d b) = Some 0%nat).
  { destruct (fill_line 0 d b) as (k & Hk & [Hl _]).
    rewrite window_zero in Hl. simpl in Hl.
    destruct Hl as [->|[Hl _]]; [exact Hk|lia]. }
  split; [rewrite tail_content_fill, window_zero; reflexivity|].
  split.
  { unfold Tail.last_line. rewrite fill_buff, Hline, window_zero.
    reflexivity. }
  split; [exact Hline|].
  unfold Tail.fill, Tail.seek_tail, fseek_end, file_size, advance, unread.
  simpl.
  replace (Z.of_nat (List.length (contents (fp d))) + 0 <? 0) with false
    by (symmetry; apply Z.ltb_ge; lia).
  simpl. rewrite Z.add_0_r, Nat2Z.id, skipn_all. simpl.
  now rewrite Nat.add_0_r.
Qed.

Lemma zero_budget_empty_tail_witness :
  exists d' calls,
    Tail.read_file bsd_alloc 0 abc_read = (d', calls, Running)
    /\ Tail.tail_content d' = [].
Proof.
  destruct (zero_budget_empty_tail bsd_alloc abc_read
              ltac:(vm_compute; reflexivity))
    as (d' & calls & E & Ht & _).
  now exists d', calls.
Defined.

(** ** The frame of [read_files] *)

Lemma Forall2_same {A} (R : A -> A -> Prop) (l : list A) :
  (forall x, R x x) -> Forall2 R l l.
Proof. intros HR. induction l; constructor; auto. Qed.

(** [read_files] never changes a flag, and an entry that is not flagged
    comes out as it went in, whether or not the process exits on the
    way. *)
Lemma read_files_frame (grant : alloc_call -> bool) (bytes n : Z)
    (ds : list data_t) :
  Forall2 (fun d d' => state d' = state d /\ (state d = UNCHANGED -> d' = d))
          ds (fst (fst (Tail.read_files grant bytes n ds))).
Proof.
  induction ds as [|d next IH]; simpl; [constructor|].
  destruct (Tail.read_files grant bytes n next) as [[next' calls'] st'].
  simpl in IH.
  destruct (state d) eqn:Es.
  - simpl. constructor; [now split|exact IH].
  - destruct (read_file_cases grant bytes d) as [(b & c & E)|(c & m & E)];
      rewrite E; simpl.
    + constructor; [|exact IH].
      split; [now rewrite fill_state|]. rewrite Es. discriminate.
    + constructor; [split; [reflexivity|now intros _]|].
      apply Forall2_same. now split.
Qed.

Lemma Forall2_nth_error {A} (R : A -> A -> Prop) (l l' : list A) :
  Forall2 R l l' ->
  forall i x, nth_error l i = Some x ->
              exists x', nth_error l' i = Some x' /\ R x x'.
Proof.
  induction 1 as [|a a' l l' Ha _ IH]; intros [|i] x Hx; simpl in *;
    try discriminate.
  - injection Hx as <-. eauto.
  - eauto.
Qed.

(** [read_files] returns when the allocator grants every request. *)
Lemma read_files_runs (grant : alloc_call -> bool) (bytes n : Z)
    (ds : list data_t) :
  (forall c, grant c = true) ->
  snd (Tail.read_files grant bytes n ds) = Running.
Proof.
  intros Hg. induction ds as [|d next IH]; simpl; [reflexivity|].
  destruct (Tail.read_files grant bytes n next) as [[next' calls'] st'].
  simpl in IH. destruct (state d); [exact IH|].
  assert (Hd : granted grant (request bytes d) = true)
    by (unfold granted; destruct (request bytes d); auto).
  destruct (read_file_runs grant bytes d Hd) as (b & c & E).
  rewrite E. exact IH.
Qed.

(** C10.  [read_files] leaves every entry whose flag is UNCHANGED
    exactly as it was: buffer, line marker, flag and all other fields,
    for every budget and every allocator, also when the call ends in
    [exit]. *)
Theorem read_files_skips_unchanged (grant : alloc_call -> bool)
    (bytes opened_files : Z) (data : list data_t) (i : nat) (d : data_t) :
  nth_error data i = Some d ->
  state d = UNCHANGED ->
  nth_error (fst (fst (Tail.read_files grant bytes opened_files data))) i
  = Some d.
Proof.
  intros Hi Hs.
  destruct (Forall2_nth_error _ _ _
              (read_files_frame grant bytes opened_files data) i d Hi)
    as (d' & Hd' & _ & Hsame).
  now rewrite Hd', (Hsame Hs).
Qed.

Lemma read_files_skips_unchanged_witness :
  nth_error
    (fst (fst (Tail.read_files glibc_alloc 100 2
       [abc_read; seen 100 (fresh 5 "y.log" (ascii_bytes "old"))])))
    1
  = Some (seen 100 (fresh 5 "y.log" (ascii_bytes "old"))).
Proof.
  apply (read_files_skips_unchanged glibc_alloc 100 2
           [abc_read; seen 100 (fresh 5 "y.log" (ascii_bytes "old"))] 1);
    reflexivity.
Defined.

(** ** The change indicator: [menu_driver_update] *)

Lemma put_length (l : list bool) :
  forall y, List.length (put y l) = List.length l.
Proof.
  induction l as [|b t IH]; intros [|y]; simpl; auto.
Qed.

Lemma put_nth (l : list bool) :
  forall y r,
    nth r (put y l) false
    = nth r l false || ((r =? y)%nat && (y <? List.length l)%nat).
Proof.
  induction l as [|b t IH]; intros y r.
  - destruct y, r; simpl; now rewrite ?andb_false_r.
  - destruct y as [|y], r as [|r]; simpl.
    + now rewrite orb_true_r.
    + now rewrite orb_false_r.
    + now rewrite orb_false_r.
    + apply IH.
Qed.

Lemma mvwprintw_inside (w : WINDOW) (y r : nat) :
  inside (mvwprintw w y) r = inside w r.
Proof.
  unfold mvwprintw, inside. destruct (3 <? ncols w) eqn:E; simpl.
  - now rewrite put_length, E.
  - now rewrite E.
Qed.

Lemma mvwprintw_indicator (w : WINDOW) (y r : nat) :
  indicator (mvwprintw w y) r
  = indicator w r || ((r =? y)%nat && inside w y).
Proof.
  unfold mvwprintw, inside, indicator. destruct (3 <? ncols w); simpl.
  - rewrite put_nth. now rewrite andb_true_r.
  - now rewrite !andb_false_r, orb_false_r.
Qed.

(** The nodes the second loop leaves do not depend on the window. *)
Lemma indicate_nodes (sel : option nat) (ds : list data_t) :
  forall i w w',
    fst (Menu.indicate sel i ds w) = fst (Menu.indicate sel i ds w').
Proof.
  induction ds as [|d next IH]; intros i w w'; simpl; [reflexivity|].
  destruct (state d); [|destruct (negb (Menu.same_node sel i))].
  - specialize (IH (S i) w w').
    destruct (Menu.indicate sel (S i) next w),
      (Menu.indicate sel (S i) next w'). simpl in *. now subst.
  - specialize (IH (S i) (mvwprintw w i) (mvwprintw w' i)).
    destruct (Menu.indicate sel (S i) next (mvwprintw w i)),
      (Menu.indicate sel (S i) next (mvwprintw w' i)). simpl in *. now subst.
  - specialize (IH (S i) w w').
    destruct (Menu.indicate sel (S i) next w),
      (Menu.indicate sel (S i) next w'). simpl in *. now subst.
Qed.

Lemma indicate_inside (sel : option nat) (ds : list data_t) :
  forall i w r, inside (snd (Menu.indicate sel i ds w)) r = inside w r.
Proof.
  induction ds as [|d next IH]; intros i w r; simpl; [reflexivity|].
  destruct (state d); [|destruct (negb (Menu.same_node sel i))].
  - specialize (IH (S i) w r).
    now destruct (Menu.indicate sel (S i) next w).
  - specialize (IH (S i) (mvwprintw w i) r).
    destruct (Menu.indicate sel (S i) next (mvwprintw w i)). simpl in *.
    now rewrite IH, mvwprintw_inside.
  - specialize (IH (S i) w r).
    now destruct (Menu.indicate sel (S i) next w).
Qed.

(** What the second loop prints: a line shows the indicator afterwards
    when it did before, or when it lies in the window and belongs to a
    flagged node that is not the current one. *)
Lemma indicate_indicator (sel : option nat) (ds : list data_t) :
  forall i w r,
    indicator (snd (Menu.indicate sel i ds w)) r
    = indicator w r
      || (inside w r && (i <=? r)%nat
          && match nth_error ds (r - i) with
             | Some d =>
                 state_e_eqb (state d) UPDATED && negb (Menu.same_node sel r)
             | None => false
             end).
Proof.
  induction ds as [|d next IH]; intros i w r; simpl.
  - destruct (r - i)%nat; simpl; now rewrite andb_false_r, orb_false_r.
  - assert (Hcase : (r < i)%nat \/ r = i \/ (S i <= r)%nat) by lia.
    assert (Hrest : forall w0,
               indicator (snd (Menu.indicate sel (S i) next w0)) r
               = indicator w0 r
                 || (inside w0 r && (S i <=? r)%nat
                     && match nth_error next (r - S i) with
                        | Some d0 =>
                            state_e_eqb (state d0) UPDATED
                            && negb (Menu.same_node sel r)
                        | None => false
                        end)) by (intros w0; apply IH).
    assert (Hw : forall w0 (x : data_t),
               indicator
                 (snd (let (next', w') := Menu.indicate sel (S i) next w0 in
                       (x :: next', w'))) r
               = indicator (snd (Menu.indicate sel (S i) next w0)) r)
      by (intros w0 x; now destruct (Menu.indicate sel (S i) next w0)).
    destruct Hcase as [Hlt|[->|Hgt]].
    + replace (i <=? r)%nat with false by (symmetry; apply Nat.leb_gt; lia).
      assert (Hs : (S i <=? r)%nat = false) by (apply Nat.leb_gt; lia).
      assert (Hne : (r =? i)%nat = false) by (apply Nat.eqb_neq; lia).
      destruct (state d); [|destruct (negb (Menu.same_node sel i))];
        rewrite Hw, Hrest, Hs, ?mvwprintw_indicator, ?Hne;
        simpl; now rewrite !andb_false_r, !orb_false_r.
    + rewrite Nat.sub_diag, Nat.leb_refl. simpl.
      assert (Hs : (S i <=? i)%nat = false) by (apply Nat.leb_gt; lia).
      destruct (state d); [|destruct (negb (Menu.same_node sel i))];
        rewrite Hw, Hrest, Hs, ?mvwprintw_indicator, ?Nat.eqb_refl;
        simpl; now rewrite ?andb_false_r, ?andb_true_r, ?orb_false_r.
    + replace (r - i)%nat with (S (r - S i)) by lia. simpl.
      replace (i <=? r)%nat with true by (symmetry; apply Nat.leb_le; lia).
      assert (Hs : (S i <=? r)%nat = true) by (apply Nat.leb_le; lia).
      assert (Hne : (r =? i)%nat = false) by (apply Nat.eqb_neq; lia).
      destruct (state d); [|destruct (negb (Menu.same_node sel i))];
        rewrite Hw, Hrest, Hs, ?mvwprintw_indicator, ?mvwprintw_inside, ?Hne;
        simpl; now rewrite ?orb_false_r.
Qed.

(** What the second loop makes of a node. *)
Lemma indicate_nth (sel : option nat) (ds : list data_t) :
  forall i0 w k d,
    nth_error ds k = Some d ->
    nth_error (fst (Menu.indicate sel i0 ds w)) k
    = Some (match state d with
            | UPDATED =>
                if Menu.same_node sel (i0 + k)
                then set_state d UNCHANGED else d
            | UNCHANGED => d
            end).
Proof.
  induction ds as [|x next IH]; intros i0 w k d Hk; [now destruct k|].
  simpl. destruct k as [|k]; simpl in Hk.
  - injection Hk as ->. rewrite Nat.add_0_r.
    destruct (state d); [|destruct (Menu.same_node sel i0)]; simpl.
    + now destruct (Menu.indicate sel (S i0) next w).
    + now destruct (Menu.indicate sel (S i0) next w).
    + now destruct (Menu.indicate sel (S i0) next (mvwprintw w i0)).
  - replace (i0 + S k)%nat with (S i0 + k)%nat by lia.
    destruct (state x); [|destruct (negb (Menu.same_node sel i0))].
    + specialize (IH (S i0) w k d Hk).
      now destruct (Menu.indicate sel (S i0) next w).
    + specialize (IH (S i0) (mvwprintw w i0) k d Hk).
      now destruct (Menu.indicate sel (S i0) next (mvwprintw w i0)).
    + specialize (IH (S i0) w k d Hk).
      now destruct (Menu.indicate sel (S i0) next w).
Qed.

Lemma menu_driver_keeps (m : MENU) (c : Z) :
  sub (menu_driver m c) = sub m /\ nitems (menu_driver m c) = nitems m.
Proof.
  unfold menu_driver. destruct (c =? REQ_UP_ITEM).
  - now destruct (curitem m).
  - destruct (c =? REQ_DOWN_ITEM); [|now split].
    now destruct (S (curitem m) <? nitems m)%nat.
Qed.

(** What reposting the menu leaves in the content window depends on the
    menu and the window only. *)
Lemma refresh_menus_content (scr scr' : screen_t) :
  sub (menu scr') = sub (menu scr) ->
  nitems (menu scr') = nitems (menu scr) ->
  content scr' = content scr ->
  content (Menu.refresh_menus scr') = content (Menu.refresh_menus scr).
Proof.
  unfold Menu.refresh_menus. intros -> -> Hc.
  destruct (sub (menu scr)); [destruct (nitems (menu scr))|]; simpl;
    now rewrite ?Hc.
Qed.

Lemma refresh_menus_inside (scr : screen_t) (r : nat) :
  inside (content (Menu.refresh_menus scr)) r = inside (content scr) r.
Proof.
  unfold Menu.refresh_menus.
  destruct (sub (menu scr)); [destruct (nitems (menu scr))|]; simpl;
    try reflexivity.
  unfold inside, werase. simpl. now rewrite length_map.
Qed.

Lemma menu_driver_update_fields (scr : screen_t) (c : Z) :
  let m := if 0 <=? c then menu_driver (menu scr) c else menu scr in
  let r := Menu.indicate (current_userptr m) 0 (map Menu.describe (datas scr))
             (content (Menu.refresh_menus scr)) in
  menu (Menu.menu_driver_update scr c) = m
  /\ datas (Menu.menu_driver_update scr c) = fst r
  /\ content (Menu.menu_driver_update scr c) = snd r.
Proof.
  intros m r. unfold Menu.menu_driver_update. fold m.
  set (scr1 := mkScreen (map Menu.describe (datas scr)) m (content scr)
                        (details scr) (details_shown scr) (doupdates scr)
                        (input_timeout scr)).
  assert (Hc : content (Menu.refresh_menus scr1)
               = content (Menu.refresh_menus scr)).
  { apply refresh_menus_content; try reflexivity; subst m scr1; simpl;
      destruct (0 <=? c); try reflexivity; apply menu_driver_keeps. }
  rewrite Hc. fold r. destruct r as [ds' w'].
  destruct (0 <? c); simpl; auto.
Qed.

Lemma same_node_spec (sel : option nat) (i : nat) :
  Menu.same_node sel i = true <-> sel = Some i.
Proof.
  destruct sel as [k|]; simpl.
  - rewrite Nat.eqb_eq. split; [now intros ->|now intros [= ->]].
  - split; discriminate.
Qed.

Lemma describe_state (d : data_t) : state (Menu.describe d) = state d.
Proof. unfold Menu.describe. destruct (state d) eqn:E; simpl; exact E. Qed.

Lemma same_file_refl (d : data_t) : same_file d d.
Proof. unfold same_file. now repeat split. Qed.

Lemma same_file_trans (a b c : data_t) :
  same_file a b -> same_file b c -> same_file a c.
Proof.
  unfold same_file. intros (A1 & A2 & A3 & A4 & A5 & A6 & A7)
                           (B1 & B2 & B3 & B4 & B5 & B6 & B7).
  repeat split; congruence.
Qed.

Lemma describe_same_file (d : data_t) : same_file d (Menu.describe d).
Proof.
  unfold Menu.describe. destruct (state d); unfold same_file; now repeat split.
Qed.

Lemma indicate_same_file (sel : option nat) (ds : list data_t) :
  forall i w, Forall2 same_file ds
                (fst (Menu.indicate sel i (map Menu.describe ds) w)).
Proof.
  induction ds as [|d next IH]; intros i w; simpl; [constructor|].
  pose proof (describe_same_file d) as Hd.
  destruct (state (Menu.describe d));
    [|destruct (negb (Menu.same_node sel i))].
  - specialize (IH (S i) w).
    destruct (Menu.indicate sel (S i) (map Menu.describe next) w).
    simpl in *. constructor; [exact Hd|exact IH].
  - specialize (IH (S i) (mvwprintw w i)).
    destruct (Menu.indicate sel (S i) (map Menu.describe next)
                (mvwprintw w i)).
    simpl in *. constructor; [exact Hd|exact IH].
  - specialize (IH (S i) w).
    destruct (Menu.indicate sel (S i) (map Menu.describe next) w).
    simpl in *. constructor; [exact Hd|exact IH].
Qed.

(** [menu_driver_update] touches flags and descriptions only. *)
Lemma menu_driver_update_same_file (scr : screen_t) (c : Z) :
  Forall2 same_file (datas scr) (datas (Menu.menu_driver_update scr c)).
Proof.
  destruct (menu_driver_update_fields scr c) as (_ & -> & _).
  apply indicate_same_file.
Qed.

(** The content window keeps its size through a call. *)
Lemma menu_driver_update_inside (scr : screen_t) (c : Z) (r : nat) :
  inside (content (Menu.menu_driver_update scr c)) r = inside (content scr) r.
Proof.
  destruct (menu_driver_update_fields scr c) as (_ & _ & ->).
  now rewrite indicate_inside, refresh_menus_inside.
Qed.

(** One call: an UPDATED entry that is current is acknowledged and
    nothing is printed in its line; one that is not keeps its flag and
    the indicator is printed in its line, if the window has that
    line. *)
Lemma menu_driver_update_entry (scr : screen_t) (c : Z) (i : nat) (d : data_t) :
  nth_error (datas scr) i = Some d ->
  state d = UPDATED ->
  (current_userptr (menu (Menu.menu_driver_update scr c)) = Some i ->
   nth_error (datas (Menu.menu_driver_update scr c)) i
   = Some (set_state (Menu.describe d) UNCHANGED)
   /\ indicator (content (Menu.menu_driver_update scr c)) i
      = indicator (content (Menu.refresh_menus scr)) i)
  /\ (current_userptr (menu (Menu.menu_driver_update scr c)) <> Some i ->
      nth_error (datas (Menu.menu_driver_update scr c)) i
      = Some (Menu.describe d)
      /\ indicator (content (Menu.menu_driver_update scr c)) i
         = indicator (content (Menu.refresh_menus scr)) i
           || inside (content scr) i).
Proof.
  intros Hi Hs.
  destruct (menu_driver_update_fields scr c) as (Hm & Hd & Hc).
  rewrite Hm, Hd, Hc.
  set (m := if 0 <=? c then menu_driver (menu scr) c else menu scr).
  assert (Hi' : nth_error (map Menu.describe (datas scr)) i
                = Some (Menu.describe d))
    by (rewrite nth_error_map, Hi; reflexivity).
  assert (Hs' : state (Menu.describe d) = UPDATED)
    by now rewrite describe_state.
  rewrite (indicate_nth (current_userptr m) _ 0%nat _ i _ Hi').
  rewrite indicate_indicator, Nat.sub_0_r, Hi', Hs', refresh_menus_inside.
  simpl.
  destruct (Menu.same_node (current_userptr m) i) eqn:E; simpl.
  - apply same_node_spec in E. split.
    + intros _. split; [reflexivity|].
      now rewrite andb_false_r, orb_false_r.
    + intros Hn. now elim Hn.
  - split.
    + intros Hsel. rewrite <- same_node_spec in Hsel. congruence.
    + intros _. split; [reflexivity|]. now rewrite !andb_true_r.
Qed.

(** What a completed [display] leaves, by the state of the details
    pane. *)
Lemma display_running (grant : alloc_call -> bool) (t t1 : Watcher.thread)
    (out : list event) :
  Watcher.display grant t = (t1, out, Running) ->
  exists ds calls,
    Tail.read_files grant
      (fst (fst (Watcher.getMaxBytes (details (Watcher.screen t)))))
      (Watcher.opened_files t) (datas (Watcher.screen t))
    = (ds, calls, Running)
    /\ Watcher.show_details t1 = Watcher.show_details t
    /\ match Watcher.show_details t with
       | None =>
           datas (Watcher.screen t1)
           = datas (Menu.menu_driver_update
                      (Watcher.with_datas (Watcher.screen t) ds) (-1))
           /\ content (Watcher.screen t1)
              = content (Menu.menu_driver_update
                           (Watcher.with_datas (Watcher.screen t) ds) (-1))
           /\ out = map Alloc calls
       | Some i =>
           datas (Watcher.screen t1) = ds
           /\ content (Watcher.screen t1) = content (Watcher.screen t)
           /\ out = map Alloc calls
                    ++ match nth_error ds i with
                       | Some d => [Details (base_name d) (Tail.tail_content d)]
                       | None => []
                       end
       end.
Proof.
  unfold Watcher.display.
  destruct (Watcher.getMaxBytes (details (Watcher.screen t)))
    as [[bytes maxx] maxy]. simpl.
  destruct (Tail.read_files grant bytes (Watcher.opened_files t)
              (datas (Watcher.screen t))) as [[ds calls] st].
  destruct st; [|discriminate].
  destruct (Watcher.show_details t) as [i|].
  - destruct (nth_error ds i) eqn:En; intros [= <- <-]; exists ds, calls;
      rewrite En; repeat split; auto.
  - intros [= <- <-]. exists ds, calls. repeat split; auto.
    now rewrite app_nil_r.
Qed.



(** A flagged entry comes out of a completed [read_files] filled. *)
Lemma read_files_entry (grant : alloc_call -> bool) (bytes n : Z)
    (ds : list data_t) :
  forall ds' calls i d,
    Tail.read_files grant bytes n ds = (ds', calls, Running) ->
    nth_error ds i = Some d ->
    state d = UPDATED ->
    exists b, nth_error ds' i = Some (Tail.fill bytes d b).
Proof.
  induction ds as [|x next IH]; intros ds' calls i d H Hi Hs;
    [now destruct i|].
  simpl in H.
  destruct (Tail.read_files grant bytes n next) as [[next' calls'] st'] eqn:E.
  destruct (state x) eqn:Ex.
  - injection H as <- _ ->.
    destruct i as [|i]; simpl in *; [congruence|].
    exact (IH _ _ _ _ eq_refl Hi Hs).
  - destruct (read_file_cases grant bytes x) as [(b & c & Ec)|(c & m & Ec)];
      rewrite Ec in H.
    + injection H as <- _ ->.
      destruct i as [|i]; simpl in *.
      * injection Hi as <-. now exists b.
      * exact (IH _ _ _ _ eq_refl Hi Hs).
    + discriminate H.
Qed.

Lemma tail_content_same_file (d d' : data_t) :
  same_file d d' -> Tail.tail_content d' = Tail.tail_content d.
Proof.
  intros (_ & _ & _ & _ & _ & Hb & _). unfold Tail.tail_content.
  now rewrite Hb.
Qed.

Lemma option_eq_dec_nat (a b : option nat) : {a = b} + {a <> b}.
Proof. decide equality. apply Nat.eq_dec. Qed.

Lemma display_closed_entry (grant : alloc_call -> bool)
    (t t1 : Watcher.thread) (out : list event) (i : nat) (d : data_t) :
  Watcher.display grant t = (t1, out, Running) ->
  Watcher.show_details t = None ->
  nth_error (datas (Watcher.screen t)) i = Some d ->
  state d = UPDATED ->
  exists d1,
    nth_error (datas (Watcher.screen t1)) i = Some d1
    /\ Tail.tail_content d1
       = c_string (window (fst (fst (Watcher.getMaxBytes
                                       (details (Watcher.screen t))))) d)
    /\ (current_userptr (menu (Watcher.screen t)) = Some i ->
        state d1 = UNCHANGED
        /\ indicator (content (Watcher.screen t1)) i
           = indicator (content (Menu.refresh_menus (Watcher.screen t))) i)
    /\ (current_userptr (menu (Watcher.screen t)) <> Some i ->
        state d1 = UPDATED
        /\ indicator (content (Watcher.screen t1)) i
           = indicator (content (Menu.refresh_menus (Watcher.screen t))) i
             || inside (content (Watcher.screen t)) i).
Proof.
  intros H Hshow Hi Hs.
  destruct (display_running grant t t1 out H) as (ds & calls & E & _ & Hm).
  rewrite Hshow in Hm. destruct Hm as (Hd & Hc & _).
  set (bytes := fst (fst (Watcher.getMaxBytes (details (Watcher.screen t)))))
    in *.
  destruct (read_files_entry grant bytes _ _ ds calls i d E Hi Hs) as [b Hb].
  set (scr := Watcher.with_datas (Watcher.screen t) ds) in *.
  assert (Hm : menu (Menu.menu_driver_update scr (-1)) = menu (Watcher.screen t))
    by (destruct (menu_driver_update_fields scr (-1)) as (-> & _); reflexivity).
  assert (Hr : content (Menu.refresh_menus scr)
               = content (Menu.refresh_menus (Watcher.screen t)))
    by (apply refresh_menus_content; reflexivity).
  destruct (menu_driver_update_entry scr (-1) i (Tail.fill bytes d b) Hb
              (eq_trans (fill_state bytes d b) Hs)) as [Hsel Hnot].
  rewrite Hm, Hr in Hsel, Hnot. rewrite Hd, Hc.
  destruct (option_eq_dec_nat (current_userptr (menu (Watcher.screen t)))
              (Some i)) as [Hc1|Hc1].
  - destruct (Hsel Hc1) as [H1 H2]. eexists. split; [exact H1|].
    split; [|split; [intros _; now split|now intros Hn]].
    rewrite (tail_content_same_file (Tail.fill bytes d b)
               (set_state (Menu.describe (Tail.fill bytes d b)) UNCHANGED)
               (describe_same_file _)).
    apply tail_content_fill.
  - destruct (Hnot Hc1) as [H1 H2]. eexists. split; [exact H1|].
    split; [|split; [now intros Hn|intros _; split; [|exact H2]]].
    + rewrite (tail_content_same_file _ _ (describe_same_file _)).
      apply tail_content_fill.
    + now rewrite describe_state, fill_state.
Qed.


(** The entry in the second line of [watching] gets the indicator in
    the first turn.  When the cursor then moves onto it, it is
    acknowledged and nothing is printed; whether the indicator printed
    before is still there depends on where the menu is posted. *)
Example indicator_after_acknowledgement :
  indicator (content (Menu.cycles (Watcher.screen watching)
                        [-1; REQ_DOWN_ITEM])) 1 = true
  /\ map state (datas (Menu.cycles (Watcher.screen watching)
                         [-1; REQ_DOWN_ITEM]))
     = [UNCHANGED; UNCHANGED]
  /\ indicator (content (Menu.cycles
                           (Cli.screen_create In_menu_win 24 80
                              (datas (Watcher.screen watching)) 10000)
                           [-1; REQ_DOWN_ITEM])) 1 = false.
Proof. repeat split; vm_compute; reflexivity. Qed.



(** ** The order of flag and tail write in the watcher *)

(** C4, as stated, fails: the turn in which [kevent] reports new data
    for the file ends with the entry flagged UPDATED while its buffer
    still holds the old tail; the write for this change has not begun.
    It is done by [read_files] at the start of the next turn, with the
    flag UPDATED before and after it. *)
Lemma flag_set_before_tail_write :
  exists t out d d' calls,
    Watcher.turn_kqueue glibc_alloc (Watcher.Read 4) grown = (t, out, Running)
    /\ datas (Watcher.screen t) = [d]
    /\ state d = UPDATED
    /\ Tail.tail_content d = [111; 108; 100; 10]
    /\ window 1444 d = [111; 108; 100; 10; 110; 101; 119; 10]
    /\ ~ flag_after_write 1444 (datas (Watcher.screen t))
    /\ Tail.read_files glibc_alloc 1444 1 [d] = ([d'], calls, Running)
    /\ state d' = UPDATED
    /\ Tail.tail_content d' = [111; 108; 100; 10; 110; 101; 119; 10].
Proof.
  do 5 eexists. split; [vm_compute; reflexivity|].
  split; [reflexivity|]. split; [reflexivity|].
  split; [vm_compute; reflexivity|]. split; [vm_compute; reflexivity|].
  split.
  { intros H.
    destruct (H _ (or_introl eq_refl) eq_refl) as (b & Hb & Hc).
    vm_compute in Hb. injection Hb as <-. vm_compute in Hc. discriminate Hc. }
  split; [vm_compute; reflexivity|].
  split; vm_compute; reflexivity.
Qed.

Lemma flag_fd_frame (ident : Z) (ds : list data_t) :
  Forall2 (fun d d' => buff d' = buff d /\ line d' = line d /\ fp d' = fp d)
          ds (Watcher.flag_fd ident ds).
Proof.
  induction ds as [|d next IH]; simpl; [constructor|].
  destruct (fd d =? ident).
  - constructor; [now repeat split|]. apply Forall2_same. now repeat split.
  - constructor; [now repeat split|exact IH].
Qed.

Lemma stat_sweep_frame (stat : string -> option Z) (ds : list data_t) :
  Forall2 (fun d d' => buff d' = buff d /\ line d' = line d /\ fp d' = fp d)
          ds (fst (fst (Watcher.stat_sweep stat ds))).
Proof.
  induction ds as [|d next IH]; simpl; [constructor|].
  destruct (stat (full_path d)) as [mtime|].
  - destruct (Watcher.stat_sweep stat next) as [[next' evs] st].
    simpl in *. constructor; [|exact IH].
    destruct (negb (mtime =? last_mod d)); now repeat split.
  - simpl. apply Forall2_same. now repeat split.
Qed.

Lemma seek_tail_eq (bytes : Z) (f : FILE) :
  Tail.seek_tail bytes f
  = mkFILE (contents f)
           (if file_size f + - bytes <? 0 then 0
            else Z.to_nat (file_size f + - bytes)).
Proof.
  unfold Tail.seek_tail, fseek_end, rewind.
  now destruct (file_size f + - bytes <? 0).
Qed.

Lemma fill_contents (bytes : Z) (d : data_t) (b : block) :
  contents (fp (Tail.fill bytes d b)) = contents (fp d).
Proof.
  unfold Tail.fill, Tail.seek_tail, fseek_end, rewind. simpl.
  now destruct (file_size (fp d) + - bytes <? 0).
Qed.

(** The window depends on the file, not on where the stream stands. *)
Lemma window_contents (bytes : Z) (d d' : data_t) :
  contents (fp d') = contents (fp d) -> window bytes d' = window bytes d.
Proof.
  intros H. unfold window. rewrite !seek_tail_eq. unfold file_size.
  now rewrite H.
Qed.

Lemma read_files_running_current (grant : alloc_call -> bool) (bytes n : Z)
    (ds : list data_t) :
  snd (Tail.read_files grant bytes n ds) = Running ->
  Forall (fun d' => state d' = UPDATED -> tail_current bytes d')
         (fst (fst (Tail.read_files grant bytes n ds))).
Proof.
  induction ds as [|d next IH]; simpl; [constructor|].
  destruct (Tail.read_files grant bytes n next) as [[next' calls'] st'].
  simpl in IH.
  destruct (state d) eqn:Es.
  - simpl. intros ->. constructor; [congruence|now apply IH].
  - destruct (read_file_cases grant bytes d) as [(b & c & E)|(c & m & E)];
      rewrite E; simpl.
    + intros ->. constructor; [|now apply IH].
      intros _. eexists. split; [apply fill_buff|].
      rewrite (window_contents bytes d _ (fill_contents bytes d b)).
      simpl. apply c_string_app_nul.
    + discriminate.
Qed.

Lemma flag_fd_nth (ident : Z) (ds : list data_t) :
  forall i d,
    nth_error ds i = Some d ->
    fd d = ident ->
    (forall j x, (j < i)%nat -> nth_error ds j = Some x -> fd x <> ident) ->
    nth_error (Watcher.flag_fd ident ds) i = Some (set_state d UPDATED).
Proof.
  induction ds as [|x next IH]; intros i d Hi Hd Hfirst; [now destruct i|].
  simpl. destruct i as [|i]; simpl in Hi.
  - injection Hi as ->. apply Z.eqb_eq in Hd. now rewrite Hd.
  - assert (Hx : fd x <> ident) by (apply (Hfirst 0%nat); [lia|reflexivity]).
    apply Z.eqb_neq in Hx. rewrite Hx. simpl.
    apply IH; auto. intros j y Hj Hy. apply (Hfirst (S j)); [lia|exact Hy].
Qed.

Lemma stat_sweep_running (stat : string -> option Z) (ds : list data_t) :
  forall ds' evs,
    Watcher.stat_sweep stat ds = (ds', evs, Running) ->
    Forall2 (fun d d' => exists mtime,
                 stat (full_path d) = Some mtime /\ d' = swept mtime d)
            ds ds'
    /\ evs = map stat_query ds.
Proof.
  induction ds as [|d next IH]; intros ds' evs H; simpl in H.
  - injection H as <- <-. split; [constructor|reflexivity].
  - destruct (stat (full_path d)) as [mtime|] eqn:Es; [|discriminate H].
    destruct (Watcher.stat_sweep stat next) as [[next' evs'] st] eqn:E.
    injection H as <- <- ->.
    destruct (IH _ _ eq_refl) as [IH1 IH2].
    split; [|now rewrite IH2].
    constructor; [|exact IH1]. exists mtime. now split.
Qed.

Lemma swept_fields (mtime : Z) (d : data_t) :
  full_path (swept mtime d) = full_path d
  /\ last_mod (swept mtime d) = mtime
  /\ buff (swept mtime d) = buff d /\ line (swept mtime d) = line d
  /\ fp (swept mtime d) = fp d
  /\ (state (swept mtime d) = UPDATED
      <-> state d = UPDATED \/ mtime <> last_mod d).
Proof.
  unfold swept. destruct (mtime =? last_mod d) eqn:E; simpl.
  - apply Z.eqb_eq in E. repeat split; auto; intuition congruence.
  - apply Z.eqb_neq in E. repeat split; auto.
Qed.

(** The steps of a write all carry the flag the entry had, and end in
    the entry [fill] returns. *)
Lemma writing_flag (bytes : Z) (d : data_t) (b : block) :
  Forall (fun x => state x = state d) (Tail.writing bytes d b).
Proof.
  unfold Tail.writing. repeat (constructor; [reflexivity|]).
  apply Forall_app. split.
  - apply Forall_map. apply Forall_forall. reflexivity.
  - repeat constructor.
Qed.

Lemma writing_last (bytes : Z) (d : data_t) (b : block) :
  last (Tail.writing bytes d b) d = Tail.fill bytes d b.
Proof.
  unfold Tail.writing.
  match goal with
  | |- last ([?a; ?b0] ++ ?l ++ [?c; ?e]) _ = _ =>
      change ([a; b0] ++ l ++ [c; e]) with (([a; b0] ++ l ++ [c]) ++ [e])
      || replace ([a; b0] ++ l ++ [c; e]) with (([a; b0] ++ l ++ [c]) ++ [e])
           by (rewrite <- !app_assoc; reflexivity)
  end.
  apply last_last.
Qed.

Lemma last_cons_default {A} (l : list A) :
  forall x d d', last (x :: l) d = last (x :: l) d'.
Proof.
  induction l as [|y l IH]; intros x d d'; [reflexivity|].
  change (last (y :: l) d = last (y :: l) d'). apply IH.
Qed.

(** The cells after the last pass are the cells the loop ends with. *)
Lemma fgetc_passes_loop (rest : list byte) :
  forall m j lst n,
    Tail.mem (Tail.fgetc_loop rest m j lst n)
    = last (map fst (Tail.fgetc_passes rest m j n)) m.
Proof.
  induction rest as [|b rest IH]; intros m j lst n; simpl; [reflexivity|].
  destruct (char_of_int (int_of_byte b) =? EOF); [reflexivity|].
  rewrite IH.
  set (m1 := store m j (char_of_int (int_of_byte b))).
  cbn [map fst].
  destruct (map fst (Tail.fgetc_passes rest m1 (S j) (S n))) as [|x l];
    [reflexivity|].
  change (last (x :: l) m1 = last (x :: l) m).
  apply last_cons_default.
Qed.

(** In a completed [display] the tails are written first, by
    [read_files]; what follows leaves them alone. *)
Lemma display_written (grant : alloc_call -> bool) (t t1 : Watcher.thread)
    (out : list event) :
  Watcher.display grant t = (t1, out, Running) ->
  exists ds1 calls,
    Tail.read_files grant
      (fst (fst (Watcher.getMaxBytes (details (Watcher.screen t)))))
      (Watcher.opened_files t) (datas (Watcher.screen t))
    = (ds1, calls, Running)
    /\ Forall2 untouched ds1 (datas (Watcher.screen t1)).
Proof.
  intros H.
  destruct (display_running grant t t1 out H) as (ds & calls & E & _ & Hm).
  exists ds, calls. split; [exact E|].
  destruct (Watcher.show_details t) as [k|].
  - destruct Hm as (-> & _). apply Forall2_same. now repeat split.
  - destruct Hm as (-> & _).
    eapply Forall2_impl;
      [|exact (menu_driver_update_same_file
                 (Watcher.with_datas (Watcher.screen t) ds) (-1))].
    intros a b (_ & Hfp & _ & _ & Hl & Hb & _). now repeat split.
Qed.

(** The display step lowers no flag but that of the current entry, and
    none while the details pane is open. *)
Lemma display_keeps_updated (grant : alloc_call -> bool) (t : Watcher.thread)
    (i : nat) (d : data_t) :
  nth_error (datas (Watcher.screen t)) i = Some d ->
  state d = UPDATED ->
  Watcher.show_details t <> None
  \/ current_userptr (menu (Watcher.screen t)) <> Some i ->
  exists d',
    nth_error (datas (Watcher.screen (fst (fst (Watcher.display grant t))))) i
    = Some d'
    /\ state d' = UPDATED.
Proof.
  intros Hi Hs Hor. unfold Watcher.display.
  destruct (Watcher.getMaxBytes (details (Watcher.screen t)))
    as [[bytes maxx] maxy].
  pose proof (read_files_frame grant bytes (Watcher.opened_files t)
                (datas (Watcher.screen t))) as HF.
  destruct (Tail.read_files grant bytes (Watcher.opened_files t)
              (datas (Watcher.screen t))) as [[ds calls] st].
  simpl in HF.
  destruct (Forall2_nth_error _ _ _ HF i d Hi) as (d1 & Hd1 & Hst & _).
  assert (Hs1 : state d1 = UPDATED) by congruence.
  destruct st; simpl; [|now exists d1].
  destruct (Watcher.show_details t) as [k|] eqn:Ek.
  - destruct (nth_error ds k); simpl; now exists d1.
  - simpl. destruct Hor as [Hor|Hor]; [now elim Hor|].
    set (scr := Watcher.with_datas (Watcher.screen t) ds).
    destruct (menu_driver_update_entry scr (-1) i d1 Hd1 Hs1) as [_ Hnot].
    destruct (menu_driver_update_fields scr (-1)) as (Hm & _).
    destruct Hnot as [Hn _]; [rewrite Hm; exact Hor|].
    exists (Menu.describe d1). split; [exact Hn|].
    now rewrite describe_state.
Qed.

(** X27.  In a turn of the watcher a flag is lowered only by the display
    step, only with the details pane closed and only for the entry
    under the cursor: the extraction keeps every flag, the event handler
    and the sweep only raise flags, and the display step keeps the flag
    of every entry that is not the current one, and of every entry
    while the details pane is open. *)
Lemma watcher_keeps_updated (grant : alloc_call -> bool) (bytes n ident : Z)
    (stat : string -> option Z) (ds : list data_t) :
  Forall2 (fun d d' => state d = UPDATED -> state d' = UPDATED)
          ds (fst (fst (Tail.read_files grant bytes n ds)))
  /\ Forall2 (fun d d' => state d = UPDATED -> state d' = UPDATED)
             ds (Watcher.flag_fd ident ds)
  /\ Forall2 (fun d d' => state d = UPDATED -> state d' = UPDATED)
             ds (fst (fst (Watcher.stat_sweep stat ds)))
  /\ (forall t i d,
        datas (Watcher.screen t) = ds ->
        nth_error ds i = Some d ->
        state d = UPDATED ->
        Watcher.show_details t <> None
        \/ current_userptr (menu (Watcher.screen t)) <> Some i ->
        exists d',
          nth_error (datas (Watcher.screen
                              (fst (fst (Watcher.display grant t))))) i
          = Some d'
          /\ state d' = UPDATED).
Proof.
  split; [|split; [|split]].
  - eapply Forall2_impl; [|apply read_files_frame].
    intros d d' [Hs _] Hu. congruence.
  - induction ds as [|d next IH]; simpl; [constructor|].
    destruct (fd d =? ident).
    + constructor; [reflexivity|]. apply Forall2_same. auto.
    + constructor; auto.
  - induction ds as [|d next IH]; simpl; [constructor|].
    destruct (stat (full_path d)) as [mtime|].
    + destruct (Watcher.stat_sweep stat next) as [[next' evs] st].
      simpl in *. constructor; [|exact IH].
      destruct (negb (mtime =? last_mod d)); auto.
    + simpl. apply Forall2_same. auto.
  - intros t i d <- Hi Hs Hor.
    exact (display_keeps_updated grant t i d Hi Hs Hor).
Qed.

(** C4, amended.  In the watcher loop the flag comes first and the write
    second.  [read_files] writes the tail buffer of an entry only if the
    entry is flagged UPDATED and leaves every flag as it is; every step
    of the write of a flagged entry, from the [memset] to the assignment
    of the line marker, finds the flag UPDATED; and when [read_files]
    has returned every flagged entry holds the current tail.  A turn of
    the loop that completes runs [read_files] first, then the display
    step, which leaves the tail data alone, and then raises flags, again
    leaving the tail data alone: with kqueue for the first entry whose
    descriptor a READ event names, without kqueue for every entry whose
    modification time [stat] reports changed.  The write such a flag
    asks for is the one [read_files] does at the start of the next
    turn. *)
Theorem tail_written_while_flagged (grant : alloc_call -> bool)
    (bytes opened_files : Z) (ds : list data_t) :
  Forall2 (fun d d' => state d' = state d /\ (d' <> d -> state d = UPDATED))
          ds (fst (fst (Tail.read_files grant bytes opened_files ds)))
  /\ (forall d b,
        state d = UPDATED ->
        Forall (fun x => state x = UPDATED) (Tail.writing bytes d b)
        /\ last (Tail.writing bytes d b) d = Tail.fill bytes d b)
  /\ (snd (Tail.read_files grant bytes opened_files ds) = Running ->
      Forall (fun d' => state d' = UPDATED -> tail_current bytes d')
             (fst (fst (Tail.read_files grant bytes opened_files ds))))
  /\ (forall t t' out ident,
        Watcher.turn_kqueue grant (Watcher.Read ident) t = (t', out, Running) ->
        exists ds1 calls t1 out1,
          Tail.read_files grant
            (fst (fst (Watcher.getMaxBytes (details (Watcher.screen t)))))
            (Watcher.opened_files t) (datas (Watcher.screen t))
          = (ds1, calls, Running)
          /\ Watcher.display grant t = (t1, out1, Running)
          /\ Forall2 untouched ds1 (datas (Watcher.screen t1))
          /\ Forall2 untouched (datas (Watcher.screen t1))
                     (datas (Watcher.screen t'))
          /\ forall i d1,
               nth_error (datas (Watcher.screen t1)) i = Some d1 ->
               fd d1 = ident ->
               (forall j x, (j < i)%nat ->
                            nth_error (datas (Watcher.screen t1)) j = Some x ->
                            fd x <> ident) ->
               exists d', nth_error (datas (Watcher.screen t')) i = Some d'
                          /\ state d' = UPDATED)
  /\ (forall stat t t' out,
        Watcher.turn_poll grant stat t = (t', out, Running) ->
        exists ds1 calls t1 out1,
          Tail.read_files grant
            (fst (fst (Watcher.getMaxBytes (details (Watcher.screen t)))))
            (Watcher.opened_files t) (datas (Watcher.screen t))
          = (ds1, calls, Running)
          /\ Watcher.display grant t = (t1, out1, Running)
          /\ Forall2 untouched ds1 (datas (Watcher.screen t1))
          /\ Forall2 untouched (datas (Watcher.screen t1))
                     (datas (Watcher.screen t'))
          /\ forall i d1 mtime,
               nth_error (datas (Watcher.screen t1)) i = Some d1 ->
               stat (full_path d1) = Some mtime ->
               mtime <> last_mod d1 ->
               exists d', nth_error (datas (Watcher.screen t')) i = Some d'
                          /\ state d' = UPDATED).
Proof.
  split; [|split; [|split; [apply read_files_running_current|split]]].
  - eapply Forall2_impl; [|apply read_files_frame].
    intros d d' [Hs Hsame]. split; [exact Hs|].
    intros Hne. destruct (state d) eqn:E; [|reflexivity].
    now elim Hne; apply Hsame.
  - intros d b Hs. split; [|apply writing_last].
    eapply Forall_impl; [|apply writing_flag]. intros x Hx. congruence.
  - intros t t' out ident H. unfold Watcher.turn_kqueue in H.
    destruct (Watcher.display grant t) as [[t1 out1] st] eqn:Ed.
    destruct st; [|discriminate H]. simpl in H. injection H as <- _.
    destruct (display_written grant t t1 out1 Ed) as (ds1 & calls & E & HF).
    exists ds1, calls, t1, out1. split; [exact E|]. split; [reflexivity|].
    split; [exact HF|]. simpl. split; [apply flag_fd_frame|].
    intros i d1 Hi Hfd Hfirst.
    exists (set_state d1 UPDATED). split; [|reflexivity].
    now apply flag_fd_nth.
  - intros stat t t' out H. unfold Watcher.turn_poll in H.
    destruct (Watcher.display grant t) as [[t1 out1] st] eqn:Ed.
    destruct st; [|discriminate H].
    destruct (Watcher.stat_sweep stat (datas (Watcher.screen t1)))
      as [[ds2 evs] st] eqn:Es.
    destruct st; [|discriminate H]. injection H as <- _.
    destruct (display_written grant t t1 out1 Ed) as (ds1 & calls & E & HF).
    exists ds1, calls, t1, out1. split; [exact E|]. split; [reflexivity|].
    split; [exact HF|]. simpl.
    destruct (stat_sweep_running stat _ _ _ Es) as [HS _].
    split.
    + eapply Forall2_impl; [|exact HS].
      intros a b (mtime & _ & ->).
      destruct (swept_fields mtime a) as (_ & _ & Hb & Hl & Hfp & _).
      now repeat split.
    + intros i d1 mtime Hi Hst Hne.
      destruct (Forall2_nth_error _ _ _ HS i d1 Hi)
        as (d' & Hd' & mtime' & Hst' & ->).
      exists (swept mtime' d1). split; [exact Hd'|].
      destruct (swept_fields mtime' d1) as (_ & _ & _ & _ & _ & Hu).
      apply Hu. right. congruence.
Qed.

(** ** The polling sweep *)

Lemma append_assoc (a b c : string) :
  ((a ++ b) ++ c = a ++ b ++ c)%string.
Proof. induction a as [|x a IH]; simpl; [reflexivity|now rewrite IH]. Qed.

(** The line [ER] prints for a file whose [stat] failed. *)
Lemma stat_diag_line (d : data_t) :
  ER (stat_diag d)
  = Exited (-1)
      ("[logtop][error] Could not obtain file stats for: '"
       ++ base_name d ++ "'" ++ String "010" "")%string.
Proof.
  unfold ER, _PR, stat_diag, nl. simpl. now rewrite append_assoc.
Qed.

(** A sweep in which a [stat] fails stops at the first node for which it
    does: the nodes before it are swept, the node and those behind it
    stay as they are and are not asked about. *)
Lemma stat_sweep_fatal (stat : string -> option Z) (ds : list data_t)
    (d : data_t) :
  In d ds ->
  stat (full_path d) = None ->
  exists ds1 ds1' bad ds2,
    ds = ds1 ++ bad :: ds2
    /\ Forall2 (fun x x' => exists mtime,
                   stat (full_path x) = Some mtime /\ x' = swept mtime x)
               ds1 ds1'
    /\ stat (full_path bad) = None
    /\ Watcher.stat_sweep stat ds
       = (ds1' ++ bad :: ds2,
          map (fun x => Stat (full_path x)) ds1 ++ [Stat (full_path bad)],
          ER (stat_diag bad)).
Proof.
  induction ds as [|x next IH]; intros Hin Hd; [destruct Hin|].
  simpl. destruct (stat (full_path x)) as [mtime|] eqn:Ex.
  - destruct Hin as [->|Hin]; [congruence|].
    destruct (IH Hin Hd) as (ds1 & ds1' & bad & ds2 & -> & HF & Hbad & E).
    rewrite E.
    exists (x :: ds1), (swept mtime x :: ds1'), bad, ds2.
    repeat split; auto.
    constructor; [|exact HF]. exists mtime. now split.
  - exists [], [], x, next. repeat split; auto.
Qed.

(** C7.  In the polling loop, once the tails are read and shown, a
    tracked file whose [stat] fails ends the process.  The sweep stops
    at the first file for which [stat] fails: the entries before it
    were queried and swept, the line
    "[logtop][error] Could not obtain file stats for: '<name>'" goes to
    stderr and the process exits with status -1; the failing entry and
    the entries behind it are left as they are, those behind it are not
    queried, no sleep follows and no later turn of the loop is run. *)
Theorem stat_failure_is_fatal (grant : alloc_call -> bool)
    (stat : string -> option Z) (more : list (string -> option Z))
    (t t1 : Watcher.thread) (out : list event) (d : data_t) :
  Watcher.display grant t = (t1, out, Running) ->
  In d (datas (Watcher.screen t1)) ->
  stat (full_path d) = None ->
  exists ds1 ds1' bad ds2,
    datas (Watcher.screen t1) = ds1 ++ bad :: ds2
    /\ Forall2 (fun x x' => exists mtime,
                   stat (full_path x) = Some mtime /\ x' = swept mtime x)
               ds1 ds1'
    /\ stat (full_path bad) = None
    /\ Watcher.thread_read_files_poll grant (stat :: more) t
       = (Watcher.mkThread
            (Watcher.with_datas (Watcher.screen t1) (ds1' ++ bad :: ds2))
            (Watcher.show_details t1) (Watcher.opened_files t1),
          out ++ map (fun x => Stat (full_path x)) ds1
              ++ [Stat (full_path bad)],
          Exited (-1)
            ("[logtop][error] Could not obtain file stats for: '"
             ++ base_name bad ++ "'" ++ String "010" "")%string).
Proof.
  intros Hdisp Hin Hd.
  destruct (stat_sweep_fatal stat _ d Hin Hd)
    as (ds1 & ds1' & bad & ds2 & Hds & HF & Hbad & E).
  exists ds1, ds1', bad, ds2. split; [exact Hds|]. split; [exact HF|].
  split; [exact Hbad|].
  simpl. unfold Watcher.turn_poll. rewrite Hdisp, E, stat_diag_line.
  reflexivity.
Qed.

(** With "a.log" removed, the first turn queries "b.log", then "a.log",
    and exits there. *)
Lemma stat_failure_is_fatal_witness :
  snd (Watcher.thread_read_files_poll bsd_alloc [stat_gone; stat_three]
         watching)
  = Exited (-1)
      ("[logtop][error] Could not obtain file stats for: 'a.log'"
       ++ String "010" "")%string
  /\ filter (fun e => match e with Stat _ => true | _ => false end)
            (snd (fst (Watcher.thread_read_files_poll bsd_alloc
                         [stat_gone; stat_three] watching)))
     = [Stat "b.log"; Stat "a.log"].
Proof.
  destruct (Watcher.display bsd_alloc watching) as [[t1 out] st] eqn:Ed.
  assert (Hst : st = Running) by (vm_compute in Ed; now injection Ed as _ _ <-).
  subst st.
  assert (Ht1 : map full_path (datas (Watcher.screen t1)) = ["b.log"; "a.log"])
    by (vm_compute in Ed; injection Ed as <- _; reflexivity).
  assert (Hbn : map base_name (datas (Watcher.screen t1)) = ["b.log"; "a.log"])
    by (vm_compute in Ed; injection Ed as <- _; reflexivity).
  assert (Hout : filter (fun e => match e with Stat _ => true | _ => false end)
                        out = [])
    by (vm_compute in Ed; injection Ed as _ <-; reflexivity).
  destruct (datas (Watcher.screen t1)) as [|b [|a [|c l]]] eqn:Eds;
    try discriminate Ht1.
  simpl in Ht1, Hbn. injection Ht1 as Hb Ha. injection Hbn as _ Hna.
  destruct (stat_failure_is_fatal bsd_alloc stat_gone [stat_three] watching
              t1 out a Ed)
    as (ds1 & ds1' & bad & ds2 & Hds & HF & Hbad & E).
  - rewrite Eds. right. left. reflexivity.
  - rewrite Ha. reflexivity.
  - rewrite E. cbn [snd fst]. rewrite Eds in Hds.
    assert (Hcase : ds1 = [b] /\ bad = a).
    { destruct ds1 as [|x [|y ds1]]; simpl in Hds.
      - injection Hds as <- _. rewrite Hb in Hbad. discriminate Hbad.
      - injection Hds as <- <- _. now split.
      - injection Hds as _ _ Hnil. destruct ds1; discriminate Hnil. }
    destruct Hcase as [-> ->]. rewrite Hna. split; [reflexivity|].
    rewrite filter_app, Hout. simpl. now rewrite Hb, Ha.
Defined.

(** ** The registry built by [data_init] *)

Section Registry.

Variable fopen : string -> option (list byte).
Variable fcntl_ok : Z -> bool.

Lemma data_init_loop_paths (lines : list (list ascii)) :
  forall head n ds n' out,
    Config.data_init_loop fopen fcntl_ok lines head n
    = (ds, n', out, Running) ->
    map full_path ds
    = rev (filter (Config.can_open fopen) (flat_map Config.paths_of lines))
      ++ map full_path head
    /\ n' = n + Z.of_nat (List.length ds) - Z.of_nat (List.length head).
Proof.
  induction lines as [|ln rest IH]; intros head n ds n' out H; simpl in H.
  - injection H as <- <- _. simpl. split; [reflexivity|lia].
  - simpl. unfold Config.paths_of at 1.
    destruct (Config.path_of_line ln) as [c|]; simpl.
    + unfold Config.can_open at 1.
      destruct (fopen c) as [bytes|] eqn:Ec.
      * match type of H with
        | context [fcntl_ok ?x] => destruct (fcntl_ok x)
        end; [|unfold ER in H; discriminate H].
        destruct (Config.data_init_loop fopen fcntl_ok rest
                    (Config.node c bytes n :: head) (n + 1))
          as [[[h m] o] st] eqn:E.
        injection H as -> -> _ ->.
        destruct (IH _ _ _ _ _ E) as [IH1 IH2].
        simpl in IH1, IH2. rewrite IH1. simpl.
        rewrite <- app_assoc. split; [reflexivity|lia].
      * destruct (Config.data_init_loop fopen fcntl_ok rest head n)
          as [[[h m] o] st] eqn:E.
        injection H as -> -> _ ->.
        exact (IH _ _ _ _ _ E).
    + exact (IH _ _ _ _ _ H).
Qed.

(** [data_init] goes through when the configuration can be opened and
    every [fcntl] succeeds. *)
Lemma data_init_loop_runs (lines : list (list ascii)) :
  (forall n, fcntl_ok n = true) ->
  forall head n,
    snd (Config.data_init_loop fopen fcntl_ok lines head n) = Running.
Proof.
  intros Hok. induction lines as [|ln rest IH]; intros head n; simpl.
  - reflexivity.
  - destruct (Config.path_of_line ln) as [c|]; [|apply IH].
    destruct (fopen c) as [bytes|].
    + rewrite Hok. specialize (IH (Config.node c bytes n :: head) (n + 1)).
      now destruct (Config.data_init_loop fopen fcntl_ok rest _ _)
        as [[[h m] o] st].
    + specialize (IH head n).
      now destruct (Config.data_init_loop fopen fcntl_ok rest _ _)
        as [[[h m] o] st].
Qed.

(** C8.  The registry that [data_init] returns lists the entries that
    could be opened in the reverse of the order in which the
    configuration file names them, and counts them. *)
Theorem registry_reverses_config (fname : string) (bytes : list byte)
    (ds : list data_t) (n : Z) (out : list Config.output) :
  fopen fname = Some bytes ->
  Config.data_init fopen fcntl_ok fname 0 = (ds, n, out, Running) ->
  map full_path ds = rev (Config.opened fopen bytes)
  /\ n = Z.of_nat (List.length ds).
Proof.
  intros Hcfg H. unfold Config.data_init in H. rewrite Hcfg in H.
  destruct (data_init_loop_paths _ _ _ _ _ _ H) as [Hp Hn].
  simpl in Hp, Hn. rewrite app_nil_r in Hp.
  split; [exact Hp|lia].
Qed.

End Registry.

Example registry_of_three_files :
  map full_path (fst (fst (fst
    (Config.data_init three_files (fun _ => true) "treetop.conf" 0))))
  = ["b.log"; "a.log"]
  /\ Config.listed (ascii_bytes "a.log" ++ [x0a]
                    ++ ascii_bytes "  gone.log # moved" ++ [x0a]
                    ++ ascii_bytes "b.log" ++ [x0a])
     = ["a.log"; "gone.log"; "b.log"].
Proof. split; vm_compute; reflexivity. Qed.

Lemma registry_reverses_config_witness :
  map full_path (fst (fst (fst
    (Config.data_init three_files (fun _ => true) "treetop.conf" 0))))
  = ["b.log"; "a.log"].
Proof.
  destruct (Config.data_init three_files (fun _ => true) "treetop.conf" 0)
    as [[[ds n] out] st] eqn:E.
  assert (Hst : st = Running) by (vm_compute in E; now injection E as _ _ _ <-).
  subst st.
  destruct (registry_reverses_config three_files (fun _ => true)
              "treetop.conf" _ ds n out eq_refl E) as [Hp _].
  simpl. rewrite Hp. vm_compute. reflexivity.
Defined.

(** ** The [-d] flag *)

Lemma display_no_usleep (grant : alloc_call -> bool) (t : Watcher.thread) :
  filter is_usleep (snd (fst (Watcher.display grant t))) = [].
Proof.
  unfold Watcher.display.
  destruct (Watcher.getMaxBytes (details (Watcher.screen t)))
    as [[bytes maxx] maxy].
  destruct (Tail.read_files grant bytes (Watcher.opened_files t)
              (datas (Watcher.screen t))) as [[ds calls] st].
  assert (Hcalls : filter is_usleep (map Alloc calls) = [])
    by (induction calls; simpl; auto).
  destruct st; simpl; [|exact Hcalls].
  destruct (Watcher.show_details t) as [i|]; simpl.
  - destruct (nth_error ds i); simpl; rewrite filter_app, Hcalls; reflexivity.
  - rewrite filter_app, Hcalls. reflexivity.
Qed.

Lemma stat_sweep_no_usleep (stat : string -> option Z) (ds : list data_t) :
  filter is_usleep (snd (fst (Watcher.stat_sweep stat ds))) = [].
Proof.
  induction ds as [|d next IH]; simpl; [reflexivity|].
  destruct (stat (full_path d)); [|reflexivity].
  destruct (Watcher.stat_sweep stat next) as [[next' evs] st]. exact IH.
Qed.

(** Every turn of the polling loop that does not exit sleeps once, for
    25000 microseconds. *)
Lemma turn_poll_sleep (grant : alloc_call -> bool)
    (stat : string -> option Z) (t t' : Watcher.thread) (out : list event) :
  Watcher.turn_poll grant stat t = (t', out, Running) ->
  filter is_usleep out = [Usleep 25000].
Proof.
  unfold Watcher.turn_poll.
  pose proof (display_no_usleep grant t) as Hdisp.
  destruct (Watcher.display grant t) as [[t1 evs] st]. simpl in Hdisp.
  destruct st; [|discriminate].
  pose proof (stat_sweep_no_usleep stat (datas (Watcher.screen t1))) as Hsw.
  destruct (Watcher.stat_sweep stat (datas (Watcher.screen t1)))
    as [[ds evs'] st]. simpl in Hsw.
  destruct st; [|discriminate].
  intros [= _ <-]. rewrite !filter_app, Hdisp, Hsw. reflexivity.
Qed.

(** What [threads_init] returns when it returns. *)
Lemma threads_init_running (pthread_mutex_init : nat -> Z)
    (grant : alloc_call -> bool) (n : Z) (scr : screen_t)
    (o : option Watcher.thread) (calls : list alloc_call) :
  Cli.threads_init pthread_mutex_init grant n scr = (o, calls, Running) ->
  o = Some (Watcher.mkThread scr None n).
Proof.
  unfold Cli.threads_init.
  destruct (pthread_mutex_init 0%nat <? 0); [discriminate|].
  destruct (pthread_mutex_init 1%nat <? 0); [discriminate|].
  destruct (negb (grant (Malloc Cli.sizeof_pthread_t))); [discriminate|].
  destruct (negb (grant (Malloc Cli.sizeof_thread_param_t)));
    [discriminate|].
  now intros [= <- _].
Qed.

(** The thread [main] starts, when it starts one. *)
Lemma main_running (fopen : string -> option (list byte))
    (fcntl_ok : Z -> bool) (LINES COLS : Z) (initscr : option string)
    (where_posted : posted_in) (pthread_mutex_init : nat -> Z)
    (grant : alloc_call -> bool) (argv : list string)
    (t : Watcher.thread) (secs : Z) (st : status) :
  Cli.main fopen fcntl_ok LINES COLS initscr where_posted pthread_mutex_init
           grant argv
  = (Some t, secs, st) ->
  st = Running
  /\ initscr = None
  /\ exists fname ds n out,
       Config.data_init fopen fcntl_ok fname 0 = (ds, n, out, Running)
       /\ t = Watcher.mkThread
                (Cli.screen_create where_posted LINES COLS ds
                   (Cli.int_of_long (secs * 1000)))
                None n.
Proof.
  unfold Cli.main. destruct argv as [|execname rest]; [discriminate|].
  destruct (Cli.args execname rest None Cli.DEFAULT_TIMEOUT_SECS)
    as [[[fname|] secs'] st']; destruct st'; try discriminate.
  destruct (secs' <? 0); [discriminate|].
  destruct (Config.data_init fopen fcntl_ok fname 0)
    as [[[ds n] out] st'] eqn:E.
  destruct st'; [|discriminate].
  destruct initscr as [diag|]; [discriminate|].
  destruct (Cli.threads_init pthread_mutex_init grant n _)
    as [[o calls] st'] eqn:Et.
  destruct o as [t'|]; [|discriminate].
  destruct st'; [|discriminate].
  apply threads_init_running in Et. injection Et as ->.
  intros [= <- <- <-]. split; [reflexivity|]. split; [reflexivity|].
  now exists fname, ds, n, out.
Qed.

(** Whatever the command line, the screen is created with
    [timeout(-1)]. *)
Lemma main_input_timeout (fopen : string -> option (list byte))
    (fcntl_ok : Z -> bool) (LINES COLS : Z) (initscr : option string)
    (where_posted : posted_in) (pthread_mutex_init : nat -> Z)
    (grant : alloc_call -> bool) (argv : list string)
    (t : Watcher.thread) (secs : Z) (st : status) :
  Cli.main fopen fcntl_ok LINES COLS initscr where_posted pthread_mutex_init
           grant argv
  = (Some t, secs, st) ->
  input_timeout (Watcher.screen t) = -1.
Proof.
  intros H.
  destruct (main_running _ _ _ _ _ _ _ _ _ _ _ _ H)
    as (_ & _ & fname & ds & n & out & _ & ->).
  reflexivity.
Qed.

(** C9.  [-d secs] is meant to set the interval of the polling sweep.
    [main] parses the value and hands it, in milliseconds, to
    [screen_create], which ignores it and calls [timeout(-1)]; the
    polling loop sleeps [usleep(25000)] between sweeps.  With [-d 5] the
    interval is 25 milliseconds, not 5 seconds. *)
Theorem delay_flag_is_ignored :
  exists t t' out,
    Cli.main three_files (fun _ => true) 24 80 None In_stdscr (fun _ => 0)
             bsd_alloc ["treetop"; "treetop.conf"; "-d"; "5"]
    = (Some t, 5, Running)
    /\ input_timeout (Watcher.screen t) = -1
    /\ Watcher.turn_poll bsd_alloc stat_three t = (t', out, Running)
    /\ filter is_usleep out = [Usleep 25000]
    /\ Cli.main three_files (fun _ => true) 24 80 None In_stdscr (fun _ => 0)
                bsd_alloc ["treetop"; "treetop.conf"]
       = (Some t, Cli.DEFAULT_TIMEOUT_SECS, Running).
Proof.
  do 3 eexists. split; [vm_compute; reflexivity|].
  split; [reflexivity|]. split; [vm_compute; reflexivity|].
  split; vm_compute; reflexivity.
Qed.

(* ================================================================== *)
(** * Further properties *)
(* ================================================================== *)

(** ** More on the extracted tail *)


Lemma small_file_whole_witness :
  Tail.tail_content (Tail.fill 100 eight (mkBlock 100 []))
  = Tail.file_chars (fp eight).
Proof.
  apply (small_file_whole glibc_alloc 100 eight
           (Tail.fill 100 eight (mkBlock 100 [])) [Malloc 100]).
  - vm_compute. reflexivity.
  - vm_compute. intuition discriminate.
  - vm_compute. intuition discriminate.
  - vm_compute. reflexivity.
Defined.

Lemma window_last_bytes (bytes : Z) (d : data_t) :
  0 <= bytes <= file_size (fp d) ->
  ~ In xff (last_bytes bytes (fp d)) ->
  window bytes d = map char_of_byte (last_bytes bytes (fp d))
  /\ List.length (window bytes d) = Z.to_nat bytes.
Proof.
  intros Hb Hff. unfold window. rewrite seek_tail_eq. unfold unread. simpl.
  replace (file_size (fp d) + - bytes <? 0) with false
    by (symmetry; apply Z.ltb_ge; lia).
  replace (file_size (fp d) + - bytes) with (file_size (fp d) - bytes) by lia.
  fold (last_bytes bytes (fp d)).
  rewrite stored_all by exact Hff. split; [reflexivity|].
  rewrite length_map. unfold last_bytes, file_size in *.
  rewrite length_skipn. lia.
Qed.

Lemma firstn_exact {A} (w r : list A) : firstn (List.length w) (w ++ r) = w.
Proof.
  induction w as [|x w IH]; simpl; [now destruct r|now rewrite IH].
Qed.

Lemma nth_after {A} (w r : list A) (x dflt : A) :
  nth (List.length w) (w ++ x :: r) dflt = x.
Proof. induction w as [|y w IH]; simpl; auto. Qed.

(** X3.  When the file holds at least [bytes] bytes and none of its last
    [bytes] bytes is 0xFF, the extraction leaves exactly those bytes at
    the start of the buffer, followed by the terminator. *)
Theorem tail_is_last_bytes (grant : alloc_call -> bool) (bytes : Z)
    (d d' : data_t) (calls : list alloc_call) :
  0 <= bytes <= file_size (fp d) ->
  ~ In xff (last_bytes bytes (fp d)) ->
  Tail.read_file grant bytes d = (d', calls, Running) ->
  exists b,
    buff d' = Some b
    /\ firstn (Z.to_nat bytes) (cells b)
       = map char_of_byte (last_bytes bytes (fp d))
    /\ nth (Z.to_nat bytes) (cells b) 1 = NUL.
Proof.
  intros Hb Hff H. apply read_file_running in H as [b0 ->].
  destruct (window_last_bytes bytes d Hb Hff) as [Hw Hl].
  eexists. split; [apply fill_buff|]. simpl.
  rewrite <- Hl, <- Hw. split; [apply firstn_exact|apply nth_after].
Qed.

Lemma tail_is_last_bytes_witness :
  exists b,
    buff (Tail.fill 4 eight (mkBlock 4 [])) = Some b
    /\ firstn 4 (cells b) = [101; 102; 103; 104].
Proof.
  destruct (tail_is_last_bytes glibc_alloc 4 eight
              (Tail.fill 4 eight (mkBlock 4 [])) [Malloc 4])
    as (b & Hb & Hf & _).
  - vm_compute. split; discriminate.
  - vm_compute. intuition discriminate.
  - vm_compute. reflexivity.
  - exists b. split; [exact Hb|]. exact Hf.
Defined.

Lemma skipn_succ_memset0 (c : list Z) (n : Z) :
  (List.length c <= Z.to_nat n)%nat ->
  skipn (S (Z.to_nat n)) (memset0 c n) = [].
Proof.
  intros Hc. unfold memset0.
  apply skipn_all2. rewrite length_app, repeat_length, length_skipn. lia.
Qed.

(** X4.  In the same situation, when the block was obtained from
    [malloc] or [realloc] in this call, it has capacity [bytes] and the
    program has written [bytes + 1] cells: the terminator is stored one
    cell past the end of the block. *)
Theorem terminator_past_block (grant : alloc_call -> bool) (bytes : Z)
    (d d' : data_t) (calls : list alloc_call) (c : alloc_call) :
  0 <= bytes <= file_size (fp d) ->
  bytes < 2 ^ 64 ->
  ~ In xff (last_bytes bytes (fp d)) ->
  request bytes d = Some c ->
  Tail.read_file grant bytes d = (d', calls, Running) ->
  exists b,
    buff d' = Some b
    /\ cap b = bytes
    /\ Z.of_nat (List.length (cells b)) = bytes + 1.
Proof.
  intros Hb Hm Hff Hreq H.
  destruct (window_last_bytes bytes d Hb Hff) as [_ Hl].
  assert (Hsize : size_t_of_int bytes = bytes)
    by (unfold size_t_of_int; apply Z.mod_small; lia).
  unfold request in Hreq. unfold Tail.read_file in H.
  rewrite Hsize in *.
  assert (Hlen : forall c0 : list Z,
             (List.length c0 <= Z.to_nat bytes)%nat ->
             Z.of_nat (List.length
               (window bytes d
                ++ NUL :: skipn (S (List.length (window bytes d)))
                                (memset0 c0 bytes))) = bytes + 1).
  { intros c0 Hc0. rewrite Hl.
    rewrite skipn_succ_memset0 by exact Hc0.
    rewrite length_app, Hl. simpl. lia. }
  destruct (buff d) as [b|].
  - destruct (bytes =? Tail.sizeof_buff); [discriminate Hreq|]. simpl in H.
    destruct (grant (Realloc (cap b) bytes)); [|discriminate H].
    injection H as <- _. eexists. split; [apply fill_buff|].
    split; [reflexivity|]. simpl. rewrite Hsize. apply Hlen.
    rewrite length_firstn. lia.
  - destruct (grant (Malloc bytes)); [|discriminate H].
    injection H as <- _. eexists. split; [apply fill_buff|].
    split; [reflexivity|]. simpl. rewrite Hsize. apply Hlen. simpl. lia.
Qed.

Lemma terminator_past_block_witness :
  exists b,
    buff (Tail.fill 4 eight (mkBlock 4 [])) = Some b
    /\ cap b = 4
    /\ Z.of_nat (List.length (cells b)) = 5.
Proof.
  apply (terminator_past_block glibc_alloc 4 eight
           (Tail.fill 4 eight (mkBlock 4 [])) [Malloc 4] (Malloc 4)).
  - vm_compute. split; discriminate.
  - reflexivity.
  - vm_compute. intuition discriminate.
  - reflexivity.
  - vm_compute. reflexivity.
Defined.

Lemma marks_lower (w : list Z) (k k' : nat) :
  (k' < List.length w)%nat -> nth (k' - 1) w NUL = NEWLINE ->
  marks w k -> (k' <= k)%nat.
Proof.
  intros Hl Hn [_ M].
  destruct (Nat.eq_dec k' 0) as [->|Hk]; [lia|].
  specialize (M (k' - 1)%nat).
  replace (S (k' - 1)) with k' in M by lia.
  exact (M Hl Hn).
Qed.

Lemma marks_unique (w : list Z) (k1 k2 : nat) :
  marks w k1 -> marks w k2 -> k1 = k2.
Proof.
  intros M1 M2.
  assert (H12 : (k1 <= k2)%nat).
  { destruct M1 as [[->|[H1 N1]] _]; [lia|].
    exact (marks_lower w k2 k1 H1 N1 M2). }
  assert (H21 : (k2 <= k1)%nat).
  { destruct M2 as [[->|[H2 N2]] _]; [lia|].
    exact (marks_lower w k1 k2 H2 N2 M1). }
  lia.
Qed.

Lemma last_line_fill (bytes : Z) (d : data_t) (b : block) (k : nat) :
  line (Tail.fill bytes d b) = Some k ->
  Tail.last_line (Tail.fill bytes d b) = c_string (skipn k (window bytes d)).
Proof.
  intros Hk. destruct (fill_line bytes d b) as (k' & Hk' & [Hl _]).
  rewrite Hk in Hk'. injection Hk' as <-.
  unfold Tail.last_line. rewrite fill_buff, Hk. simpl.
  rewrite skipn_app.
  replace (k - List.length (window bytes d))%nat with 0%nat
    by (destruct Hl as [->|[Hl _]]; lia).
  simpl. apply c_string_app_nul.
Qed.

(** X5.  What an extraction leaves to be read depends on the bytes of
    the file and on the budget only: two entries on files with the same
    bytes come out with the same tail content, line marker and last
    line, whatever their buffers held before, wherever their streams
    stood and whichever allocator served them.  In particular
    extracting again from an unchanged file changes none of the
    three. *)
Theorem extraction_depends_on_file_only (g1 g2 : alloc_call -> bool)
    (bytes : Z) (d1 d2 d1' d2' : data_t) (c1 c2 : list alloc_call) :
  contents (fp d1) = contents (fp d2) ->
  Tail.read_file g1 bytes d1 = (d1', c1, Running) ->
  Tail.read_file g2 bytes d2 = (d2', c2, Running) ->
  Tail.tail_content d1' = Tail.tail_content d2'
  /\ line d1' = line d2'
  /\ Tail.last_line d1' = Tail.last_line d2'.
Proof.
  intros Hc H1 H2.
  apply read_file_running in H1 as [b1 ->].
  apply read_file_running in H2 as [b2 ->].
  assert (Hw : window bytes d1 = window bytes d2)
    by (apply window_contents; exact Hc).
  destruct (fill_line bytes d1 b1) as (k1 & Hk1 & M1).
  destruct (fill_line bytes d2 b2) as (k2 & Hk2 & M2).
  rewrite Hw in M1. pose proof (marks_unique _ _ _ M1 M2) as ->.
  split; [now rewrite !tail_content_fill, Hw|].
  split; [now rewrite Hk1, Hk2|].
  now rewrite (last_line_fill _ _ _ _ Hk1), (last_line_fill _ _ _ _ Hk2), Hw.
Qed.

Lemma extraction_depends_on_file_only_witness :
  Tail.tail_content (read_once 4 (read_once 4 eight))
  = Tail.tail_content (read_once 4 eight)
  /\ line (read_once 4 (read_once 4 eight)) = line (read_once 4 eight)
  /\ Tail.last_line (read_once 4 (read_once 4 eight))
     = Tail.last_line (read_once 4 eight).
Proof.
  apply (extraction_depends_on_file_only glibc_alloc glibc_alloc 4
           (read_once 4 eight) eight
           (read_once 4 (read_once 4 eight)) (read_once 4 eight)
           [Realloc 4 4] [Malloc 4]).
  - reflexivity.
  - vm_compute. reflexivity.
  - vm_compute. reflexivity.
Defined.

(** ** A negative budget *)

Lemma negative_size (bytes : Z) :
  - 2 ^ 31 <= bytes < 0 ->
  PTRDIFF_MAX < size_t_of_int bytes
  /\ (size_t_of_int bytes =? Tail.sizeof_buff) = false.
Proof.
  intros Hb. unfold size_t_of_int, PTRDIFF_MAX, Tail.sizeof_buff.
  replace (bytes mod 2 ^ 64) with (bytes + 2 ^ 64).
  - split; [lia|]. apply Z.eqb_neq. lia.
  - apply Z.mod_unique with (q := -1); lia.
Qed.

Lemma read_file_negative (grant : alloc_call -> bool) (bytes : Z) (d : data_t) :
  refuses_large grant ->
  - 2 ^ 31 <= bytes < 0 ->
  Tail.read_file grant bytes d
  = (d,
     [match buff d with
      | None => Malloc (size_t_of_int bytes)
      | Some b => Realloc (cap b) (size_t_of_int bytes)
      end],
     Exited (-1)
       (match buff d with
        | None => "[logtop][error] Can't allocate memory for file buffer"
        | Some _ => "[logtop][error] Can't reallocate memory for file buffer"
        end ++ String "010" "")%string).
Proof.
  intros Hg Hb. destruct (negative_size bytes Hb) as [Hbig Hne].
  unfold Tail.read_file. destruct (buff d) as [b|].
  - rewrite Hne. simpl.
    now rewrite (Hg (Realloc (cap b) (size_t_of_int bytes)) Hbig).
  - now rewrite (Hg (Malloc (size_t_of_int bytes)) Hbig).
Qed.

Lemma read_files_negative (grant : alloc_call -> bool)
    (bytes opened_files : Z) (pre : list data_t) (d : data_t)
    (post : list data_t) :
  refuses_large grant ->
  - 2 ^ 31 <= bytes < 0 ->
  Forall (fun x => state x = UNCHANGED) pre ->
  state d = UPDATED ->
  Tail.read_files grant bytes opened_files (pre ++ d :: post)
  = (pre ++ d :: post,
     [match buff d with
      | None => Malloc (size_t_of_int bytes)
      | Some b => Realloc (cap b) (size_t_of_int bytes)
      end],
     Exited (-1)
       (match buff d with
        | None => "[logtop][error] Can't allocate memory for file buffer"
        | Some _ => "[logtop][error] Can't reallocate memory for file buffer"
        end ++ String "010" "")%string).
Proof.
  intros Hg Hb Hpre Hs. induction Hpre as [|x pre Hx _ IH]; simpl.
  - rewrite Hs, (read_file_negative grant bytes d Hg Hb). reflexivity.
  - rewrite Hx, IH. reflexivity.
Qed.

(** X6.  With a negative budget and an allocator that refuses requests
    above [PTRDIFF_MAX], [read_files] ends the process at the first
    flagged entry: it asks the allocator once, for that entry, with the
    budget converted to [size_t], prints
    "[logtop][error] Can't allocate memory for file buffer" when the
    entry had no buffer and
    "[logtop][error] Can't reallocate memory for file buffer" when it
    had one, and exits with status -1; no entry of the registry has been
    changed. *)
Theorem negative_budget_exits (grant : alloc_call -> bool)
    (bytes opened_files : Z) (pre : list data_t) (d : data_t)
    (post : list data_t) :
  refuses_large grant ->
  - 2 ^ 31 <= bytes < 0 ->
  Forall (fun x => state x = UNCHANGED) pre ->
  state d = UPDATED ->
  Tail.read_files grant bytes opened_files (pre ++ d :: post)
  = (pre ++ d :: post,
     [match buff d with
      | None => Malloc (size_t_of_int bytes)
      | Some b => Realloc (cap b) (size_t_of_int bytes)
      end],
     Exited (-1)
       (match buff d with
        | None => "[logtop][error] Can't allocate memory for file buffer"
        | Some _ => "[logtop][error] Can't reallocate memory for file buffer"
        end ++ String "010" "")%string).
Proof. exact (read_files_negative grant bytes opened_files pre d post). Qed.

Lemma glibc_refuses_large : refuses_large glibc_alloc.
Proof.
  intros [n|o n]; simpl; intros H.
  - apply Z.leb_gt. exact H.
  - apply andb_false_iff. right. apply Z.leb_gt. exact H.
Qed.

(** An acknowledged entry, then one that is flagged and has a buffer:
    the [realloc] for the second one fails. *)
Lemma negative_budget_exits_witness :
  Tail.read_files glibc_alloc (-76) 2 [seen 100 eight; abc_read]
  = ([seen 100 eight; abc_read],
     [Realloc 100 (2 ^ 64 - 76)],
     Exited (-1)
       ("[logtop][error] Can't reallocate memory for file buffer"
        ++ String "010" "")%string).
Proof.
  apply (negative_budget_exits glibc_alloc (-76) 2 [seen 100 eight] abc_read []).
  - exact glibc_refuses_large.
  - lia.
  - repeat constructor.
  - reflexivity.
Defined.

Lemma refresh_menus_fields (scr : screen_t) :
  datas (Menu.refresh_menus scr) = datas scr
  /\ menu (Menu.refresh_menus scr) = menu scr
  /\ details (Menu.refresh_menus scr) = details scr
  /\ doupdates (Menu.refresh_menus scr) = doupdates scr.
Proof.
  unfold Menu.refresh_menus.
  destruct (sub (menu scr)); [destruct (nitems (menu scr))|]; now repeat split.
Qed.

(** X7.  After [SIGWINCH] on a terminal of four lines and more than
    four columns the details window is one line high and the budget of
    the next turn is [4 - COLS], a negative number: the next turn ends
    the process at the first flagged entry, with the one allocator call
    and the diagnostic of a failed allocation for that entry, status -1
    and the registry unchanged. *)
Theorem short_terminal_exits (grant : alloc_call -> bool)
    (t : Watcher.thread) (COLS : Z) (pre : list data_t) (d : data_t)
    (post : list data_t) :
  refuses_large grant ->
  4 < COLS <= 32767 ->
  datas (Watcher.screen t) = pre ++ d :: post ->
  Forall (fun x => state x = UNCHANGED) pre ->
  state d = UPDATED ->
  fst (fst (Watcher.getMaxBytes (details (Watcher.screen
         (fst (Watcher.on_kevent (Watcher.Sigwinch 4 COLS) t))))))
  = 4 - COLS
  /\ exists t',
       Watcher.display grant
         (fst (Watcher.on_kevent (Watcher.Sigwinch 4 COLS) t))
       = (t',
          [Alloc match buff d with
                 | None => Malloc (size_t_of_int (4 - COLS))
                 | Some b => Realloc (cap b) (size_t_of_int (4 - COLS))
                 end],
          Exited (-1)
            (match buff d with
             | None =>
                 "[logtop][error] Can't allocate memory for file buffer"
             | Some _ =>
                 "[logtop][error] Can't reallocate memory for file buffer"
             end ++ String "010" "")%string)
       /\ datas (Watcher.screen t') = datas (Watcher.screen t).
Proof.
  intros Hg HC Hds Hpre Hs.
  set (t1 := fst (Watcher.on_kevent (Watcher.Sigwinch 4 COLS) t)).
  set (scr0 := Watcher.wresize_details
                 (Watcher.wresize_content (Menu.doupdate (Watcher.screen t))
                    (4 - 3, COLS - 2))
                 (4 - 3, COLS - 2)).
  assert (Hscr : Watcher.screen t1
                 = Menu.update_panels_safe (Menu.refresh_menus scr0))
    by reflexivity.
  destruct (refresh_menus_fields scr0) as (Hrd & _ & Hrdet & _).
  assert (Hdet : details (Watcher.screen t1) = (1, COLS - 2))
    by (rewrite Hscr; unfold Menu.update_panels_safe, Menu.doupdate;
        cbn [details]; rewrite Hrdet; reflexivity).
  assert (Hdat : datas (Watcher.screen t1) = datas (Watcher.screen t))
    by (rewrite Hscr; unfold Menu.update_panels_safe, Menu.doupdate;
        cbn [datas]; rewrite Hrd; reflexivity).
  assert (Hbytes : fst (fst (Watcher.getMaxBytes (details (Watcher.screen t1))))
                   = 4 - COLS)
    by (rewrite Hdet; unfold Watcher.getMaxBytes; cbn [fst snd]; lia).
  split; [exact Hbytes|].
  assert (Hb : - 2 ^ 31 <= 4 - COLS < 0) by lia.
  pose proof (read_files_negative grant (4 - COLS) (Watcher.opened_files t1)
                pre d post Hg Hb Hpre Hs) as E.
  unfold Watcher.display.
  destruct (Watcher.getMaxBytes (details (Watcher.screen t1)))
    as [[bytes' maxx] maxy].
  cbn [fst] in Hbytes. subst bytes'. rewrite Hdat, Hds, E.
  eexists. split; reflexivity.
Qed.

Lemma short_terminal_exits_witness :
  exists t',
    Watcher.display glibc_alloc
      (fst (Watcher.on_kevent (Watcher.Sigwinch 4 80) watching))
    = (t', [Alloc (Malloc (2 ^ 64 - 76))],
       Exited (-1)
         ("[logtop][error] Can't allocate memory for file buffer"
          ++ String "010" "")%string).
Proof.
  destruct (short_terminal_exits glibc_alloc watching 80 []
              (Config.node "b.log" (ascii_bytes "two" ++ [x0a]) 1)
              [Config.node "a.log" (ascii_bytes "one" ++ [x0a]) 0])
    as (_ & t' & E & _).
  - exact glibc_refuses_large.
  - lia.
  - vm_compute. reflexivity.
  - constructor.
  - reflexivity.
  - exists t'. exact E.
Defined.

(** ** More on the polling sweep *)

(** X8.  A sweep that completes records for every entry the
    modification time [stat] reported, and flags exactly the entries
    that were flagged already or whose time differs from the one
    recorded before; buffer, line marker and stream are left alone, and
    [stat] was asked once per entry, in registry order. *)
Theorem sweep_flags_modified (stat : string -> option Z)
    (ds ds' : list data_t) (evs : list event) :
  Watcher.stat_sweep stat ds = (ds', evs, Running) ->
  Forall2 (fun d d' => exists mtime,
               stat (full_path d) = Some mtime
               /\ last_mod d' = mtime
               /\ (state d' = UPDATED
                   <-> state d = UPDATED \/ mtime <> last_mod d)
               /\ buff d' = buff d /\ line d' = line d /\ fp d' = fp d)
          ds ds'
  /\ evs = map stat_query ds.
Proof.
  intros H. destruct (stat_sweep_running stat ds _ _ H) as [HF He].
  split; [|exact He].
  eapply Forall2_impl; [|exact HF].
  intros d d' (mtime & Hs & ->).
  destruct (swept_fields mtime d) as (_ & Hl & Hb & Hli & Hfp & Hst).
  exists mtime. repeat split; auto; apply Hst.
Qed.

Lemma sweep_flags_modified_witness :
  exists ds' evs,
    Watcher.stat_sweep stat_three (datas (Watcher.screen watching))
    = (ds', evs, Running)
    /\ evs = map stat_query (datas (Watcher.screen watching)).
Proof.
  destruct (Watcher.stat_sweep stat_three (datas (Watcher.screen watching)))
    as [[ds' evs] st] eqn:E.
  assert (Hst : st = Running) by (vm_compute in E; now injection E as _ _ <-).
  subst st. exists ds', evs. split; [reflexivity|].
  exact (proj2 (sweep_flags_modified stat_three _ ds' evs E)).
Defined.

Lemma stat_sweep_cons (stat : string -> option Z) (d : data_t)
    (next : list data_t) (mtime : Z) :
  stat (full_path d) = Some mtime ->
  Watcher.stat_sweep stat (d :: next)
  = match Watcher.stat_sweep stat next with
    | (next', evs, st) => (swept mtime d :: next', stat_query d :: evs, st)
    end.
Proof. intros H. simpl. rewrite H. reflexivity. Qed.

Lemma swept_twice (mtime : Z) (d : data_t) :
  swept mtime (swept mtime d) = swept mtime d.
Proof.
  unfold swept at 1.
  destruct (swept_fields mtime d) as (_ & -> & _).
  now rewrite Z.eqb_refl.
Qed.

(** X9.  A second sweep over the result of a completed sweep, with the
    files unmodified in between, changes nothing and raises no flag. *)
Theorem sweep_twice (stat : string -> option Z) (ds ds' : list data_t)
    (evs : list event) :
  Watcher.stat_sweep stat ds = (ds', evs, Running) ->
  Watcher.stat_sweep stat ds' = (ds', evs, Running).
Proof.
  intros H. destruct (stat_sweep_running stat ds _ _ H) as [HF ->].
  clear H. induction HF as [|d d' next next' (mtime & Hs & ->) _ IH].
  - reflexivity.
  - destruct (swept_fields mtime d) as (Hp & _).
    rewrite (stat_sweep_cons stat _ _ mtime) by (now rewrite Hp).
    rewrite IH, swept_twice. unfold stat_query. now rewrite Hp.
Qed.

Lemma sweep_twice_witness :
  Watcher.stat_sweep stat_three
    (fst (fst (Watcher.stat_sweep stat_three (datas (Watcher.screen watching)))))
  = Watcher.stat_sweep stat_three (datas (Watcher.screen watching)).
Proof.
  destruct (Watcher.stat_sweep stat_three (datas (Watcher.screen watching)))
    as [[ds' evs] st] eqn:E.
  assert (Hst : st = Running) by (vm_compute in E; now injection E as _ _ <-).
  subst st. simpl. exact (sweep_twice stat_three _ ds' evs E).
Defined.

(** ** More on change events *)

(** X10.  A READ event flags the first entry whose descriptor is the
    event's and changes nothing else; an event for a descriptor that no
    entry has leaves the registry as it was. *)
Theorem flag_fd_first_match (ident : Z) (ds : list data_t) :
  (Forall (fun d => fd d <> ident) ds /\ Watcher.flag_fd ident ds = ds)
  \/ (exists ds1 d ds2,
        ds = ds1 ++ d :: ds2
        /\ Forall (fun x => fd x <> ident) ds1
        /\ fd d = ident
        /\ Watcher.flag_fd ident ds = ds1 ++ set_state d UPDATED :: ds2).
Proof.
  induction ds as [|d next IH]; simpl.
  - left. split; [constructor|reflexivity].
  - destruct (fd d =? ident) eqn:E.
    + apply Z.eqb_eq in E. right. exists [], d, next.
      repeat split; auto.
    + apply Z.eqb_neq in E.
      destruct IH as [[HF He]|(ds1 & x & ds2 & -> & HF & Hx & He)].
      * left. split; [now constructor|now rewrite He].
      * right. exists (d :: ds1), x, ds2.
        repeat split; auto. simpl. now rewrite He.
Qed.

(** ** One turn of the watcher *)



(** X12.  With the details pane closed, a completed turn of the watcher
    extracts the tail of every flagged entry.  The entry under the
    cursor is then acknowledged and nothing is printed in its line:
    the line shows the indicator only if reposting the menu left one
    there.  Every other flagged entry stays flagged, and the indicator
    is printed in the line of the content window that its position
    gives, if the window has that line. *)
Theorem turn_acknowledges_current (grant : alloc_call -> bool)
    (t t1 : Watcher.thread) (out : list event) (i : nat) (d : data_t) :
  Watcher.display grant t = (t1, out, Running) ->
  Watcher.show_details t = None ->
  nth_error (datas (Watcher.screen t)) i = Some d ->
  state d = UPDATED ->
  exists d1,
    nth_error (datas (Watcher.screen t1)) i = Some d1
    /\ Tail.tail_content d1
       = c_string (window (fst (fst (Watcher.getMaxBytes
                                       (details (Watcher.screen t))))) d)
    /\ (current_userptr (menu (Watcher.screen t)) = Some i ->
        state d1 = UNCHANGED
        /\ indicator (content (Watcher.screen t1)) i
           = indicator (content (Menu.refresh_menus (Watcher.screen t))) i)
    /\ (current_userptr (menu (Watcher.screen t)) <> Some i ->
        state d1 = UPDATED
        /\ indicator (content (Watcher.screen t1)) i
           = indicator (content (Menu.refresh_menus (Watcher.screen t))) i
             || inside (content (Watcher.screen t)) i).
Proof. exact (display_closed_entry grant t t1 out i d). Qed.

Lemma turn_acknowledges_current_witness :
  exists d1,
    nth_error (datas (Watcher.screen (fst (fst
      (Watcher.display bsd_alloc watching))))) 1 = Some d1
    /\ state d1 = UPDATED
    /\ indicator (content (Watcher.screen (fst (fst
         (Watcher.display bsd_alloc watching))))) 1 = true.
Proof.
  destruct (Watcher.display bsd_alloc watching) as [[t1 out] st] eqn:E.
  assert (Hst : st = Running) by (vm_compute in E; now injection E as _ _ <-).
  subst st.
  destruct (turn_acknowledges_current bsd_alloc watching t1 out 1
              (fresh 4 "a.log" (ascii_bytes "one" ++ [x0a]))
              E eq_refl eq_refl eq_refl) as (d1 & H1 & _ & _ & Hn).
  destruct Hn as [Hs Hw]; [vm_compute; discriminate|].
  exists d1. split; [exact H1|]. split; [exact Hs|].
  cbn [fst Watcher.screen]. rewrite Hw. reflexivity.
Defined.

(** X13.  After a READ event for the descriptor of an entry, the next
    completed turn of the watcher leaves the tail of that file, as it is
    now, in the entry's buffer, whether the details pane is open or
    not. *)
Theorem read_event_extracts (grant : alloc_call -> bool)
    (t t' : Watcher.thread) (out : list event) (ident : Z) (i : nat)
    (d : data_t) :
  nth_error (datas (Watcher.screen t)) i = Some d ->
  fd d = ident ->
  (forall j x, (j < i)%nat -> nth_error (datas (Watcher.screen t)) j = Some x ->
               fd x <> ident) ->
  Watcher.display grant (fst (Watcher.on_kevent (Watcher.Read ident) t))
  = (t', out, Running) ->
  exists d',
    nth_error (datas (Watcher.screen t')) i = Some d'
    /\ Tail.tail_content d'
       = c_string (window (fst (fst (Watcher.getMaxBytes
                                       (details (Watcher.screen t))))) d).
Proof.
  intros Hi Hd Hfirst H.
  pose proof (flag_fd_nth ident _ i d Hi Hd Hfirst) as Hflag.
  destruct (display_running grant _ t' out H) as (ds & calls & E & _ & Hm).
  simpl in E, Hm.
  set (bytes := fst (fst (Watcher.getMaxBytes (details (Watcher.screen t)))))
    in *.
  destruct (read_files_entry grant bytes _ _ ds calls i _ E Hflag eq_refl)
    as [b Hb].
  assert (Ht : Tail.tail_content (Tail.fill bytes (set_state d UPDATED) b)
               = c_string (window bytes d))
    by (rewrite tail_content_fill; reflexivity).
  destruct (Watcher.show_details t) as [k|].
  - destruct Hm as (-> & _). eexists. split; [exact Hb|exact Ht].
  - destruct Hm as (-> & _).
    destruct (Forall2_nth_error _ _ _
                (menu_driver_update_same_file
                   (Watcher.with_datas (Watcher.screen t) ds) (-1))
                i _ Hb) as (y & Hy & Hsame).
    exists y. split; [exact Hy|].
    now rewrite (tail_content_same_file _ _ Hsame).
Qed.

Lemma read_event_extracts_witness :
  exists t' out d',
    Watcher.display glibc_alloc (fst (Watcher.on_kevent (Watcher.Read 4) grown))
    = (t', out, Running)
    /\ nth_error (datas (Watcher.screen t')) 0 = Some d'
    /\ Tail.tail_content d' = [111; 108; 100; 10; 110; 101; 119; 10].
Proof.
  destruct (Watcher.display glibc_alloc
              (fst (Watcher.on_kevent (Watcher.Read 4) grown)))
    as [[t' out] st] eqn:E.
  assert (Hst : st = Running) by (vm_compute in E; now injection E as _ _ <-).
  subst st.
  destruct (nth_error (datas (Watcher.screen grown)) 0) as [d|] eqn:Ed;
    [|discriminate Ed].
  destruct (read_event_extracts glibc_alloc grown t' out 4 0 d Ed)
    as (d' & Hd' & Ht).
  - vm_compute in Ed. injection Ed as <-. reflexivity.
  - intros j x Hj. lia.
  - exact E.
  - exists t', out, d'. split; [reflexivity|]. split; [exact Hd'|].
    rewrite Ht. vm_compute in Ed. injection Ed as <-.
    vm_compute. reflexivity.
Defined.

(** ** More on [data_init] *)

Section RegistryMore.

Variable fopen : string -> option (list byte).
Variable fcntl_ok : Z -> bool.

Lemma data_init_loop_initial (lines : list (list ascii)) :
  forall head n ds n' out st,
    Config.data_init_loop fopen fcntl_ok lines head n = (ds, n', out, st) ->
    Forall (initial fopen) head ->
    Forall (initial fopen) ds.
Proof.
  induction lines as [|ln rest IH]; intros head n ds n' out st H Hh;
    simpl in H.
  - now injection H as <- _ _ _.
  - destruct (Config.path_of_line ln) as [c|]; [|exact (IH _ _ _ _ _ _ H Hh)].
    destruct (fopen c) as [bytes|] eqn:Ec.
    + assert (Hn : Forall (initial fopen) (Config.node c bytes n :: head)).
      { constructor; [|exact Hh]. unfold initial. simpl.
        repeat split; auto. }
      match type of H with
      | context [fcntl_ok ?x] => destruct (fcntl_ok x)
      end.
      * destruct (Config.data_init_loop fopen fcntl_ok rest
                    (Config.node c bytes n :: head) (n + 1))
          as [[[h m] o] s'] eqn:E.
        injection H as <- _ _ _. exact (IH _ _ _ _ _ _ E Hn).
      * now injection H as <- _ _ _.
    + destruct (Config.data_init_loop fopen fcntl_ok rest head n)
        as [[[h m] o] s'] eqn:E.
      injection H as <- _ _ _. exact (IH _ _ _ _ _ _ E Hh).
Qed.

Lemma registry_starts_flagged_aux (fname : string) (ds : list data_t)
    (n : Z) (out : list Config.output) (st : status) :
  Config.data_init fopen fcntl_ok fname 0 = (ds, n, out, st) ->
  Forall (initial fopen) ds.
Proof.
  unfold Config.data_init. destruct (fopen fname) as [bytes|].
  - intros H. exact (data_init_loop_initial _ _ _ _ _ _ _ H (Forall_nil _)).
  - intros [= <- _ _ _]. constructor.
Qed.

(** X14.  Every entry of the registry [data_init] returns is flagged
    UPDATED and has no buffer, no line marker and modification time 0;
    its stream stands at the start of the file its path names, and its
    display name is the base name of that path. *)
Theorem registry_starts_flagged (fname : string) (ds : list data_t)
    (n : Z) (out : list Config.output) (st : status) :
  Config.data_init fopen fcntl_ok fname 0 = (ds, n, out, st) ->
  Forall (initial fopen) ds.
Proof. exact (registry_starts_flagged_aux fname ds n out st). Qed.

Lemma data_init_loop_output (lines : list (list ascii)) :
  forall head n ds n' out,
    Config.data_init_loop fopen fcntl_ok lines head n
    = (ds, n', out, Running) ->
    out = map (report fopen) (flat_map Config.paths_of lines).
Proof.
  induction lines as [|ln rest IH]; intros head n ds n' out H; simpl in H.
  - now injection H as _ _ <-.
  - simpl. unfold Config.paths_of at 1.
    destruct (Config.path_of_line ln) as [c|]; simpl;
      [|exact (IH _ _ _ _ _ H)].
    unfold report at 1, Config.can_open.
    destruct (fopen c) as [bytes|] eqn:Ec.
    + match type of H with
      | context [fcntl_ok ?x] => destruct (fcntl_ok x)
      end; [|unfold ER in H; discriminate H].
      destruct (Config.data_init_loop fopen fcntl_ok rest
                  (Config.node c bytes n :: head) (n + 1))
        as [[[h m] o] s'] eqn:E.
      injection H as _ _ <- ->. now rewrite (IH _ _ _ _ _ E).
    + destruct (Config.data_init_loop fopen fcntl_ok rest head n)
        as [[[h m] o] s'] eqn:E.
      injection H as _ _ <- ->. now rewrite (IH _ _ _ _ _ E).
Qed.

(** X15.  A [data_init] that returns has printed one line per path the
    configuration lists, in the order of the file: the debug line for a
    path it could open, the warning for a path it could not; a path
    that cannot be opened does not stop it. *)
Theorem data_init_reports_each_path (fname : string) (bytes : list byte)
    (ds : list data_t) (n : Z) (out : list Config.output) :
  fopen fname = Some bytes ->
  Config.data_init fopen fcntl_ok fname 0 = (ds, n, out, Running) ->
  out = map (report fopen) (Config.listed bytes).
Proof.
  intros Hcfg H. unfold Config.data_init in H. rewrite Hcfg in H.
  exact (data_init_loop_output _ _ _ _ _ _ H).
Qed.

End RegistryMore.

Lemma registry_starts_flagged_witness :
  Forall (initial three_files)
    (fst (fst (fst (Config.data_init three_files (fun _ => true)
                      "treetop.conf" 0)))).
Proof.
  destruct (Config.data_init three_files (fun _ => true) "treetop.conf" 0)
    as [[[ds n] out] st] eqn:E.
  exact (registry_starts_flagged three_files (fun _ => true)
           "treetop.conf" ds n out st E).
Defined.

Lemma data_init_reports_each_path_witness :
  snd (fst (Config.data_init three_files (fun _ => true) "treetop.conf" 0))
  = [Config.Debug (_PR "[debug] " "Monitoring file: 'a.log'...");
     Config.Warning (WR "Could not open file: 'gone.log'");
     Config.Debug (_PR "[debug] " "Monitoring file: 'b.log'...")].
Proof.
  destruct (Config.data_init three_files (fun _ => true) "treetop.conf" 0)
    as [[[ds n] out] st] eqn:E.
  assert (Hst : st = Running) by (vm_compute in E; now injection E as _ _ _ <-).
  subst st. simpl.
  rewrite (data_init_reports_each_path three_files (fun _ => true)
             "treetop.conf" _ ds n out eq_refl E).
  vm_compute. reflexivity.
Defined.

(** ** Start-up *)


Lemma indicator_werase (w : WINDOW) (i : nat) : indicator (werase w) i = false.
Proof.
  unfold indicator, werase. simpl. revert i.
  induction (col3 w) as [|b l IH]; intros [|i]; simpl; auto.
Qed.





(** ** More on [menu_driver_update] *)

Lemma indicate_size (sel : option nat) (ds : list data_t) :
  forall i w,
    ncols (snd (Menu.indicate sel i ds w)) = ncols w
    /\ List.length (col3 (snd (Menu.indicate sel i ds w)))
       = List.length (col3 w).
Proof.
  assert (Hp : forall w y, ncols (mvwprintw w y) = ncols w
                           /\ List.length (col3 (mvwprintw w y))
                              = List.length (col3 w)).
  { intros w y. unfold mvwprintw. destruct (3 <? ncols w); simpl;
      [now rewrite put_length|now split]. }
  induction ds as [|d next IH]; intros i w; simpl; [now split|].
  destruct (state d); [|destruct (negb (Menu.same_node sel i))].
  - specialize (IH (S i) w). now destruct (Menu.indicate sel (S i) next w).
  - specialize (IH (S i) (mvwprintw w i)). destruct (Hp w i) as [H1 H2].
    destruct (Menu.indicate sel (S i) next (mvwprintw w i)). simpl in *.
    destruct IH as [-> ->]. now split.
  - specialize (IH (S i) w). now destruct (Menu.indicate sel (S i) next w).
Qed.

(** The lines in which the second loop prints are the lines of the nodes
    it leaves flagged. *)
Lemma indicate_flagged_rows (sel : option nat) (ds : list data_t) :
  forall i w r,
    indicator (snd (Menu.indicate sel i ds w)) r
    = indicator w r
      || (inside w r
          && existsb (Nat.eqb r)
               (flagged_rows i (fst (Menu.indicate sel i ds w)))).
Proof.
  induction ds as [|d next IH]; intros i w r; simpl.
  - now rewrite andb_false_r, orb_false_r.
  - destruct (state d) eqn:Es;
      [|destruct (negb (Menu.same_node sel i)) eqn:En].
    + specialize (IH (S i) w r).
      destruct (Menu.indicate sel (S i) next w). simpl in *.
      now rewrite Es.
    + specialize (IH (S i) (mvwprintw w i) r).
      destruct (Menu.indicate sel (S i) next (mvwprintw w i)). simpl in *.
      rewrite Es, IH, mvwprintw_indicator, mvwprintw_inside. simpl.
      destruct (r =? i)%nat eqn:E; simpl.
      * apply Nat.eqb_eq in E. subst r.
        destruct (indicator w i), (inside w i); reflexivity.
      * now rewrite orb_false_r.
    + specialize (IH (S i) w r).
      destruct (Menu.indicate sel (S i) next w). simpl in *.
      exact IH.
Qed.

(** X17.  After a call of [menu_driver_update] the lines of the content
    window that show the indicator are the lines that showed it once the
    menu was reposted, and the lines of the entries that are flagged
    after the call, as far as the window has them. *)
Theorem indicators_are_flagged_rows (scr : screen_t) (c : Z) (r : nat) :
  indicator (content (Menu.menu_driver_update scr c)) r = true
  <-> indicator (content (Menu.refresh_menus scr)) r = true
      \/ (inside (content scr) r = true
          /\ In r (flagged_rows 0 (datas (Menu.menu_driver_update scr c)))).
Proof.
  destruct (menu_driver_update_fields scr c) as (_ & -> & ->).
  rewrite indicate_flagged_rows, refresh_menus_inside.
  rewrite orb_true_iff, andb_true_iff, existsb_exists.
  split; (intros [H|[H1 H2]]; [now left|right; split; [exact H1|]]).
  - destruct H2 as (x & Hx & E). apply Nat.eqb_eq in E. now subst x.
  - exists r. split; [exact H2|apply Nat.eqb_refl].
Qed.

Lemma describe_twice (d : data_t) :
  Menu.describe (Menu.describe d) = Menu.describe d.
Proof.
  unfold Menu.describe. destruct (state d) eqn:E; simpl; rewrite E;
    reflexivity.
Qed.

Lemma indicate_fst_cons (sel : option nat) (i : nat) (d : data_t)
    (next : list data_t) (w : WINDOW) :
  fst (Menu.indicate sel i (d :: next) w)
  = match state d with
    | UPDATED =>
        if negb (Menu.same_node sel i) then d else set_state d UNCHANGED
    | UNCHANGED => d
    end :: fst (Menu.indicate sel (S i) next w).
Proof.
  simpl. destruct (state d); [|destruct (negb (Menu.same_node sel i))].
  - now destruct (Menu.indicate sel (S i) next w).
  - rewrite (indicate_nodes sel next (S i) w (mvwprintw w i)).
    now destruct (Menu.indicate sel (S i) next (mvwprintw w i)).
  - now destruct (Menu.indicate sel (S i) next w).
Qed.

(** The nodes a call leaves are left alone by a second pass. *)
Lemma indicate_describe_twice (sel : option nat) (ds : list data_t) :
  forall i w w',
    fst (Menu.indicate sel i
           (map Menu.describe
              (fst (Menu.indicate sel i (map Menu.describe ds) w))) w')
    = fst (Menu.indicate sel i (map Menu.describe ds) w).
Proof.
  induction ds as [|d next IH]; intros i w w'; [reflexivity|].
  cbn [map]. rewrite (indicate_fst_cons sel i (Menu.describe d)).
  cbn [map]. rewrite indicate_fst_cons, IH. f_equal.
  destruct (state (Menu.describe d)) eqn:Es.
  - now rewrite describe_twice, Es.
  - destruct (negb (Menu.same_node sel i)) eqn:En.
    + now rewrite describe_twice, Es.
    + reflexivity.
Qed.

Lemma window_ext (w w' : WINDOW) :
  ncols w = ncols w' ->
  List.length (col3 w) = List.length (col3 w') ->
  (forall r, indicator w r = indicator w' r) ->
  w = w'.
Proof.
  destruct w as [l n], w' as [l' n']. simpl. intros -> Hlen Hnth.
  f_equal. apply (nth_ext _ _ false false Hlen). intros r _. apply Hnth.
Qed.

(** Reposting either leaves the content window alone or erases it, and
    which of the two depends on the menu only. *)
Lemma refresh_menus_cases (scr scr' : screen_t) :
  sub (menu scr') = sub (menu scr) ->
  nitems (menu scr') = nitems (menu scr) ->
  (content (Menu.refresh_menus scr) = content scr
   /\ content (Menu.refresh_menus scr') = content scr')
  \/ (content (Menu.refresh_menus scr) = werase (content scr)
      /\ content (Menu.refresh_menus scr') = werase (content scr')).
Proof.
  unfold Menu.refresh_menus. intros -> ->.
  destruct (sub (menu scr)); [destruct (nitems (menu scr))|]; simpl; auto.
Qed.

Lemma menu_driver_update_rest (scr : screen_t) (c : Z) :
  details (Menu.menu_driver_update scr c) = details scr
  /\ details_shown (Menu.menu_driver_update scr c) = details_shown scr
  /\ input_timeout (Menu.menu_driver_update scr c) = input_timeout scr
  /\ doupdates (Menu.menu_driver_update scr c)
     = if 0 <? c then S (doupdates scr) else doupdates scr.
Proof.
  unfold Menu.menu_driver_update.
  destruct (Menu.indicate _ 0 (map Menu.describe (datas scr)) _)
    as [ds' w'].
  destruct (0 <? c); simpl; auto.
Qed.

(** X18.  A refresh right after a call of [menu_driver_update] changes
    nothing: no flag, no description, no indicator, no flush. *)
Theorem refresh_after_update_is_idle (scr : screen_t) (c : Z) :
  Menu.menu_driver_update (Menu.menu_driver_update scr c) (-1)
  = Menu.menu_driver_update scr c.
Proof.
  set (s1 := Menu.menu_driver_update scr c).
  destruct (menu_driver_update_fields s1 (-1)) as (Hm2 & Hd2 & Hc2).
  destruct (menu_driver_update_rest s1 (-1)) as (He2 & Hf2 & Hh2 & Hg2).
  destruct (menu_driver_update_fields scr c) as (Hm & Hd & Hc).
  fold s1 in Hm, Hd, Hc.
  replace (0 <=? -1) with false in Hm2, Hd2, Hc2 by reflexivity.
  replace (0 <? -1) with false in Hg2 by reflexivity.
  assert (Hdatas : datas (Menu.menu_driver_update s1 (-1)) = datas s1).
  { rewrite Hd2, Hm, Hd. apply indicate_describe_twice. }
  assert (Hsame : sub (menu s1) = sub (menu scr)
                  /\ nitems (menu s1) = nitems (menu scr)).
  { rewrite Hm. destruct (0 <=? c); [apply menu_driver_keeps|now split]. }
  assert (Hcontent : content (Menu.menu_driver_update s1 (-1)) = content s1).
  { destruct (indicate_size (current_userptr (menu s1))
                (map Menu.describe (datas s1)) 0
                (content (Menu.refresh_menus s1))) as [Hn Hl].
    rewrite <- Hc2 in Hn, Hl.
    assert (Hflag : forall r,
               indicator (content (Menu.menu_driver_update s1 (-1))) r
               = indicator (content (Menu.refresh_menus s1)) r
                 || (inside (content scr) r
                     && existsb (Nat.eqb r) (flagged_rows 0 (datas s1)))).
    { intros r. rewrite Hc2, indicate_flagged_rows, refresh_menus_inside.
      rewrite <- Hd2, Hdatas.
      replace (inside (content s1) r) with (inside (content scr) r)
        by (symmetry; apply menu_driver_update_inside).
      reflexivity. }
    assert (H1 : forall r,
               indicator (content s1) r
               = indicator (content (Menu.refresh_menus scr)) r
                 || (inside (content scr) r
                     && existsb (Nat.eqb r) (flagged_rows 0 (datas s1)))).
    { intros r. rewrite Hc, Hd, indicate_flagged_rows.
      now rewrite refresh_menus_inside. }
    destruct Hsame as [Hs1 Hs2].
    destruct (refresh_menus_cases scr s1 Hs1 Hs2) as [[Ha Hb]|[Ha Hb]];
      rewrite Hb in Hn, Hl, Hflag; rewrite Ha in H1.
    - apply window_ext; [exact Hn|exact Hl|].
      intros r. rewrite Hflag, H1.
      destruct (indicator (content scr) r), (inside (content scr) r),
        (existsb (Nat.eqb r) (flagged_rows 0 (datas s1))); reflexivity.
    - apply window_ext.
      + exact Hn.
      + rewrite Hl. unfold werase. simpl. apply length_map.
      + intros r. rewrite Hflag, H1, !indicator_werase. reflexivity. }
  destruct (Menu.menu_driver_update s1 (-1)) as [a b0 k e f g h].
  destruct s1 as [a1 b1 k1 e1 f1 g1 h1].
  simpl in *. congruence.
Qed.

(** ** The foreground loop *)

Lemma menu_driver_update_doupdates (scr : screen_t) (c : Z) :
  doupdates (Menu.menu_driver_update scr c)
  = if 0 <? c then S (doupdates scr) else doupdates scr.
Proof.
  unfold Menu.menu_driver_update.
  destruct (Menu.indicate _ 0 (map Menu.describe (datas scr))) as [ds' rows].
  now destruct (0 <? c).
Qed.

Lemma on_key_doupdates (kqueue : bool) (c : Z) (s : Foreground.fg) :
  doupdates (Foreground.fg_screen (Foreground.on_key kqueue c s))
  = if Foreground.is_move c
    then S (doupdates (Foreground.fg_screen s))
    else doupdates (Foreground.fg_screen s).
Proof.
  unfold Foreground.on_key, Foreground.is_move.
  destruct (Foreground.is_up c); simpl.
  - now rewrite menu_driver_update_doupdates.
  - destruct (Foreground.is_down c); simpl.
    + now rewrite menu_driver_update_doupdates.
    + destruct (Foreground.is_enter c); [now destruct kqueue|].
      destruct (c =? Foreground.ERR); [reflexivity|now destruct kqueue].
Qed.

Lemma key_loop_doupdates (kqueue : bool) (keys : list Z) :
  forall s,
    doupdates (Foreground.fg_screen (fst (Foreground.key_loop kqueue keys s)))
    = (doupdates (Foreground.fg_screen s)
       + List.length (filter Foreground.is_move
                        (Foreground.before_quit keys)))%nat.
Proof.
  induction keys as [|c rest IH]; intros s; simpl; [lia|].
  destruct (Foreground.is_quit c); simpl; [lia|].
  rewrite IH, on_key_doupdates.
  destruct (Foreground.is_move c); simpl; lia.
Qed.

(** X19.  [process] flushes the surface once for every key that moves
    the cursor, read before the quit key, and for no other key. *)
Theorem process_flushes_per_move (kqueue : bool) (keys : list Z)
    (scr : screen_t) :
  doupdates (Foreground.fg_screen (fst (Foreground.process kqueue keys scr)))
  = (doupdates scr
     + List.length (filter Foreground.is_move (Foreground.before_quit keys)))%nat.
Proof. apply key_loop_doupdates. Qed.

Lemma Forall2_trans_same_file (l1 l2 l3 : list data_t) :
  Forall2 same_file l1 l2 -> Forall2 same_file l2 l3 ->
  Forall2 same_file l1 l3.
Proof.
  intros H. revert l3. induction H as [|a b l l' Hab _ IH]; intros l3 H3;
    inversion H3; subst; constructor.
  - eapply same_file_trans; eauto.
  - now apply IH.
Qed.

Lemma on_key_same_file (kqueue : bool) (c : Z) (s : Foreground.fg) :
  Forall2 same_file (datas (Foreground.fg_screen s))
          (datas (Foreground.fg_screen (Foreground.on_key kqueue c s))).
Proof.
  unfold Foreground.on_key.
  destruct (Foreground.is_up c); simpl;
    [apply menu_driver_update_same_file|].
  destruct (Foreground.is_down c); simpl;
    [apply menu_driver_update_same_file|].
  assert (Hsame : Forall2 same_file (datas (Foreground.fg_screen s))
                          (datas (Foreground.fg_screen s)))
    by (apply Forall2_same; apply same_file_refl).
  destruct (Foreground.is_enter c); [now destruct kqueue|].
  destruct (c =? Foreground.ERR); [exact Hsame|now destruct kqueue].
Qed.

(** X20.  Whatever keys it reads, [process] never writes a tail buffer, a
    line marker, a stream or a modification time, and never adds or
    removes an entry: only flags and menu descriptions change. *)
Theorem process_keeps_file_data (kqueue : bool) (keys : list Z)
    (scr : screen_t) :
  Forall2 same_file (datas scr)
          (datas (Foreground.fg_screen
                    (fst (Foreground.process kqueue keys scr)))).
Proof.
  unfold Foreground.process.
  change (datas scr)
    with (datas (Foreground.fg_screen (Foreground.mkFg scr None []))).
  generalize (Foreground.mkFg scr None []).
  induction keys as [|c rest IH]; intros s; simpl.
  - apply Forall2_same. apply same_file_refl.
  - destruct (Foreground.is_quit c); simpl.
    + apply Forall2_same. apply same_file_refl.
    + eapply Forall2_trans_same_file; [apply on_key_same_file|apply IH].
Qed.

Lemma key_loop_kqueue (keys : list Z) :
  forall s,
    Foreground.fg_show_details (fst (Foreground.key_loop true keys s))
    = Foreground.fg_show_details s
    /\ Foreground.fg_sent (fst (Foreground.key_loop true keys s))
       = Foreground.fg_sent s
         ++ flat_map Foreground.signal_of (Foreground.before_quit keys).
Proof.
  induction keys as [|c rest IH]; intros s; simpl.
  - now rewrite app_nil_r.
  - destruct (Foreground.is_quit c); simpl; [now rewrite app_nil_r|].
    destruct (IH (Foreground.on_key true c s)) as [-> ->].
    unfold Foreground.on_key, Foreground.signal_of, Foreground.is_move.
    destruct (Foreground.is_up c); simpl; [now split|].
    destruct (Foreground.is_down c); simpl; [now split|].
    destruct (Foreground.is_enter c); simpl;
      [now rewrite <- app_assoc|].
    destruct (c =? Foreground.ERR); simpl; [now split|].
    now rewrite <- app_assoc.
Qed.

Lemma key_loop_polling (keys : list Z) :
  forall s,
    Foreground.fg_sent (fst (Foreground.key_loop false keys s))
    = Foreground.fg_sent s.
Proof.
  induction keys as [|c rest IH]; intros s; simpl; [reflexivity|].
  destruct (Foreground.is_quit c); simpl; [reflexivity|].
  rewrite IH. unfold Foreground.on_key.
  destruct (Foreground.is_up c); [reflexivity|].
  destruct (Foreground.is_down c); [reflexivity|].
  destruct (Foreground.is_enter c); [reflexivity|].
  now destruct (c =? Foreground.ERR).
Qed.

(** X21.  With kqueue, [process] clears [show_details] once and never
    assigns it again: it sends [SIGUSR1] for every enter key and
    [SIGUSR2] for every key that is neither a move, nor enter, nor ERR,
    in the order of the keys read before the quit key.  Without kqueue
    it sends no signal. *)
Theorem process_signals (keys : list Z) (scr : screen_t) :
  Foreground.fg_show_details (fst (Foreground.process true keys scr)) = None
  /\ Foreground.fg_sent (fst (Foreground.process true keys scr))
     = flat_map Foreground.signal_of (Foreground.before_quit keys)
  /\ Foreground.fg_sent (fst (Foreground.process false keys scr)) = [].
Proof.
  unfold Foreground.process.
  destruct (key_loop_kqueue keys (Foreground.mkFg scr None [])) as [-> ->].
  rewrite key_loop_polling. now repeat split.
Qed.

Lemma key_loop_app (kqueue : bool) (pre post : list Z) :
  Forall (fun c => Foreground.is_quit c = false) pre ->
  forall s,
    Foreground.key_loop kqueue (pre ++ post) s
    = Foreground.key_loop kqueue post
        (fst (Foreground.key_loop kqueue pre s)).
Proof.
  induction 1 as [|c pre Hc _ IH]; intros s; simpl; [reflexivity|].
  rewrite Hc. apply IH.
Qed.

Lemma move_is_no_quit (c : Z) :
  Foreground.is_move c = true -> Foreground.is_quit c = false.
Proof.
  unfold Foreground.is_move, Foreground.is_up, Foreground.is_down,
    Foreground.is_quit, Foreground.KEY_UP, Foreground.KEY_DOWN.
  intros H.
  repeat (apply orb_true_iff in H; destruct H as [H|H]);
    apply Z.eqb_eq in H; subst c; reflexivity.
Qed.

Lemma moves_keep_details (moves : list Z) :
  Forall (fun c => Foreground.is_move c = true) moves ->
  forall s,
    Foreground.fg_show_details (fst (Foreground.key_loop false moves s))
    = Foreground.fg_show_details s.
Proof.
  induction 1 as [|c moves Hc _ IH]; intros s; simpl; [reflexivity|].
  rewrite (move_is_no_quit c Hc), IH.
  unfold Foreground.on_key. unfold Foreground.is_move in Hc.
  destruct (Foreground.is_up c); [reflexivity|].
  destruct (Foreground.is_down c); [reflexivity|discriminate Hc].
Qed.

(** X22.  Without kqueue, the enter key sets the details target to the
    entry under the cursor at that moment, and moving the cursor
    afterwards does not retarget it. *)
Theorem details_stay_on_entered (pre moves : list Z) (c : Z)
    (scr : screen_t) :
  Forall (fun k => Foreground.is_quit k = false) pre ->
  Foreground.is_enter c = true ->
  Forall (fun k => Foreground.is_move k = true) moves ->
  Foreground.fg_show_details
    (fst (Foreground.process false (pre ++ c :: moves) scr))
  = current_userptr
      (menu (Foreground.fg_screen (fst (Foreground.process false pre scr)))).
Proof.
  intros Hpre Hc Hmoves. unfold Foreground.process.
  rewrite (key_loop_app false pre (c :: moves) Hpre). simpl.
  assert (Hq : Foreground.is_quit c = false).
  { unfold Foreground.is_enter, Foreground.is_quit, Foreground.KEY_ENTER in *.
    repeat (apply orb_true_iff in Hc; destruct Hc as [Hc|Hc]);
      apply Z.eqb_eq in Hc; subst c; reflexivity. }
  assert (Hup : Foreground.is_up c = false /\ Foreground.is_down c = false).
  { unfold Foreground.is_enter, Foreground.is_up, Foreground.is_down,
      Foreground.KEY_ENTER, Foreground.KEY_UP, Foreground.KEY_DOWN in *.
    repeat (apply orb_true_iff in Hc; destruct Hc as [Hc|Hc]);
      apply Z.eqb_eq in Hc; subst c; split; reflexivity. }
  rewrite Hq, (moves_keep_details moves Hmoves).
  unfold Foreground.on_key. destruct Hup as [-> ->]. rewrite Hc.
  reflexivity.
Qed.

Lemma details_stay_on_entered_witness :
  Foreground.fg_show_details
    (fst (Foreground.process false
            [Foreground.KEY_DOWN; 10; Foreground.KEY_UP]
            (Watcher.screen watching)))
  = Some 1%nat.
Proof.
  refine (eq_trans
            (details_stay_on_entered [Foreground.KEY_DOWN]
               [Foreground.KEY_UP] 10 (Watcher.screen watching) _ _ _) _).
  - repeat constructor.
  - reflexivity.
  - repeat constructor.
  - vm_compute. reflexivity.
Defined.

(** ** More on the configuration file *)

Lemma cut_not_in (ch : ascii) (l : list ascii) : ~ In ch (Config.cut ch l).
Proof.
  induction l as [|c t IH]; simpl; [tauto|].
  unfold Config.ascii_eqb. destruct (Ascii.eqb c ch) eqn:E; simpl; [tauto|].
  apply Ascii.eqb_neq in E. intros [H|H]; [now apply E|now apply IH].
Qed.

Lemma cut_incl (ch x : ascii) (l : list ascii) :
  In x (Config.cut ch l) -> In x l.
Proof.
  induction l as [|c t IH]; simpl; [tauto|].
  destruct (Config.ascii_eqb c ch); simpl; [tauto|].
  intros [H|H]; [now left|right; now apply IH].
Qed.

Lemma skip_space_incl (x : ascii) (l : list ascii) :
  In x (Config.skip_space l) -> In x l.
Proof.
  induction l as [|c t IH]; simpl; [tauto|].
  destruct (Config.isspace c); [intros H; right; now apply IH|tauto].
Qed.

Lemma skip_space_head (l : list ascii) (c : ascii) (t : list ascii) :
  Config.skip_space l = c :: t -> Config.isspace c = false.
Proof.
  induction l as [|x l IH]; simpl; [discriminate|].
  destruct (Config.isspace x) eqn:E; [exact IH|].
  now intros [= <- _].
Qed.

(** X23.  A path taken from a line of the configuration is never empty,
    does not begin with white space, and holds no comment mark, no line
    feed, no blank and no NUL. *)
Theorem path_of_line_clean (ln : list ascii) (p : string) :
  Config.path_of_line ln = Some p ->
  exists c t,
    list_ascii_of_string p = c :: t
    /\ Config.isspace c = false
    /\ ~ In Config.COMMENT_CHAR (c :: t)
    /\ ~ In Config.LF (c :: t)
    /\ ~ In " "%char (c :: t)
    /\ ~ In zero (c :: t).
Proof.
  unfold Config.path_of_line.
  destruct (Config.skip_space (Config.cstr ln)) as [|first rest] eqn:Es;
    [discriminate|].
  destruct (Config.ascii_eqb first Config.COMMENT_CHAR) eqn:Ef;
    [discriminate|].
  set (body := first :: rest) in *.
  destruct (Config.cut " "%char (Config.cut Config.LF
              (Config.cut Config.COMMENT_CHAR body))) as [|c t] eqn:Ec;
    [discriminate|].
  intros [= <-]. exists c, t.
  split; [exact (list_ascii_of_string_of_list_ascii (c :: t))|].
  assert (Hc : c = first).
  { unfold body in Ec. simpl in Ec. rewrite Ef in Ec. simpl in Ec.
    destruct (Config.ascii_eqb first Config.LF); [discriminate Ec|].
    simpl in Ec.
    destruct (Config.ascii_eqb first " "%char); [discriminate Ec|].
    now injection Ec as <- _. }
  split; [subst c; exact (skip_space_head _ _ _ Es)|].
  rewrite <- Ec. repeat split.
  - intros H. apply cut_incl, cut_incl in H. exact (cut_not_in _ _ H).
  - intros H. apply cut_incl in H. exact (cut_not_in _ _ H).
  - apply cut_not_in.
  - intros H. do 3 apply cut_incl in H. subst body. rewrite <- Es in H.
    apply skip_space_incl in H. exact (cut_not_in _ _ H).
Qed.

Lemma path_of_line_clean_witness :
  exists c t,
    list_ascii_of_string "gone.log" = c :: t
    /\ ~ In " "%char (c :: t).
Proof.
  destruct (path_of_line_clean
              (list_ascii_of_string "  gone.log # moved") "gone.log")
    as (c & t & H1 & _ & _ & _ & H2 & _).
  - vm_compute. reflexivity.
  - now exists c, t.
Defined.

Lemma cut_app (ch : ascii) (l1 l2 : list ascii) :
  ~ In ch l1 -> Config.cut ch (l1 ++ l2) = l1 ++ Config.cut ch l2.
Proof.
  induction l1 as [|c t IH]; simpl; intros H; [reflexivity|].
  unfold Config.ascii_eqb. destruct (Ascii.eqb c ch) eqn:E.
  - apply Ascii.eqb_eq in E. exfalso. apply H. now left.
  - rewrite IH; [reflexivity|]. intros Hin. apply H. now right.
Qed.

Lemma skip_space_app (indent l : list ascii) :
  Forall (fun c => Config.isspace c = true) indent ->
  Config.skip_space (indent ++ l) = Config.skip_space l.
Proof. induction 1 as [|c t Hc _ IH]; simpl; [reflexivity|now rewrite Hc]. Qed.

Lemma cuts_at_end (rest : list ascii) :
  rest = [] \/ (exists sep tl, rest = sep :: tl /\ ends_path sep) ->
  Config.cut " "%char
    (Config.cut Config.LF (Config.cut Config.COMMENT_CHAR (Config.cstr rest)))
  = [].
Proof.
  intros [-> | (sep & tl & -> & [-> | [-> | [-> | ->]]])]; reflexivity.
Qed.

(** X24.  A configuration line made of white space, a path and then
    nothing, or a comment mark, a line feed, a blank or a NUL followed
    by anything at all, names that path: provided the path is not empty,
    does not begin with white space and holds none of those four
    chars. *)
Theorem path_of_line_reads_path (indent rest t : list ascii) (c : ascii) :
  Forall (fun x => Config.isspace x = true) indent ->
  Config.isspace c = false ->
  Forall (fun x => ~ ends_path x) (c :: t) ->
  rest = [] \/ (exists sep tl, rest = sep :: tl /\ ends_path sep) ->
  Config.path_of_line (indent ++ (c :: t) ++ rest)
  = Some (string_of_list_ascii (c :: t)).
Proof.
  intros Hind Hc Hp Hrest.
  assert (Hnot : forall ch, ends_path ch -> ~ In ch (c :: t)).
  { intros ch Hch Hin. rewrite Forall_forall in Hp. exact (Hp ch Hin Hch). }
  assert (Hz : ~ In zero indent).
  { intros Hin. rewrite Forall_forall in Hind. specialize (Hind _ Hin).
    discriminate Hind. }
  unfold Config.path_of_line, Config.cstr.
  rewrite (cut_app zero indent) by exact Hz.
  rewrite (cut_app zero (c :: t))
    by (apply Hnot; unfold ends_path; tauto).
  rewrite skip_space_app by exact Hind.
  fold (Config.cstr rest).
  change ((c :: t) ++ Config.cstr rest) with (c :: t ++ Config.cstr rest).
  cbn [Config.skip_space]. rewrite Hc.
  assert (Hc1 : Config.ascii_eqb c Config.COMMENT_CHAR = false).
  { apply Ascii.eqb_neq. intros ->.
    apply (Hnot Config.COMMENT_CHAR); [unfold ends_path; tauto|now left]. }
  rewrite Hc1.
  change (c :: t ++ Config.cstr rest) with ((c :: t) ++ Config.cstr rest).
  rewrite (cut_app Config.COMMENT_CHAR (c :: t))
    by (apply Hnot; unfold ends_path; tauto).
  rewrite (cut_app Config.LF (c :: t))
    by (apply Hnot; unfold ends_path; tauto).
  rewrite (cut_app " "%char (c :: t))
    by (apply Hnot; unfold ends_path; tauto).
  rewrite (cuts_at_end rest Hrest), app_nil_r. reflexivity.
Qed.

Lemma path_of_line_reads_path_witness :
  Config.path_of_line
    (list_ascii_of_string "  gone.log # moved")
  = Some "gone.log".
Proof.
  apply (path_of_line_reads_path
           (list_ascii_of_string "  ")
           (list_ascii_of_string " # moved")
           (list_ascii_of_string "one.log") "g"%char).
  - repeat constructor.
  - reflexivity.
  - repeat constructor; unfold ends_path; intuition discriminate.
  - right. do 2 eexists. split; [reflexivity|]. unfold ends_path. tauto.
Defined.

(** ** The command line *)








(** ** The title *)

(** X26.  A title that is not longer than the window is wide is printed
    inside the window, and its margins on the left and on the right
    differ by at most one column. *)
Theorem title_is_centered (max_x length : Z) :
  0 <= length <= max_x ->
  0 <= find_center_start max_x length
  /\ find_center_start max_x length + length <= max_x
  /\ -1 <= (max_x - (find_center_start max_x length + length))
           - find_center_start max_x length <= 1.
Proof.
  intros H. unfold find_center_start.
  rewrite !Z.quot_div_nonneg by lia.
  pose proof (Z.div_mod max_x 2 ltac:(lia)).
  pose proof (Z.div_mod length 2 ltac:(lia)).
  pose proof (Z.mod_pos_bound max_x 2 ltac:(lia)).
  pose proof (Z.mod_pos_bound length 2 ltac:(lia)).
  assert (length / 2 <= max_x / 2) by (apply Z.div_le_mono; lia).
  lia.
Qed.

Lemma title_is_centered_witness :
  title_column 80 = 33 /\ 0 <= title_column 80 /\ title_column 80 + 15 <= 80.
Proof.
  destruct (title_is_centered 80 (Z.of_nat (String.length TITLE)))
    as (H1 & H2 & _).
  - vm_compute. split; discriminate.
  - split; [reflexivity|]. split; [exact H1|exact H2].
Defined.
